(** * Landmark signal-processing core: a shallow embedding

    The detectors of [src/utils] (blink, sleep, fatigue, head tracking,
    eye gestures, finger counting and the gesture hold recognizer) are
    translated function by function.

    Numbers.  A JavaScript [number] that carries a measured quantity
    (a coordinate, an EAR, a threshold, a score) is an idealised real:
    finite and without rounding.  Frame counters, event counters and
    [Date.now()] timestamps (whole milliseconds) are integers.  The hand
    classifier only orders coordinates, so a hand landmark holds
    rationals and the classifier computes.

    Failure.  Reading a field of [landmarks[i]] when [i] is out of range
    raises a [TypeError]; a function that can do so returns an [option]
    and [None] is the raised error.  Every class method that can raise
    does so before it assigns to a field, except [HeadTracker.track],
    which returns the state it leaves behind on both paths.

    Clock.  A method that reads [Date.now()] takes the time as its first
    argument [now]. *)

From Stdlib Require Import Reals Lra Lia ZArith List Bool QArith.
From Stdlib Require String.
From Stdlib Require Import Qround.
From Stdlib Require Lqa.
Import ListNotations.

(** ** Array access and the error monad *)

Module JS.

(** [arr[i]] followed by a field read: [None] when [i] is out of range. *)
Definition at_ {A : Type} (arr : list A) (i : nat) : option A := nth_error arr i.

Definition bind {A B : Type} (m : option A) (k : A -> option B) : option B :=
  match m with
  | Some a => k a
  | None => None
  end.

(** [Array.prototype.shift]: drop the first element. *)
Definition shift {A : Type} (arr : list A) : list A := tl arr.

(** [arr.push(v)] *)
Definition push {A : Type} (arr : list A) (v : A) : list A := arr ++ [v].

(** [arr.slice(-n)]: the last [n] elements (all of them when shorter). *)
Definition slice_last {A : Type} (n : nat) (arr : list A) : list A :=
  skipn (length arr - n) arr.

(** [arr.reduce((a, b) => a + b, 0)] *)
Definition sum (arr : list R) : R := fold_left Rplus arr 0%R.

(** [Math.atan2(b, a)] on finite arguments (zero carries no sign). *)
Definition atan2 (b a : R) : R :=
  if Rlt_dec 0 a then atan (b / a)
  else if Rlt_dec a 0 then
    (if Rlt_dec b 0 then atan (b / a) - PI else atan (b / a) + PI)
  else if Rlt_dec 0 b then PI / 2
  else if Rlt_dec b 0 then - (PI / 2)
  else 0.

(** [v || d] on numbers: [d] replaces a zero. *)
Definition or_default (v d : R) : R := if Req_dec_T v 0 then d else v.

(** [Math.round]: the nearest integer, a tie going up. *)
Definition round (v : R) : Z := Int_part (v + / 2).

(** [Math.min] on finite rationals. *)
Definition minQ (a b : Q) : Q := if Qle_bool a b then a else b.

(** [indices.map(i => arr[i])] followed by a field read of every
    element: [None] when one index is out of range. *)
Fixpoint all_at {A : Type} (arr : list A) (indices : list nat) : option (list A) :=
  match indices with
  | [] => Some []
  | i :: rest =>
      match nth_error arr i, all_at arr rest with
      | Some v, Some vs => Some (v :: vs)
      | _, _ => None
      end
  end.

End JS.

Notation "x <- m ;; k" := (JS.bind m (fun x => k))
  (at level 61, m at next level, right associativity).
Notation "arr .[ i ]" := (JS.at_ arr i) (at level 1, format "arr .[ i ]").

(** ** blinkDetection.ts *)

Module BlinkDetection.

Open Scope R_scope.

Record Landmark : Type := mkLandmark { x : R; y : R; z : R }.

(** The six EAR indices of one eye. *)
Record EyePoints : Type := mkEyePoints
  { p1 : nat; p2 : nat; p3 : nat; p4 : nat; p5 : nat; p6 : nat }.

Definition LEFT_EYE_EAR_POINTS : EyePoints :=
  {| p1 := 33; p2 := 160; p3 := 158; p4 := 133; p5 := 153; p6 := 144 |}.

Definition RIGHT_EYE_EAR_POINTS : EyePoints :=
  {| p1 := 362; p2 := 385; p3 := 387; p4 := 263; p5 := 373; p6 := 380 |}.

Definition euclideanDistance (a b : Landmark) : R :=
  sqrt ((x a - x b) ^ 2 + (y a - y b) ^ 2).

Definition calculateEAR (landmarks : list Landmark) (eyePoints : EyePoints) : option R :=
  q1 <- landmarks.[p1 eyePoints] ;;
  q2 <- landmarks.[p2 eyePoints] ;;
  q3 <- landmarks.[p3 eyePoints] ;;
  q4 <- landmarks.[p4 eyePoints] ;;
  q5 <- landmarks.[p5 eyePoints] ;;
  q6 <- landmarks.[p6 eyePoints] ;;
  let vertical1 := euclideanDistance q2 q6 in
  let vertical2 := euclideanDistance q3 q5 in
  let horizontal := euclideanDistance q1 q4 in
  if Req_dec_T horizontal 0 then Some 0
  else Some ((vertical1 + vertical2) / (2 * horizontal)).

Record BlinkDetectionResult : Type := mkBlinkDetectionResult
  { isBlinking : bool; leftEAR : R; rightEAR : R; avgEAR : R }.

(** [EAR_THRESHOLD] is a field because [setThreshold] assigns it;
    [CONSEC_FRAMES] is never assigned. *)
Record BlinkDetector : Type := mkBlinkDetector
  { EAR_THRESHOLD : R;
    frameCounter : Z;
    blinkCount : Z }.

Definition CONSEC_FRAMES : Z := 2.

(** [new BlinkDetector()] *)
Definition fresh : BlinkDetector :=
  {| EAR_THRESHOLD := 0.21; frameCounter := 0; blinkCount := 0 |}.

Definition detect (this : BlinkDetector) (landmarks : list Landmark)
  : option (BlinkDetector * BlinkDetectionResult) :=
  l <- calculateEAR landmarks LEFT_EYE_EAR_POINTS ;;
  r <- calculateEAR landmarks RIGHT_EYE_EAR_POINTS ;;
  let avg := (l + r) / 2 in
  let blinking := if Rlt_dec avg (EAR_THRESHOLD this) then true else false in
  let this' :=
    if blinking then
      {| EAR_THRESHOLD := EAR_THRESHOLD this;
         frameCounter := (frameCounter this + 1)%Z;
         blinkCount := blinkCount this |}
    else
      {| EAR_THRESHOLD := EAR_THRESHOLD this;
         frameCounter := 0%Z;
         blinkCount :=
           if (CONSEC_FRAMES <=? frameCounter this)%Z
           then (blinkCount this + 1)%Z else blinkCount this |} in
  Some (this', {| isBlinking := blinking; leftEAR := l; rightEAR := r; avgEAR := avg |}).

Definition getBlinkCount (this : BlinkDetector) : Z := blinkCount this.

Definition resetBlinkCount (this : BlinkDetector) : BlinkDetector :=
  {| EAR_THRESHOLD := EAR_THRESHOLD this;
     frameCounter := frameCounter this;
     blinkCount := 0%Z |}.

Definition setThreshold (this : BlinkDetector) (threshold : R) : BlinkDetector :=
  {| EAR_THRESHOLD := threshold;
     frameCounter := frameCounter this;
     blinkCount := blinkCount this |}.

Definition areEyesClosed (landmarks : list Landmark) (threshold : R) : option bool :=
  l <- calculateEAR landmarks LEFT_EYE_EAR_POINTS ;;
  r <- calculateEAR landmarks RIGHT_EYE_EAR_POINTS ;;
  let avg := (l + r) / 2 in
  Some (if Rlt_dec avg threshold then true else false).

(** [getEyeAspectRatio(landmarks).avg] *)
Definition getEyeAspectRatio_avg (landmarks : list Landmark) : option R :=
  l <- calculateEAR landmarks LEFT_EYE_EAR_POINTS ;;
  r <- calculateEAR landmarks RIGHT_EYE_EAR_POINTS ;;
  Some ((l + r) / 2).

(** Feeding a stream of frames to one detector, oldest first. *)
Fixpoint detectAll (this : BlinkDetector) (frames : list (list Landmark))
  : option BlinkDetector :=
  match frames with
  | [] => Some this
  | f :: rest =>
      match detect this f with
      | Some (this', _) => detectAll this' rest
      | None => None
      end
  end.

End BlinkDetection.

(** ** headTracking.ts *)

Module HeadTracking.

Open Scope R_scope.

Local Abbreviation Landmark := BlinkDetection.Landmark.
Local Abbreviation lx := BlinkDetection.x.
Local Abbreviation ly := BlinkDetection.y.

Definition NOSE_TIP : nat := 4.
Definition FOREHEAD_CENTER : nat := 10.
Definition CHIN : nat := 152.
Definition LEFT_EYE_OUTER : nat := 33.
Definition RIGHT_EYE_OUTER : nat := 263.

Record HeadPosition : Type := mkHeadPosition
  { x : R; y : R; tilt : R; yaw : R; pitch : R }.

Record CalibrationData : Type := mkCalibrationData
  { centerX : R; centerY : R; rangeX : R; rangeY : R; isCalibrated : bool }.

Record HeadTracker : Type := mkHeadTracker
  { calibration : CalibrationData;
    smoothedX : R;
    smoothedY : R;
    smoothingFactor : R }.

(** [new HeadTracker()] *)
Definition fresh : HeadTracker :=
  {| calibration :=
       {| centerX := 0.5; centerY := 0.5; rangeX := 0.3; rangeY := 0.2;
          isCalibrated := false |};
     smoothedX := 0; smoothedY := 0; smoothingFactor := 0.7 |}.

Definition setCalibration (this : HeadTracker) (c : CalibrationData) : HeadTracker :=
  {| calibration := c;
     smoothedX := smoothedX this;
     smoothedY := smoothedY this;
     smoothingFactor := smoothingFactor this |}.

Definition setSmoothing (this : HeadTracker) (factor : R) : HeadTracker :=
  {| calibration := calibration this;
     smoothedX := smoothedX this;
     smoothedY := smoothedY this;
     smoothingFactor := Rmax 0 (Rmin 1 factor) |}.

(** The first component is the tracker after the call; the second is the
    returned position, or [None] when a landmark was missing.  [nose.x]
    is read before the smoothed fields are assigned, the other four
    landmarks after. *)
Definition track (this : HeadTracker) (landmarks : list Landmark)
  : HeadTracker * option HeadPosition :=
  match landmarks.[NOSE_TIP] with
  | None => (this, None)
  | Some nose =>
      let c := calibration this in
      let rawX := (lx nose - centerX c) / rangeX c in
      let rawY := (ly nose - centerY c) / rangeY c in
      let rawX := Rmax (-1) (Rmin 1 rawX) in
      let rawY := Rmax (-1) (Rmin 1 rawY) in
      let f := smoothingFactor this in
      let this' :=
        {| calibration := c;
           smoothedX := smoothedX this * f + rawX * (1 - f);
           smoothedY := smoothedY this * f + rawY * (1 - f);
           smoothingFactor := f |} in
      (this',
       forehead <- landmarks.[FOREHEAD_CENTER] ;;
       chin <- landmarks.[CHIN] ;;
       leftEye <- landmarks.[LEFT_EYE_OUTER] ;;
       rightEye <- landmarks.[RIGHT_EYE_OUTER] ;;
       let eyeDeltaY := ly rightEye - ly leftEye in
       let eyeDeltaX := lx rightEye - lx leftEye in
       let tilt := JS.atan2 eyeDeltaY eyeDeltaX in
       let eyeCenter := (lx leftEye + lx rightEye) / 2 in
       let noseToEyeCenter := lx nose - eyeCenter in
       let eyeDistance := Rabs (lx rightEye - lx leftEye) in
       let yaw := JS.atan2 (noseToEyeCenter * 2) (JS.or_default eyeDistance 0.1) in
       let faceHeight := Rabs (ly forehead - ly chin) in
       let noseOffset := ly nose - ly forehead in
       let normalizedPitch := noseOffset / JS.or_default faceHeight 0.1 in
       let pitch := JS.atan2 (normalizedPitch - 0.5) 1 in
       Some {| x := smoothedX this'; y := smoothedY this';
               tilt := tilt; yaw := yaw; pitch := pitch |})
  end.

(** Returns the tracker after the call, or [None] when the nose landmark
    is missing ([nose.x] raises before any assignment).  The value the
    method returns is the [calibration] field of the result. *)
Definition calibrate (this : HeadTracker) (landmarks : list Landmark)
  : option HeadTracker :=
  nose <- landmarks.[NOSE_TIP] ;;
  Some {| calibration :=
            {| centerX := lx nose; centerY := ly nose;
               rangeX := 0.25; rangeY := 0.15; isCalibrated := true |};
          smoothedX := 0;
          smoothedY := 0;
          smoothingFactor := smoothingFactor this |}.

Definition getCalibration (this : HeadTracker) : CalibrationData := calibration this.

Definition reset (this : HeadTracker) : HeadTracker :=
  {| calibration := calibration this;
     smoothedX := 0;
     smoothedY := 0;
     smoothingFactor := smoothingFactor this |}.

(** The point [headPositionToScreen] returns. *)
Record ScreenPoint : Type := mkScreenPoint { screenX : R; screenY : R }.

(** [headPositionToScreen(headPos, screenWidth, screenHeight, speed, deadZone)];
    the defaults of the last two arguments are [DEFAULT_SPEED] and
    [DEFAULT_DEAD_ZONE]. *)
Definition headPositionToScreen (headPos : HeadPosition)
  (screenWidth screenHeight speed deadZone : R) : ScreenPoint :=
  let x0 := if Rlt_dec (Rabs (x headPos)) deadZone then 0 else x headPos in
  let y0 := if Rlt_dec (Rabs (y headPos)) deadZone then 0 else y headPos in
  let x1 := x0 * speed in
  let y1 := y0 * speed in
  let sx := (x1 + 1) / 2 in
  let sy := (y1 + 1) / 2 in
  {| screenX := Rmax 0 (Rmin 1 sx) * screenWidth;
     screenY := Rmax 0 (Rmin 1 sy) * screenHeight |}.

Definition DEFAULT_SPEED : R := 1.5.
Definition DEFAULT_DEAD_ZONE : R := 0.05.

(** [isHeadNeutral(headPos, threshold)] *)
Definition isHeadNeutral (headPos : HeadPosition) (threshold : R) : bool :=
  (if Rlt_dec (Rabs (x headPos)) threshold then true else false) &&
  (if Rlt_dec (Rabs (y headPos)) threshold then true else false) &&
  (if Rlt_dec (Rabs (tilt headPos)) 0.1 then true else false).

End HeadTracking.

(** ** sleepDetection.ts *)

Module SleepDetection.

Open Scope R_scope.

Local Abbreviation Landmark := BlinkDetection.Landmark.
Local Abbreviation lx := BlinkDetection.x.
Local Abbreviation ly := BlinkDetection.y.

Definition NOSE_TIP : nat := 1.
Definition FOREHEAD : nat := 10.
Definition CHIN : nat := 152.
Definition LEFT_EYE_OUTER : nat := 33.
Definition RIGHT_EYE_OUTER : nat := 263.

Record SleepDetectionResult : Type := mkSleepDetectionResult
  { isSleeping : bool;
    sleepScore : Z;
    eyeClosedDuration : Z;
    headDownDuration : Z;
    isHeadDown : bool;
    headPitch : R }.

Record HeadPose : Type := mkHeadPose { pitch : R; yaw : R; roll : R }.

Record SleepDetector : Type := mkSleepDetector
  { eyeClosedFrames : Z;
    headDownFrames : Z;
    EYE_CLOSED_THRESHOLD : R;
    HEAD_DOWN_THRESHOLD : R;
    PITCH_THRESHOLD : R;
    sleepStartTime : option Z;
    totalSleepDuration : Z }.

(** The one threshold of the class that [setThresholds] cannot assign. *)
Definition EAR_THRESHOLD : R := 0.21.

(** [new SleepDetector()] *)
Definition fresh : SleepDetector :=
  {| eyeClosedFrames := 0; headDownFrames := 0;
     EYE_CLOSED_THRESHOLD := 45; HEAD_DOWN_THRESHOLD := 30;
     PITCH_THRESHOLD := 0.25;
     sleepStartTime := None; totalSleepDuration := 0 |}.

Definition calculateHeadPose (landmarks : list Landmark) : option HeadPose :=
  noseTip <- landmarks.[NOSE_TIP] ;;
  forehead <- landmarks.[FOREHEAD] ;;
  chin <- landmarks.[CHIN] ;;
  leftEye <- landmarks.[LEFT_EYE_OUTER] ;;
  rightEye <- landmarks.[RIGHT_EYE_OUTER] ;;
  let faceHeight := Rabs (ly forehead - ly chin) in
  let noseOffset := ly noseTip - ly forehead in
  let normalizedPitch := noseOffset / JS.or_default faceHeight 1 in
  let pitch := JS.atan2 normalizedPitch 1 in
  let eyeCenter := (lx leftEye + lx rightEye) / 2 in
  let noseToEyeCenter := lx noseTip - eyeCenter in
  let eyeDistance := Rabs (lx rightEye - lx leftEye) in
  let yaw := JS.atan2 (noseToEyeCenter * 2) (JS.or_default eyeDistance 1) in
  let eyeDeltaY := ly rightEye - ly leftEye in
  let eyeDeltaX := lx rightEye - lx leftEye in
  let roll := JS.atan2 eyeDeltaY (JS.or_default eyeDeltaX 1) in
  Some {| pitch := pitch; yaw := yaw; roll := roll |}.

(** The local [eyeScore] of [detect], read off the updated counter.  The
    quotient is the source's for a non-zero threshold only: with
    [EYE_CLOSED_THRESHOLD] set to 0 the source divides by zero
    ([Infinity] or [NaN]), so every statement about the score carries
    [0 < EYE_CLOSED_THRESHOLD]. *)
Definition eyeScore (this : SleepDetector) : R :=
  Rmin 100 (IZR (eyeClosedFrames this) / EYE_CLOSED_THRESHOLD this * 60).

(** The local [headScore] of [detect], read off the updated counter;
    likewise for [0 < HEAD_DOWN_THRESHOLD] only. *)
Definition headScore (this : SleepDetector) : R :=
  Rmin 40 (IZR (headDownFrames this) / HEAD_DOWN_THRESHOLD this * 40).

Definition detect (currentTime : Z) (this : SleepDetector) (landmarks : list Landmark)
  : option (SleepDetector * SleepDetectionResult) :=
  eyesClosed <- BlinkDetection.areEyesClosed landmarks EAR_THRESHOLD ;;
  headPose <- calculateHeadPose landmarks ;;
  let isHeadDown := if Rgt_dec (pitch headPose) (PITCH_THRESHOLD this) then true else false in
  let eyeClosedFrames' :=
    if eyesClosed then (eyeClosedFrames this + 1)%Z
    else Z.max 0 (eyeClosedFrames this - 2) in
  let headDownFrames' :=
    if isHeadDown then (headDownFrames this + 1)%Z
    else Z.max 0 (headDownFrames this - 2) in
  let eyesFactor :=
    if Rge_dec (IZR eyeClosedFrames') (EYE_CLOSED_THRESHOLD this) then true else false in
  let headFactor :=
    if Rge_dec (IZR headDownFrames') (HEAD_DOWN_THRESHOLD this) then true else false in
  let combinedFactor :=
    eyesClosed &&
    (if Rge_dec (IZR headDownFrames') (HEAD_DOWN_THRESHOLD this / 2) then true else false) in
  let isSleeping := eyesFactor || (eyesClosed && headFactor) || combinedFactor in
  let '(sleepStartTime', totalSleepDuration') :=
    if isSleeping then
      match sleepStartTime this with
      | None => (Some currentTime, totalSleepDuration this)
      | Some t => (Some t, totalSleepDuration this)
      end
    else
      match sleepStartTime this with
      | Some t => (None, (totalSleepDuration this + (currentTime - t))%Z)
      | None => (None, totalSleepDuration this)
      end in
  let this' :=
    {| eyeClosedFrames := eyeClosedFrames';
       headDownFrames := headDownFrames';
       EYE_CLOSED_THRESHOLD := EYE_CLOSED_THRESHOLD this;
       HEAD_DOWN_THRESHOLD := HEAD_DOWN_THRESHOLD this;
       PITCH_THRESHOLD := PITCH_THRESHOLD this;
       sleepStartTime := sleepStartTime';
       totalSleepDuration := totalSleepDuration' |} in
  let sleepScore := Rmin 100 (eyeScore this' + headScore this') in
  Some (this',
        {| isSleeping := isSleeping;
           sleepScore := JS.round sleepScore;
           eyeClosedDuration := eyeClosedFrames';
           headDownDuration := headDownFrames';
           isHeadDown := isHeadDown;
           headPitch := pitch headPose |}).

Definition getCurrentSleepDuration (now : Z) (this : SleepDetector) : Z :=
  match sleepStartTime this with
  | Some t => (totalSleepDuration this + (now - t))%Z
  | None => totalSleepDuration this
  end.

Definition resetSleepDuration (this : SleepDetector) : SleepDetector :=
  {| eyeClosedFrames := eyeClosedFrames this;
     headDownFrames := headDownFrames this;
     EYE_CLOSED_THRESHOLD := EYE_CLOSED_THRESHOLD this;
     HEAD_DOWN_THRESHOLD := HEAD_DOWN_THRESHOLD this;
     PITCH_THRESHOLD := PITCH_THRESHOLD this;
     sleepStartTime := None;
     totalSleepDuration := 0 |}.

Definition reset (this : SleepDetector) : SleepDetector :=
  {| eyeClosedFrames := 0;
     headDownFrames := 0;
     EYE_CLOSED_THRESHOLD := EYE_CLOSED_THRESHOLD this;
     HEAD_DOWN_THRESHOLD := HEAD_DOWN_THRESHOLD this;
     PITCH_THRESHOLD := PITCH_THRESHOLD this;
     sleepStartTime := None;
     totalSleepDuration := 0 |}.

(** The argument of [setThresholds]; [None] is an absent ([undefined]) key. *)
Record ThresholdOptions : Type := mkThresholdOptions
  { eyeClosedThreshold : option R;
    headDownThreshold : option R;
    pitchThreshold : option R }.

Definition setThresholds (this : SleepDetector) (options : ThresholdOptions)
  : SleepDetector :=
  {| eyeClosedFrames := eyeClosedFrames this;
     headDownFrames := headDownFrames this;
     EYE_CLOSED_THRESHOLD :=
       match eyeClosedThreshold options with
       | Some v => v
       | None => EYE_CLOSED_THRESHOLD this
       end;
     HEAD_DOWN_THRESHOLD :=
       match headDownThreshold options with
       | Some v => v
       | None => HEAD_DOWN_THRESHOLD this
       end;
     PITCH_THRESHOLD :=
       match pitchThreshold options with
       | Some v => v
       | None => PITCH_THRESHOLD this
       end;
     sleepStartTime := sleepStartTime this;
     totalSleepDuration := totalSleepDuration this |}.

Definition getTotalSleepDuration (now : Z) (this : SleepDetector) : Z :=
  getCurrentSleepDuration now this.

(** The exported [isHeadDown(landmarks, threshold)]; it builds a new
    detector only to reach [calculateHeadPose]. *)
Definition isHeadDown_of (landmarks : list Landmark) (threshold : R) : option bool :=
  pose <- calculateHeadPose landmarks ;;
  Some (if Rgt_dec (pitch pose) threshold then true else false).

End SleepDetection.

(** ** fatigueDetection.ts *)

Module FatigueDetection.

Open Scope Z_scope.

Record FatigueDetector : Type := mkFatigueDetector
  { blinkTimestamps : list Z;
    blinkDurations : list Z;
    lastBlinkStart : option Z;
    wasBlinking : bool;
    leftEyeHistory : list bool;
    rightEyeHistory : list bool;
    yawnCount : Z;
    lastYawnTime : Z;
    mouthOpenDuration : Z;
    mouthWasOpen : bool;
    mouthOpenStart : Z;
    headYHistory : list R;
    headDroopEvents : Z;
    headYBaseline : option R;
    sessionStartTime : option Z;
    breakInterval : Z;
    lastBreakTime : option Z }.

Definition eyeHistoryMaxLength : nat := 30.
Definition YAWN_DURATION_THRESHOLD : Z := 2000.
Definition HEAD_DROOP_THRESHOLD : R := 0.15%R.

(** [new FatigueDetector(breakIntervalMinutes)] *)
Definition create (breakIntervalMinutes : Z) : FatigueDetector :=
  {| blinkTimestamps := []; blinkDurations := [];
     lastBlinkStart := None; wasBlinking := false;
     leftEyeHistory := []; rightEyeHistory := [];
     yawnCount := 0; lastYawnTime := 0; mouthOpenDuration := 0;
     mouthWasOpen := false; mouthOpenStart := 0;
     headYHistory := []; headDroopEvents := 0; headYBaseline := None;
     sessionStartTime := None;
     breakInterval := breakIntervalMinutes * 60 * 1000;
     lastBreakTime := None |}.

(** The module-level singleton [fatigueDetector]. *)
Definition fatigueDetector : FatigueDetector := create 30.

Definition setBreakInterval (this : FatigueDetector) (minutes : Z) : FatigueDetector :=
  {| blinkTimestamps := blinkTimestamps this;
     blinkDurations := blinkDurations this;
     lastBlinkStart := lastBlinkStart this;
     wasBlinking := wasBlinking this;
     leftEyeHistory := leftEyeHistory this;
     rightEyeHistory := rightEyeHistory this;
     yawnCount := yawnCount this;
     lastYawnTime := lastYawnTime this;
     mouthOpenDuration := mouthOpenDuration this;
     mouthWasOpen := mouthWasOpen this;
     mouthOpenStart := mouthOpenStart this;
     headYHistory := headYHistory this;
     headDroopEvents := headDroopEvents this;
     headYBaseline := headYBaseline this;
     sessionStartTime := sessionStartTime this;
     breakInterval := minutes * 60 * 1000;
     lastBreakTime := lastBreakTime this |}.

Definition reset (this : FatigueDetector) : FatigueDetector :=
  {| blinkTimestamps := [];
     blinkDurations := [];
     lastBlinkStart := lastBlinkStart this;
     wasBlinking := wasBlinking this;
     leftEyeHistory := [];
     rightEyeHistory := [];
     yawnCount := 0;
     lastYawnTime := lastYawnTime this;
     mouthOpenDuration := mouthOpenDuration this;
     mouthWasOpen := mouthWasOpen this;
     mouthOpenStart := mouthOpenStart this;
     headYHistory := [];
     headDroopEvents := 0;
     headYBaseline := None;
     sessionStartTime := sessionStartTime this;
     breakInterval := breakInterval this;
     lastBreakTime := lastBreakTime this |}.

(** The two reads of [Date.now()] are [now1] and [now2]. *)
Definition startSession (now1 now2 : Z) (this : FatigueDetector) : FatigueDetector :=
  reset
    {| blinkTimestamps := blinkTimestamps this;
       blinkDurations := blinkDurations this;
       lastBlinkStart := lastBlinkStart this;
       wasBlinking := wasBlinking this;
       leftEyeHistory := leftEyeHistory this;
       rightEyeHistory := rightEyeHistory this;
       yawnCount := yawnCount this;
       lastYawnTime := lastYawnTime this;
       mouthOpenDuration := mouthOpenDuration this;
       mouthWasOpen := mouthWasOpen this;
       mouthOpenStart := mouthOpenStart this;
       headYHistory := headYHistory this;
       headDroopEvents := headDroopEvents this;
       headYBaseline := headYBaseline this;
       sessionStartTime := Some now1;
       breakInterval := breakInterval this;
       lastBreakTime := Some now2 |}.

Definition endSession (this : FatigueDetector) : FatigueDetector :=
  {| blinkTimestamps := blinkTimestamps this;
     blinkDurations := blinkDurations this;
     lastBlinkStart := lastBlinkStart this;
     wasBlinking := wasBlinking this;
     leftEyeHistory := leftEyeHistory this;
     rightEyeHistory := rightEyeHistory this;
     yawnCount := yawnCount this;
     lastYawnTime := lastYawnTime this;
     mouthOpenDuration := mouthOpenDuration this;
     mouthWasOpen := mouthWasOpen this;
     mouthOpenStart := mouthOpenStart this;
     headYHistory := headYHistory this;
     headDroopEvents := headDroopEvents this;
     headYBaseline := headYBaseline this;
     sessionStartTime := None;
     breakInterval := breakInterval this;
     lastBreakTime := lastBreakTime this |}.

Definition recordBreak (now : Z) (this : FatigueDetector) : FatigueDetector :=
  {| blinkTimestamps := blinkTimestamps this;
     blinkDurations := blinkDurations this;
     lastBlinkStart := lastBlinkStart this;
     wasBlinking := wasBlinking this;
     leftEyeHistory := leftEyeHistory this;
     rightEyeHistory := rightEyeHistory this;
     yawnCount := Z.max 0 (yawnCount this - 2);
     lastYawnTime := lastYawnTime this;
     mouthOpenDuration := mouthOpenDuration this;
     mouthWasOpen := mouthWasOpen this;
     mouthOpenStart := mouthOpenStart this;
     headYHistory := headYHistory this;
     headDroopEvents := Z.max 0 (headDroopEvents this - 1);
     headYBaseline := headYBaseline this;
     sessionStartTime := sessionStartTime this;
     breakInterval := breakInterval this;
     lastBreakTime := Some now |}.

(** The eviction loop of [processEyeState]: while the oldest timestamp is
    older than the cutoff, shift both arrays. *)
Fixpoint evictOld (cutoff : Z) (timestamps durations : list Z) : list Z * list Z :=
  match timestamps with
  | [] => (timestamps, durations)
  | t :: rest =>
      if t <? cutoff then evictOld cutoff rest (JS.shift durations)
      else (timestamps, durations)
  end.

(** Truthiness of a [number | null]: [null] and [0] are falsy. *)
Definition truthy (v : option Z) : bool :=
  match v with
  | Some t => negb (t =? 0)
  | None => false
  end.

Definition processEyeState (now : Z) (this : FatigueDetector)
  (leftEyeOpen rightEyeOpen : bool) : FatigueDetector :=
  let isBlinking := negb leftEyeOpen && negb rightEyeOpen in
  let left1 := JS.push (leftEyeHistory this) leftEyeOpen in
  let right1 := JS.push (rightEyeHistory this) rightEyeOpen in
  let '(left2, right2) :=
    if (eyeHistoryMaxLength <? length left1)%nat
    then (JS.shift left1, JS.shift right1) else (left1, right1) in
  let start1 :=
    if isBlinking && negb (wasBlinking this) then Some now else lastBlinkStart this in
  let '(timestamps', durations', start2) :=
    if negb isBlinking && wasBlinking this && truthy start1 then
      let blinkDuration := now - match start1 with Some t => t | None => 0 end in
      if (50 <=? blinkDuration) && (blinkDuration <=? 500) then
        let '(ts, ds) :=
          evictOld (now - 120000)
            (JS.push (blinkTimestamps this) now)
            (JS.push (blinkDurations this) blinkDuration) in
        (ts, ds, None)
      else (blinkTimestamps this, blinkDurations this, None)
    else (blinkTimestamps this, blinkDurations this, start1) in
  {| blinkTimestamps := timestamps';
     blinkDurations := durations';
     lastBlinkStart := start2;
     wasBlinking := isBlinking;
     leftEyeHistory := left2;
     rightEyeHistory := right2;
     yawnCount := yawnCount this;
     lastYawnTime := lastYawnTime this;
     mouthOpenDuration := mouthOpenDuration this;
     mouthWasOpen := mouthWasOpen this;
     mouthOpenStart := mouthOpenStart this;
     headYHistory := headYHistory this;
     headDroopEvents := headDroopEvents this;
     headYBaseline := headYBaseline this;
     sessionStartTime := sessionStartTime this;
     breakInterval := breakInterval this;
     lastBreakTime := lastBreakTime this |}.

Definition processMouthState (now : Z) (this : FatigueDetector)
  (isMouthOpen : bool) (mouthOpenRatio : R) : FatigueDetector :=
  let wide := isMouthOpen && (if Rgt_dec mouthOpenRatio 0.6 then true else false) in
  let start' :=
    if wide && negb (mouthWasOpen this) then now else mouthOpenStart this in
  let duration' := if wide then now - start' else 0 in
  let yawned :=
    wide && (YAWN_DURATION_THRESHOLD <=? duration') && (5000 <? now - lastYawnTime this) in
  {| blinkTimestamps := blinkTimestamps this;
     blinkDurations := blinkDurations this;
     lastBlinkStart := lastBlinkStart this;
     wasBlinking := wasBlinking this;
     leftEyeHistory := leftEyeHistory this;
     rightEyeHistory := rightEyeHistory this;
     yawnCount := if yawned then yawnCount this + 1 else yawnCount this;
     lastYawnTime := if yawned then now else lastYawnTime this;
     mouthOpenDuration := duration';
     mouthWasOpen := wide;
     mouthOpenStart := start';
     headYHistory := headYHistory this;
     headDroopEvents := headDroopEvents this;
     headYBaseline := headYBaseline this;
     sessionStartTime := sessionStartTime this;
     breakInterval := breakInterval this;
     lastBreakTime := lastBreakTime this |}.

Definition processHeadPosition (this : FatigueDetector) (headY : R) : FatigueDetector :=
  let baseline' :=
    match headYBaseline this with
    | None =>
        if (30 <=? length (headYHistory this))%nat
        then Some (JS.sum (headYHistory this) / INR (length (headYHistory this)))%R
        else None
    | Some b => Some b
    end in
  let history1 := JS.push (headYHistory this) headY in
  let history' := if (60 <? length history1)%nat then JS.shift history1 else history1 in
  let drooped :=
    match baseline' with
    | Some b =>
        if Rgt_dec (headY - b) HEAD_DROOP_THRESHOLD then
          let recentAvg := (JS.sum (JS.slice_last 10 history') / 10)%R in
          if Rgt_dec (recentAvg - b) (HEAD_DROOP_THRESHOLD * 0.8) then true else false
        else false
    | None => false
    end in
  {| blinkTimestamps := blinkTimestamps this;
     blinkDurations := blinkDurations this;
     lastBlinkStart := lastBlinkStart this;
     wasBlinking := wasBlinking this;
     leftEyeHistory := leftEyeHistory this;
     rightEyeHistory := rightEyeHistory this;
     yawnCount := yawnCount this;
     lastYawnTime := lastYawnTime this;
     mouthOpenDuration := mouthOpenDuration this;
     mouthWasOpen := mouthWasOpen this;
     mouthOpenStart := mouthOpenStart this;
     headYHistory := history';
     headDroopEvents := if drooped then headDroopEvents this + 1 else headDroopEvents this;
     headYBaseline := baseline';
     sessionStartTime := sessionStartTime this;
     breakInterval := breakInterval this;
     lastBreakTime := lastBreakTime this |}.

(** The state-changing public methods.  The remaining public methods
    ([getBlinkRate], [getAverageBlinkDuration], [getMetrics],
    [calculateFatigueScore], [getFatigueState], [getWarnings]) assign to
    no field. *)
Inductive Method : Type :=
| SetBreakInterval (minutes : Z)
| StartSession (now1 now2 : Z)
| EndSession
| RecordBreak (now : Z)
| Reset
| ProcessEyeState (now : Z) (leftEyeOpen rightEyeOpen : bool)
| ProcessMouthState (now : Z) (isMouthOpen : bool) (mouthOpenRatio : R)
| ProcessHeadPosition (headY : R).

Definition call (m : Method) (this : FatigueDetector) : FatigueDetector :=
  match m with
  | SetBreakInterval minutes => setBreakInterval this minutes
  | StartSession now1 now2 => startSession now1 now2 this
  | EndSession => endSession this
  | RecordBreak now => recordBreak now this
  | Reset => reset this
  | ProcessEyeState now l r => processEyeState now this l r
  | ProcessMouthState now o ratio => processMouthState now this o ratio
  | ProcessHeadPosition headY => processHeadPosition this headY
  end.

(** The per-frame processing calls. *)
Definition perFrame (m : Method) : bool :=
  match m with
  | ProcessEyeState _ _ _ | ProcessMouthState _ _ _ | ProcessHeadPosition _ => true
  | _ => false
  end.

(** The explicit reset operations. *)
Definition isReset (m : Method) : bool :=
  match m with
  | Reset | StartSession _ _ => true
  | _ => false
  end.

(** [a > b] on finite numbers. *)
Definition gt (a b : Q) : bool := negb (Qle_bool a b).

Definition NORMAL_BLINK_DURATION : Z := 200.
Definition LONG_BLINK_DURATION : Z := 400.
Definition FATIGUE_BLINK_RATE_min : Z := 20.
Definition FATIGUE_BLINK_RATE_max : Z := 26.
Definition DROWSY_BLINK_RATE_min : Z := 4.
Definition DROWSY_BLINK_RATE_max : Z := 14.

(** The getters below read the clock once per call: every [Date.now()]
    of one call is [now]. *)
Definition getBlinkRate (now : Z) (this : FatigueDetector) : Z :=
  let oneMinuteAgo := now - 60000 in
  Z.of_nat (length (filter (fun t => oneMinuteAgo <? t) (blinkTimestamps this))).

Definition getAverageBlinkDuration (this : FatigueDetector) : Q :=
  if (length (blinkDurations this) =? 0)%nat then inject_Z NORMAL_BLINK_DURATION
  else (inject_Z (fold_left Z.add (blinkDurations this) 0%Z)
        / inject_Z (Z.of_nat (length (blinkDurations this))))%Q.

(** [rightEyeHistory[i]] past the end is [undefined], which negates to
    [true]. *)
Definition countSlowEyeMovements (this : FatigueDetector) : Q :=
  if (length (leftEyeHistory this) <? 10)%nat then 0%Q
  else
    let closedFrames :=
      length (filter (fun i => negb (nth i (leftEyeHistory this) false)
                               && negb (nth i (rightEyeHistory this) false))
                     (seq 0 (length (leftEyeHistory this)))) in
    (inject_Z (Z.of_nat closedFrames)
     / inject_Z (Z.of_nat (length (leftEyeHistory this))) * 100)%Q.

Record FatigueMetrics : Type := mkFatigueMetrics
  { m_blinkRate : Z;
    m_avgBlinkDuration : Q;
    m_yawnCount : Z;
    m_headDroopEvents : Z;
    m_slowEyeMovements : Q;
    m_sessionDuration : Z }.

Definition getMetrics (now : Z) (this : FatigueDetector) : FatigueMetrics :=
  {| m_blinkRate := getBlinkRate now this;
     m_avgBlinkDuration := getAverageBlinkDuration this;
     m_yawnCount := yawnCount this;
     m_headDroopEvents := headDroopEvents this;
     m_slowEyeMovements := countSlowEyeMovements this;
     m_sessionDuration :=
       if truthy (sessionStartTime this)
       then now - match sessionStartTime this with Some t => t | None => 0 end
       else 0 |}.

Definition calculateFatigueScore (now : Z) (this : FatigueDetector) : Z :=
  let metrics := getMetrics now this in
  let score := 0 in
  let blinkRate := m_blinkRate metrics in
  let score :=
    if blinkRate <? DROWSY_BLINK_RATE_min then score + 30
    else if blinkRate <? DROWSY_BLINK_RATE_max then score + 20
    else if FATIGUE_BLINK_RATE_max <? blinkRate then score + 15
    else if FATIGUE_BLINK_RATE_min <? blinkRate then score + 10
    else score in
  let score :=
    if gt (m_avgBlinkDuration metrics) (inject_Z LONG_BLINK_DURATION) then score + 20
    else if gt (m_avgBlinkDuration metrics) (inject_Z NORMAL_BLINK_DURATION * 1.5)%Q
    then score + 10
    else score in
  let score := score + Z.min (m_yawnCount metrics * 10) 30 in
  let score := score + Z.min (m_headDroopEvents metrics * 15) 30 in
  let score :=
    if gt (m_slowEyeMovements metrics) 20 then score + 25
    else if gt (m_slowEyeMovements metrics) 15 then score + 15
    else if gt (m_slowEyeMovements metrics) 10 then score + 5
    else score in
  let sessionHours := (inject_Z (m_sessionDuration metrics) / inject_Z (60 * 60 * 1000)%Z)%Q in
  let score :=
    if gt sessionHours 2 then score + 10
    else if gt sessionHours 1 then score + 5
    else score in
  Z.min score 100.

Inductive Level : Type := fresh | mild | moderate | severe.

Record FatigueState : Type := mkFatigueState
  { level : Level;
    score : Z;
    shouldTakeBreak : bool;
    timeUntilBreak : Z }.

Definition getFatigueState (now : Z) (this : FatigueDetector) : FatigueState :=
  let score := calculateFatigueScore now this in
  let level :=
    if score <? 20 then fresh
    else if score <? 40 then mild
    else if score <? 60 then moderate
    else severe in
  let timeSinceBreak :=
    if truthy (lastBreakTime this)
    then now - match lastBreakTime this with Some t => t | None => 0 end
    else if truthy (sessionStartTime this)
    then now - match sessionStartTime this with Some t => t | None => 0 end
    else 0 in
  let timeUntilBreak := Z.max 0 (breakInterval this - timeSinceBreak) in
  let shouldTakeBreak := (timeUntilBreak =? 0) || (60 <=? score) in
  {| level := level;
     score := score;
     shouldTakeBreak := shouldTakeBreak;
     timeUntilBreak := timeUntilBreak |}.

End FatigueDetection.

(** ** fatigueDetection.ts: the break reminder helper *)

Module BreakReminder.

Import String.
Open Scope string_scope.

Record BreakReminderData : Type := mkBreakReminderData
  { isVisible : bool;
    fatigueLevel : FatigueDetection.Level;
    score : Z;
    message : string;
    suggestedBreakDuration : Z }.

Definition getBreakReminderData (state : FatigueDetection.FatigueState)
  : BreakReminderData :=
  let '(message, suggestedBreakDuration) :=
    match FatigueDetection.level state with
    | FatigueDetection.severe =>
        ("High fatigue detected! Please take a longer break to rest your eyes and mind.",
         300%Z)
    | FatigueDetection.moderate =>
        ("You've been working for a while. Take a short break to stay fresh.", 180%Z)
    | FatigueDetection.mild =>
        ("Time for a quick stretch! Look away from the screen for a moment.", 60%Z)
    | FatigueDetection.fresh =>
        ("Scheduled break time. Rest your eyes for a moment.", 60%Z)
    end in
  {| isVisible := FatigueDetection.shouldTakeBreak state;
     fatigueLevel := FatigueDetection.level state;
     score := FatigueDetection.score state;
     message := message;
     suggestedBreakDuration := suggestedBreakDuration |}.

End BreakReminder.

(** ** accessMateStore.ts: the [stats] slice and its actions *)

Module AccessMateStore.

Open Scope Z_scope.

Record Stats : Type := mkStats
  { sessionStartTime : option Z;
    clickCount : Z;
    gestureCount : Z;
    totalUsageTime : Z;
    lastBreakTime : option Z }.

Definition initial : Stats :=
  {| sessionStartTime := None; clickCount := 0; gestureCount := 0;
     totalUsageTime := 0; lastBreakTime := None |}.

Definition incrementClickCount (s : Stats) : Stats :=
  {| sessionStartTime := sessionStartTime s;
     clickCount := clickCount s + 1;
     gestureCount := gestureCount s;
     totalUsageTime := totalUsageTime s;
     lastBreakTime := lastBreakTime s |}.

Definition incrementGestureCount (s : Stats) : Stats :=
  {| sessionStartTime := sessionStartTime s;
     clickCount := clickCount s;
     gestureCount := gestureCount s + 1;
     totalUsageTime := totalUsageTime s;
     lastBreakTime := lastBreakTime s |}.

Definition startSession (now : Z) (s : Stats) : Stats :=
  {| sessionStartTime := Some now;
     clickCount := clickCount s;
     gestureCount := gestureCount s;
     totalUsageTime := totalUsageTime s;
     lastBreakTime := lastBreakTime s |}.

Definition endSession (now : Z) (s : Stats) : Stats :=
  if FatigueDetection.truthy (sessionStartTime s) then
    let sessionDuration := now - match sessionStartTime s with Some t => t | None => 0 end in
    {| sessionStartTime := None;
       clickCount := clickCount s;
       gestureCount := gestureCount s;
       totalUsageTime := totalUsageTime s + sessionDuration;
       lastBreakTime := lastBreakTime s |}
  else s.

Definition recordBreak (now : Z) (s : Stats) : Stats :=
  {| sessionStartTime := sessionStartTime s;
     clickCount := clickCount s;
     gestureCount := gestureCount s;
     totalUsageTime := totalUsageTime s;
     lastBreakTime := Some now |}.

(** The actions of the store that write [stats]. *)
Inductive Action : Type :=
| IncrementClickCount
| IncrementGestureCount
| StartSession (now : Z)
| EndSession (now : Z)
| RecordBreak (now : Z).

Definition dispatch (a : Action) (s : Stats) : Stats :=
  match a with
  | IncrementClickCount => incrementClickCount s
  | IncrementGestureCount => incrementGestureCount s
  | StartSession now => startSession now s
  | EndSession now => endSession now s
  | RecordBreak now => recordBreak now s
  end.

End AccessMateStore.

(** ** fingerCounting.ts *)

Module FingerCounting.

Open Scope Q_scope.
Import String.
Open Scope string_scope.

Record HandLandmark : Type := mkHandLandmark { x : Q; y : Q; z : Q }.

(** [a < b] on finite numbers. *)
Definition lt (a b : Q) : bool := negb (Qle_bool b a).

Record FingerIds : Type := mkFingerIds
  { THUMB : nat; INDEX : nat; MIDDLE : nat; RING : nat; PINKY : nat }.

Definition FINGER_TIP_IDS : FingerIds :=
  {| THUMB := 4; INDEX := 8; MIDDLE := 12; RING := 16; PINKY := 20 |}.

Definition FINGER_PIP_IDS : FingerIds :=
  {| THUMB := 2; INDEX := 6; MIDDLE := 10; RING := 14; PINKY := 18 |}.

Definition WRIST : nat := 0.

Record FingerStates : Type := mkFingerStates
  { thumb : bool; index : bool; middle : bool; ring : bool; pinky : bool }.

Record FingerCountResult : Type := mkFingerCountResult
  { count : Z;
    fingers : list string;
    fingerStates : FingerStates;
    gesture : option string }.

Definition detectGesture (states : FingerStates) : option string :=
  let '(mkFingerStates thumb index middle ring pinky) := states in
  if negb thumb && index && middle && negb ring && negb pinky then Some "Peace Sign"
  else if thumb && negb index && negb middle && negb ring && negb pinky then Some "Thumbs Up"
  else if thumb && index && negb middle && negb ring && negb pinky then Some "Point"
  else if negb thumb && index && negb middle && negb ring && pinky then Some "Rock Sign"
  else if thumb && negb index && negb middle && negb ring && pinky then Some "Call Me"
  else if negb thumb && negb index && negb middle && negb ring && negb pinky then Some "Fist"
  else if thumb && index && middle && ring && pinky then Some "Open Hand"
  else if negb thumb && index && middle && ring && negb pinky then Some "Three"
  else if negb thumb && index && middle && ring && pinky then Some "Four"
  else None.

(** One of the five tests of [countFingers]: when [raised], bump the
    count and push the finger's name. *)
Definition raise (raised : bool) (name : string) (acc : Z * list string)
  : Z * list string :=
  if raised then ((fst acc + 1)%Z, JS.push (snd acc) name) else acc.

Definition countFingers (landmarks : list HandLandmark) (isRightHand : bool)
  : option FingerCountResult :=
  thumbTip <- landmarks.[THUMB FINGER_TIP_IDS] ;;
  thumbIP <- landmarks.[3] ;;
  let thumb :=
    if isRightHand then lt (x thumbTip) (x thumbIP) else lt (x thumbIP) (x thumbTip) in
  indexTip <- landmarks.[INDEX FINGER_TIP_IDS] ;;
  indexPip <- landmarks.[INDEX FINGER_PIP_IDS] ;;
  let index := lt (y indexTip) (y indexPip) in
  middleTip <- landmarks.[MIDDLE FINGER_TIP_IDS] ;;
  middlePip <- landmarks.[MIDDLE FINGER_PIP_IDS] ;;
  let middle := lt (y middleTip) (y middlePip) in
  ringTip <- landmarks.[RING FINGER_TIP_IDS] ;;
  ringPip <- landmarks.[RING FINGER_PIP_IDS] ;;
  let ring := lt (y ringTip) (y ringPip) in
  pinkyTip <- landmarks.[PINKY FINGER_TIP_IDS] ;;
  pinkyPip <- landmarks.[PINKY FINGER_PIP_IDS] ;;
  let pinky := lt (y pinkyTip) (y pinkyPip) in
  let '(count, raisedFingers) :=
    raise pinky "Pinky" (raise ring "Ring" (raise middle "Middle"
      (raise index "Index" (raise thumb "Thumb" (0%Z, []))))) in
  let fingerStates :=
    {| thumb := thumb; index := index; middle := middle; ring := ring; pinky := pinky |} in
  Some {| count := count;
          fingers := raisedFingers;
          fingerStates := fingerStates;
          gesture := detectGesture fingerStates |}.

Definition isHandOpen (landmarks : list HandLandmark) : option bool :=
  result <- countFingers landmarks true ;;
  Some (4 <=? count result)%Z.

Definition isHandClosed (landmarks : list HandLandmark) : option bool :=
  result <- countFingers landmarks true ;;
  Some (count result =? 0)%Z.

End FingerCounting.

(** ** gestureCommands.ts *)

Module GestureCommands.

Import FingerCounting.
Open Scope Z_scope.

(** The non-null members of [GestureType]; [null] is [None]. *)
Inductive Gesture : Type :=
| fist | openPalm | thumbsUp | thumbsDown | peaceSign | pointUp | pointLeft
| pointRight | rockSign | okSign | ok | callMe | oneFingers | twoFingers
| threeFingers | fourFingers | fiveFingers.

Definition GestureType : Type := option Gesture.

Definition Gesture_eq_dec (a b : Gesture) : {a = b} + {a <> b}.
Proof. decide equality. Defined.

(** [a === b] on [GestureType]. *)
Definition same (a b : GestureType) : bool :=
  match a, b with
  | Some g, Some h => if Gesture_eq_dec g h then true else false
  | None, None => true
  | _, _ => false
  end.

Record GestureResult : Type := mkGestureResult
  { gesture : GestureType;
    confidence : Q;
    fingerCount : Z;
    fingerStates : FingerStates }.

Definition recognize (landmarks : list HandLandmark) (isRightHand : bool)
  : option GestureResult :=
  fingerResult <- countFingers landmarks isRightHand ;;
  let count := FingerCounting.count fingerResult in
  let states := FingerCounting.fingerStates fingerResult in
  let '(mkFingerStates thumb index middle ring pinky) := states in
  let result (g : GestureType) (c : Q) :=
    Some {| gesture := g; confidence := c; fingerCount := count; fingerStates := states |} in
  if count =? 0 then result (Some fist) 0.95%Q
  else if thumb && negb index && negb middle && negb ring && negb pinky then
    thumbTip <- landmarks.[4] ;;
    wrist <- landmarks.[0] ;;
    if lt (y thumbTip) (y wrist) then result (Some thumbsUp) 0.9%Q
    else result (Some thumbsDown) 0.85%Q
  else if negb thumb && index && negb middle && negb ring && negb pinky then
    result (Some pointUp) 0.9%Q
  else if negb thumb && index && middle && negb ring && negb pinky then
    result (Some peaceSign) 0.9%Q
  else if negb thumb && index && middle && ring && negb pinky then
    result (Some threeFingers) 0.85%Q
  else if negb thumb && index && middle && ring && pinky then
    result (Some fourFingers) 0.85%Q
  else if thumb && index && middle && ring && pinky then
    result (Some openPalm) 0.95%Q
  else if negb thumb && index && negb middle && negb ring && pinky then
    result (Some rockSign) 0.85%Q
  else if thumb && negb index && negb middle && negb ring && pinky then
    result (Some callMe) 0.85%Q
  else if count =? 1 then result (Some oneFingers) 0.8%Q
  else if count =? 2 then result (Some twoFingers) 0.8%Q
  else if count =? 3 then result (Some threeFingers) 0.8%Q
  else if count =? 4 then result (Some fourFingers) 0.8%Q
  else if count =? 5 then result (Some fiveFingers) 0.8%Q
  else result None 0.8%Q.

(** [MIN_HOLD_TIME] is a field because [setHoldTime] assigns it;
    [GESTURE_COOLDOWN] is never assigned. *)
Record GestureRecognizer : Type := mkGestureRecognizer
  { lastGesture : GestureType;
    gestureStartTime : option Z;
    gestureHoldTime : Z;
    MIN_HOLD_TIME : Z;
    lastGestureTime : Z }.

Definition GESTURE_COOLDOWN : Z := 500.

(** [new GestureRecognizer()] *)
Definition fresh : GestureRecognizer :=
  {| lastGesture := None; gestureStartTime := None; gestureHoldTime := 0;
     MIN_HOLD_TIME := 300; lastGestureTime := 0 |}.

Definition detectHeldGesture (now : Z) (this : GestureRecognizer)
  (landmarks : list HandLandmark) (isRightHand : bool)
  : option (GestureRecognizer * GestureType) :=
  result <- recognize landmarks isRightHand ;;
  if now - lastGestureTime this <? GESTURE_COOLDOWN then Some (this, None)
  else
    let this1 :=
      if same (gesture result) (lastGesture this) then
        match gestureStartTime this with
        | Some start =>
            {| lastGesture := lastGesture this;
               gestureStartTime := gestureStartTime this;
               gestureHoldTime := now - start;
               MIN_HOLD_TIME := MIN_HOLD_TIME this;
               lastGestureTime := lastGestureTime this |}
        | None => this
        end
      else
        {| lastGesture := gesture result;
           gestureStartTime := Some now;
           gestureHoldTime := 0;
           MIN_HOLD_TIME := MIN_HOLD_TIME this;
           lastGestureTime := lastGestureTime this |} in
    if (MIN_HOLD_TIME this1 <=? gestureHoldTime this1) && negb (same (gesture result) None)
    then
      Some ({| lastGesture := None;
               gestureStartTime := None;
               gestureHoldTime := 0;
               MIN_HOLD_TIME := MIN_HOLD_TIME this1;
               lastGestureTime := now |},
            lastGesture this1)
    else Some (this1, None).

Definition getCurrentGesture (this : GestureRecognizer) : GestureType := lastGesture this.

Definition setHoldTime (this : GestureRecognizer) (ms : Z) : GestureRecognizer :=
  {| lastGesture := lastGesture this;
     gestureStartTime := gestureStartTime this;
     gestureHoldTime := gestureHoldTime this;
     MIN_HOLD_TIME := ms;
     lastGestureTime := lastGestureTime this |}.

Definition reset (this : GestureRecognizer) : GestureRecognizer :=
  {| lastGesture := None;
     gestureStartTime := None;
     gestureHoldTime := 0;
     MIN_HOLD_TIME := MIN_HOLD_TIME this;
     lastGestureTime := lastGestureTime this |}.



(** [getHoldProgress()]; the quotient is taken over the rationals. *)
Definition getHoldProgress (this : GestureRecognizer) : Q :=
  match gestureStartTime this with
  | None => 0%Q
  | Some _ => JS.minQ 1 (inject_Z (gestureHoldTime this) / inject_Z (MIN_HOLD_TIME this))%Q
  end.

End GestureCommands.

(** ** faceGestures.ts: the eye gesture detector *)

Module FaceGestures.

Open Scope R_scope.

Local Abbreviation Landmark := BlinkDetection.Landmark.

(** [LEFT_EYE] and [RIGHT_EYE] carry the same six EAR indices as the
    tables of blinkDetection.ts, and this file's [calculateEAR] has the
    same body. *)
Definition LEFT_EYE : BlinkDetection.EyePoints := BlinkDetection.LEFT_EYE_EAR_POINTS.
Definition RIGHT_EYE : BlinkDetection.EyePoints := BlinkDetection.RIGHT_EYE_EAR_POINTS.

Definition calculateEAR (landmarks : list Landmark) (eye : BlinkDetection.EyePoints)
  : option R := BlinkDetection.calculateEAR landmarks eye.

Record EyeState : Type := mkEyeState
  { leftOpen : bool;
    rightOpen : bool;
    leftEAR : R;
    rightEAR : R;
    isWinkingLeft : bool;
    isWinkingRight : bool;
    isBothClosed : bool }.

(** [WINK_THRESHOLD] and [OPEN_THRESHOLD] are fields because
    [setThresholds] assigns them. *)
Record EyeGestureDetector : Type := mkEyeGestureDetector
  { leftEARHistory : list R;
    rightEARHistory : list R;
    WINK_THRESHOLD : R;
    OPEN_THRESHOLD : R;
    leftWinkStartTime : option Z;
    rightWinkStartTime : option Z }.

Definition HISTORY_SIZE : nat := 5.
Definition WINK_DIFF_THRESHOLD : R := 0.08.

(** [new EyeGestureDetector()] *)
Definition fresh : EyeGestureDetector :=
  {| leftEARHistory := []; rightEARHistory := [];
     WINK_THRESHOLD := 0.18; OPEN_THRESHOLD := 0.22;
     leftWinkStartTime := None; rightWinkStartTime := None |}.

Definition gt (a b : R) : bool := if Rgt_dec a b then true else false.
Definition lt (a b : R) : bool := if Rlt_dec a b then true else false.

Definition detect (this : EyeGestureDetector) (landmarks : list Landmark)
  : option (EyeGestureDetector * EyeState) :=
  l <- calculateEAR landmarks LEFT_EYE ;;
  r <- calculateEAR landmarks RIGHT_EYE ;;
  let left1 := JS.push (leftEARHistory this) l in
  let right1 := JS.push (rightEARHistory this) r in
  let '(left2, right2) :=
    if (HISTORY_SIZE <? length left1)%nat
    then (JS.shift left1, JS.shift right1) else (left1, right1) in
  let avgLeftEAR := JS.sum left2 / INR (length left2) in
  let avgRightEAR := JS.sum right2 / INR (length right2) in
  let leftOpen := gt avgLeftEAR (OPEN_THRESHOLD this) in
  let rightOpen := gt avgRightEAR (OPEN_THRESHOLD this) in
  let earDiff := Rabs (avgLeftEAR - avgRightEAR) in
  let isWinkingLeft := negb leftOpen && rightOpen && gt earDiff WINK_DIFF_THRESHOLD in
  let isWinkingRight := negb rightOpen && leftOpen && gt earDiff WINK_DIFF_THRESHOLD in
  let isBothClosed :=
    lt avgLeftEAR (WINK_THRESHOLD this) && lt avgRightEAR (WINK_THRESHOLD this) in
  Some ({| leftEARHistory := left2;
           rightEARHistory := right2;
           WINK_THRESHOLD := WINK_THRESHOLD this;
           OPEN_THRESHOLD := OPEN_THRESHOLD this;
           leftWinkStartTime := leftWinkStartTime this;
           rightWinkStartTime := rightWinkStartTime this |},
        {| leftOpen := leftOpen;
           rightOpen := rightOpen;
           leftEAR := avgLeftEAR;
           rightEAR := avgRightEAR;
           isWinkingLeft := isWinkingLeft;
           isWinkingRight := isWinkingRight;
           isBothClosed := isBothClosed |}).

Definition setThresholds (this : EyeGestureDetector) (wink open : R)
  : EyeGestureDetector :=
  {| leftEARHistory := leftEARHistory this;
     rightEARHistory := rightEARHistory this;
     WINK_THRESHOLD := wink;
     OPEN_THRESHOLD := open;
     leftWinkStartTime := leftWinkStartTime this;
     rightWinkStartTime := rightWinkStartTime this |}.

(** The sides [detectIntentionalWink] can name; [null] is [None]. *)
Module Wink.
Inductive t : Type := left | right | double.
End Wink.

Definition MIN_WINK_DURATION : Z := 100.
Definition MAX_WINK_DURATION : Z := 500.

(** One side of [detectIntentionalWink]: the timer after the call and
    whether a wink of valid duration has just ended. *)
Definition winkTimer (now : Z) (winking : bool) (startTime : option Z)
  : option Z * bool :=
  if winking then
    match startTime with
    | None => (Some now, false)
    | Some t => (Some t, false)
    end
  else
    match startTime with
    | Some t =>
        let duration := (now - t)%Z in
        (None, (MIN_WINK_DURATION <=? duration)%Z && (duration <=? MAX_WINK_DURATION)%Z)
    | None => (None, false)
    end.

(** The left side returns before the right timer is looked at. *)
Definition detectIntentionalWink (now : Z) (this : EyeGestureDetector)
  (landmarks : list Landmark) : option (EyeGestureDetector * option Wink.t) :=
  match detect this landmarks with
  | None => None
  | Some (this1, state) =>
      let '(leftStart, leftWink) :=
        winkTimer now (isWinkingLeft state) (leftWinkStartTime this1) in
      let this2 :=
        {| leftEARHistory := leftEARHistory this1;
           rightEARHistory := rightEARHistory this1;
           WINK_THRESHOLD := WINK_THRESHOLD this1;
           OPEN_THRESHOLD := OPEN_THRESHOLD this1;
           leftWinkStartTime := leftStart;
           rightWinkStartTime := rightWinkStartTime this1 |} in
      if leftWink then Some (this2, Some Wink.left)
      else
        let '(rightStart, rightWink) :=
          winkTimer now (isWinkingRight state) (rightWinkStartTime this2) in
        let this3 :=
          {| leftEARHistory := leftEARHistory this2;
             rightEARHistory := rightEARHistory this2;
             WINK_THRESHOLD := WINK_THRESHOLD this2;
             OPEN_THRESHOLD := OPEN_THRESHOLD this2;
             leftWinkStartTime := leftWinkStartTime this2;
             rightWinkStartTime := rightStart |} in
        if rightWink then Some (this3, Some Wink.right)
        else Some (this3, None)
  end.

End FaceGestures.

(** ** faceGestures.ts: the mouth gesture detector *)

Module MouthGestures.

Open Scope R_scope.

Local Abbreviation Landmark := BlinkDetection.Landmark.
Local Abbreviation ly := BlinkDetection.y.

Definition MOUTH_upperOuter : nat := 13.
Definition MOUTH_lowerOuter : nat := 14.
Definition MOUTH_left : nat := 61.
Definition MOUTH_right : nat := 291.

Record MouthState : Type := mkMouthState
  { isOpen : bool;
    openness : R;
    openRatio : R;
    isSmiling : bool;
    smileIntensity : R }.

Record MouthGestureDetector : Type := mkMouthGestureDetector
  { opennessHistory : list R }.

Definition HISTORY_SIZE : nat := 5.
Definition OPEN_THRESHOLD : R := 0.03.

(** [new MouthGestureDetector()] *)
Definition fresh : MouthGestureDetector := {| opennessHistory := [] |}.

Definition detect (this : MouthGestureDetector) (landmarks : list Landmark)
  : option (MouthGestureDetector * MouthState) :=
  upperLip <- landmarks.[MOUTH_upperOuter] ;;
  lowerLip <- landmarks.[MOUTH_lowerOuter] ;;
  mouthLeft <- landmarks.[MOUTH_left] ;;
  mouthRight <- landmarks.[MOUTH_right] ;;
  let mouthHeight := BlinkDetection.euclideanDistance upperLip lowerLip in
  let mouthWidth := BlinkDetection.euclideanDistance mouthLeft mouthRight in
  let openness := if Rgt_dec mouthWidth 0 then mouthHeight / mouthWidth else 0 in
  let history1 := JS.push (opennessHistory this) openness in
  let history' :=
    if (HISTORY_SIZE <? length history1)%nat then JS.shift history1 else history1 in
  let avgOpenness := JS.sum history' / INR (length history') in
  let isOpen := if Rgt_dec avgOpenness OPEN_THRESHOLD then true else false in
  let mouthCenter := (ly upperLip + ly lowerLip) / 2 in
  let leftCornerHeight := mouthCenter - ly mouthLeft in
  let rightCornerHeight := mouthCenter - ly mouthRight in
  let avgCornerHeight := (leftCornerHeight + rightCornerHeight) / 2 in
  let isSmiling := if Rgt_dec avgCornerHeight 0.005 then true else false in
  let smileIntensity := Rmax 0 (Rmin 1 (avgCornerHeight * 100)) in
  let openRatio := Rmin 1 (avgOpenness / 0.2) in
  Some ({| opennessHistory := history' |},
        {| isOpen := isOpen;
           openness := avgOpenness;
           openRatio := openRatio;
           isSmiling := isSmiling;
           smileIntensity := smileIntensity |}).

End MouthGestures.

(** ** faceGestures.ts: the eyebrow detector *)

Module Eyebrows.

Open Scope R_scope.

Local Abbreviation Landmark := BlinkDetection.Landmark.

Definition LEFT_EYEBROW : list nat := [70; 63; 105; 66; 107]%nat.
Definition RIGHT_EYEBROW : list nat := [300; 293; 334; 296; 336]%nat.
Definition RAISE_THRESHOLD : R := 0.015.

Record EyebrowState : Type := mkEyebrowState
  { leftRaised : bool; rightRaised : bool; bothRaised : bool }.

Record EyebrowDetector : Type := mkEyebrowDetector
  { baselineLeftY : option R; baselineRightY : option R }.

(** [new EyebrowDetector()] *)
Definition fresh : EyebrowDetector :=
  {| baselineLeftY := None; baselineRightY := None |}.

(** [brow.map(i => landmarks[i]).reduce((sum, p) => sum + p.y, 0) / brow.length] *)
Definition browY (landmarks : list Landmark) (brow : list nat) : option R :=
  points <- JS.all_at landmarks brow ;;
  Some (JS.sum (map BlinkDetection.y points) / INR (length points)).

(** The first component is the detector after the call; the second is
    [None] when a landmark was missing.  The left baseline is assigned
    before the right brow is read. *)
Definition calibrate (this : EyebrowDetector) (landmarks : list Landmark)
  : EyebrowDetector * option unit :=
  match browY landmarks LEFT_EYEBROW with
  | None => (this, None)
  | Some l =>
      match browY landmarks RIGHT_EYEBROW with
      | None => ({| baselineLeftY := Some l; baselineRightY := baselineRightY this |}, None)
      | Some r => ({| baselineLeftY := Some l; baselineRightY := Some r |}, Some tt)
      end
  end.

(** A [null] baseline in the subtraction counts as 0. *)
Definition baseline (b : option R) : R :=
  match b with
  | Some v => v
  | None => 0
  end.

Definition detect (this : EyebrowDetector) (landmarks : list Landmark)
  : option (EyebrowDetector * EyebrowState) :=
  currentLeftY <- browY landmarks LEFT_EYEBROW ;;
  currentRightY <- browY landmarks RIGHT_EYEBROW ;;
  let this' :=
    match baselineLeftY this with
    | None => {| baselineLeftY := Some currentLeftY; baselineRightY := Some currentRightY |}
    | Some _ => this
    end in
  let leftRaised :=
    if Rgt_dec (baseline (baselineLeftY this') - currentLeftY) RAISE_THRESHOLD
    then true else false in
  let rightRaised :=
    if Rgt_dec (baseline (baselineRightY this') - currentRightY) RAISE_THRESHOLD
    then true else false in
  Some (this',
        {| leftRaised := leftRaised;
           rightRaised := rightRaised;
           bothRaised := leftRaised && rightRaised |}).

End Eyebrows.

(** ** The app store ([useAppStore]): the session slice and the
    engagement score.  Every [Date.now()] of one action is [now]. *)

Module AppStore.

Open Scope Z_scope.

Record SessionHistoryEntry : Type := mkSessionHistoryEntry
  { timestamp : Z;
    e_blinkCount : Z;
    e_sleepDuration : Z;
    engagementScore : Z }.

(** The fields of [AppState] the session actions read and write. *)
Record AppState : Type := mkAppState
  { blinkCount : Z;
    sleepDuration : Z;
    sessionHistory : list SessionHistoryEntry;
    sessionStartTime : option Z }.

Definition initial : AppState :=
  {| blinkCount := 0; sleepDuration := 0; sessionHistory := [];
     sessionStartTime := None |}.

Definition incrementBlinkCount (s : AppState) : AppState :=
  {| blinkCount := blinkCount s + 1;
     sleepDuration := sleepDuration s;
     sessionHistory := sessionHistory s;
     sessionStartTime := sessionStartTime s |}.

Definition resetBlinkCount (s : AppState) : AppState :=
  {| blinkCount := 0;
     sleepDuration := sleepDuration s;
     sessionHistory := sessionHistory s;
     sessionStartTime := sessionStartTime s |}.

Definition updateSleepDuration (s : AppState) (duration : Z) : AppState :=
  {| blinkCount := blinkCount s;
     sleepDuration := duration;
     sessionHistory := sessionHistory s;
     sessionStartTime := sessionStartTime s |}.

Definition startSession (now : Z) (s : AppState) : AppState :=
  {| blinkCount := blinkCount s;
     sleepDuration := sleepDuration s;
     sessionHistory := sessionHistory s;
     sessionStartTime := Some now |}.

(** [addSessionEntry(entry)]: the entry is stamped and the last 100 kept. *)
Definition addSessionEntry (now : Z) (s : AppState)
  (entryBlinkCount entrySleepDuration entryScore : Z) : AppState :=
  {| blinkCount := blinkCount s;
     sleepDuration := sleepDuration s;
     sessionHistory :=
       JS.slice_last 100
         (sessionHistory s ++
          [{| timestamp := now; e_blinkCount := entryBlinkCount;
              e_sleepDuration := entrySleepDuration; engagementScore := entryScore |}]);
     sessionStartTime := sessionStartTime s |}.

(** [Math.round] on a rational. *)
Definition round (v : Q) : Z := Qfloor (v + (1 # 2))%Q.

(** [blinkCount / sessionDuration] compared with 10 and 30.  When the
    session has lasted no time the quotient is [NaN] for a zero count,
    which fails both tests, and an infinity otherwise, which passes one
    of them. *)
Definition blinkRatePenalty (count : Z) (sessionDuration : Q) : Q :=
  if Qeq_bool sessionDuration 0 then (if count =? 0 then 0 else 10)%Q
  else
    let blinksPerMinute := (inject_Z count / sessionDuration)%Q in
    if FatigueDetection.gt 10 blinksPerMinute then 10%Q
    else if FatigueDetection.gt blinksPerMinute 30 then 10%Q
    else 0%Q.

Definition calculateEngagementScore (now : Z) (state : AppState) : Z :=
  let score := 100%Q in
  let score :=
    if 0 <? sleepDuration state
    then (score - JS.minQ 50 (inject_Z (sleepDuration state) / 1000))%Q
    else score in
  let sessionDuration :=
    if FatigueDetection.truthy (sessionStartTime state)
    then (inject_Z (now - match sessionStartTime state with Some t => t | None => 0 end)
          / 60000)%Q
    else 1%Q in
  let score := (score - blinkRatePenalty (blinkCount state) sessionDuration)%Q in
  Z.max 0 (Z.min 100 (round score)).

Definition endSession (now : Z) (state : AppState) : AppState :=
  if FatigueDetection.truthy (sessionStartTime state) then
    {| blinkCount := blinkCount state;
       sleepDuration := sleepDuration state;
       sessionHistory :=
         JS.slice_last 100
           (sessionHistory state ++
            [{| timestamp := now;
                e_blinkCount := blinkCount state;
                e_sleepDuration := sleepDuration state;
                engagementScore := calculateEngagementScore now state |}]);
       sessionStartTime := None |}
  else state.

End AppStore.

(** ** The cumulative counters and the operations on their owners *)

Module Counters.

Open Scope Z_scope.

(** The objects that hold a cumulative counter: the blink detector
    ([blinkCount]), the fatigue detector ([yawnCount], [headDroopEvents])
    and the store's [stats] ([gestureCount]). *)
Record Owners : Type := mkOwners
  { blink : BlinkDetection.BlinkDetector;
    fatigue : FatigueDetection.FatigueDetector;
    stats : AccessMateStore.Stats }.

Definition initial : Owners :=
  {| blink := BlinkDetection.fresh;
     fatigue := FatigueDetection.fatigueDetector;
     stats := AccessMateStore.initial |}.

Definition blinkCount (o : Owners) : Z := BlinkDetection.blinkCount (blink o).
Definition yawnCount (o : Owners) : Z := FatigueDetection.yawnCount (fatigue o).
Definition headDroopEvents (o : Owners) : Z :=
  FatigueDetection.headDroopEvents (fatigue o).
Definition gestureCount (o : Owners) : Z := AccessMateStore.gestureCount (stats o).

(** Every public operation that assigns to one of the owners. *)
Inductive Operation : Type :=
| BlinkDetect (landmarks : list BlinkDetection.Landmark)
| BlinkResetBlinkCount
| BlinkSetThreshold (threshold : R)
| Fatigue (m : FatigueDetection.Method)
| Store (a : AccessMateStore.Action).

(** [None] when the operation raises. *)
Definition run (op : Operation) (o : Owners) : option Owners :=
  match op with
  | BlinkDetect landmarks =>
      match BlinkDetection.detect (blink o) landmarks with
      | Some (b, _) => Some {| blink := b; fatigue := fatigue o; stats := stats o |}
      | None => None
      end
  | BlinkResetBlinkCount =>
      Some {| blink := BlinkDetection.resetBlinkCount (blink o);
              fatigue := fatigue o; stats := stats o |}
  | BlinkSetThreshold threshold =>
      Some {| blink := BlinkDetection.setThreshold (blink o) threshold;
              fatigue := fatigue o; stats := stats o |}
  | Fatigue m =>
      Some {| blink := blink o;
              fatigue := FatigueDetection.call m (fatigue o);
              stats := stats o |}
  | Store a =>
      Some {| blink := blink o; fatigue := fatigue o;
              stats := AccessMateStore.dispatch a (stats o) |}
  end.

(** The explicit resets: [resetBlinkCount], [reset], [startSession]. *)
Definition isReset (op : Operation) : bool :=
  match op with
  | BlinkResetBlinkCount => true
  | Fatigue m => FatigueDetection.isReset m
  | _ => false
  end.

Definition isRecordBreak (op : Operation) : bool :=
  match op with
  | Fatigue (FatigueDetection.RecordBreak _) => true
  | _ => false
  end.

(** The fatigue detector after one yawn: the mouth wide open from
    t = 10000 ms to t = 12000 ms. *)
Definition afterYawn : Owners :=
  {| blink := BlinkDetection.fresh;
     fatigue :=
       FatigueDetection.processMouthState 12000
         (FatigueDetection.processMouthState 10000
            FatigueDetection.fatigueDetector true 0.9%R)
         true 0.9%R;
     stats := AccessMateStore.initial |}.

End Counters.

(** ** Fixtures *)

Module Fixtures.

Open Scope R_scope.

(** A face mesh of 468 landmarks given by index. *)
Definition face (f : nat -> BlinkDetection.Landmark) : list BlinkDetection.Landmark :=
  map f (seq 0 468).

Definition point (px py : R) : BlinkDetection.Landmark :=
  BlinkDetection.mkLandmark px py 0.

(** Both eyes one unit wide with lids [e] apart, every other landmark at
    the origin: the EAR of each eye is [e]. *)
Definition eyesAt (e : R) (i : nat) : BlinkDetection.Landmark :=
  if existsb (Nat.eqb i) [160; 158; 385; 387]%nat then point 0 e
  else if existsb (Nat.eqb i) [133; 263]%nat then point 1 0
  else point 0 0.

(** The same with the left lids [el] apart and the right lids [er]
    apart: a wink when they differ enough. *)
Definition eyesLR (el er : R) (i : nat) : BlinkDetection.Landmark :=
  if existsb (Nat.eqb i) [160; 158]%nat then point 0 el
  else if existsb (Nat.eqb i) [385; 387]%nat then point 0 er
  else if existsb (Nat.eqb i) [133; 263]%nat then point 1 0
  else point 0 0.

(** A mouth one unit wide with its corners at height 0.5 and its lips
    at heights [top] and [bottom]. *)
Definition mouthAt (top bottom : R) (i : nat) : BlinkDetection.Landmark :=
  if (i =? 13)%nat then point 0.5 top
  else if (i =? 14)%nat then point 0.5 bottom
  else if (i =? 61)%nat then point 0 0.5
  else if (i =? 291)%nat then point 1 0.5
  else point 0 0.

(** Uniform scaling of every coordinate by [k]. *)
Definition scale (k : R) (p : BlinkDetection.Landmark) : BlinkDetection.Landmark :=
  BlinkDetection.mkLandmark
    (k * BlinkDetection.x p) (k * BlinkDetection.y p) (k * BlinkDetection.z p).

(** A frame whose average EAR is below / not below the threshold 0.21. *)
Definition lowFrame (frame : list BlinkDetection.Landmark) : Prop :=
  exists a, BlinkDetection.getEyeAspectRatio_avg frame = Some a /\ a < 0.21.

Definition highFrame (frame : list BlinkDetection.Landmark) : Prop :=
  exists a, BlinkDetection.getEyeAspectRatio_avg frame = Some a /\ 0.21 <= a.

(** Eyes shut (EAR 0), head level. *)
Definition closedFace : list BlinkDetection.Landmark := face (eyesAt 0).

(** The sleep detector after 89 consecutive closed-eye frames, head up. *)
Definition longClosed : SleepDetection.SleepDetector :=
  {| SleepDetection.eyeClosedFrames := 89;
     SleepDetection.headDownFrames := 0;
     SleepDetection.EYE_CLOSED_THRESHOLD := 45;
     SleepDetection.HEAD_DOWN_THRESHOLD := 30;
     SleepDetection.PITCH_THRESHOLD := 0.25;
     SleepDetection.sleepStartTime := Some 0%Z;
     SleepDetection.totalSleepDuration := 0 |}.

(** A hand of 21 landmarks given by index. *)
Definition handOf (f : nat -> FingerCounting.HandLandmark)
  : list FingerCounting.HandLandmark := map f (seq 0 21).

(** A right hand seen with the thumb, index and middle finger raised and
    the ring and little finger folded. *)
Definition threeUp (i : nat) : FingerCounting.HandLandmark :=
  if existsb (Nat.eqb i) [3; 16; 20]%nat
  then FingerCounting.mkHandLandmark 0.5 0.5 0
  else if existsb (Nat.eqb i) [4; 8; 12]%nat
  then FingerCounting.mkHandLandmark 0.3 0.2 0
  else FingerCounting.mkHandLandmark 0.4 0.4 0.

(** An open right hand: every tip beyond its reference joint. *)
Definition openHand (i : nat) : FingerCounting.HandLandmark :=
  if existsb (Nat.eqb i) [4; 8; 12; 16; 20]%nat
  then FingerCounting.mkHandLandmark 0.3 0.2 0
  else FingerCounting.mkHandLandmark 0.4 0.4 0.



End Fixtures.

(** ** Predicates used to state invariants *)

Module Invariants.

(** [a >= b] as a boolean. *)
Definition geb (a b : R) : bool := if Rge_dec a b then true else false.

(** What every method of the fatigue detector keeps: the paired arrays
    have equal lengths, the histories are bounded, every stored blink
    duration is a valid one, and the two event counters are not
    negative. *)
Definition fatigueInv (d : FatigueDetection.FatigueDetector) : Prop :=
  length (FatigueDetection.leftEyeHistory d)
    = length (FatigueDetection.rightEyeHistory d) /\
  (length (FatigueDetection.leftEyeHistory d) <= 30)%nat /\
  length (FatigueDetection.blinkTimestamps d)
    = length (FatigueDetection.blinkDurations d) /\
  (length (FatigueDetection.headYHistory d) <= 60)%nat /\
  Forall (fun dur => 50 <= dur <= 500)%Z (FatigueDetection.blinkDurations d) /\
  (0 <= FatigueDetection.yawnCount d)%Z /\
  (0 <= FatigueDetection.headDroopEvents d)%Z.

(** A session started at t = 1 ms followed by ten frames, at t = 2 .. 11
    ms, with both eyes closed. *)
Definition drowsy : FatigueDetection.FatigueDetector :=
  fold_left (fun d t => FatigueDetection.processEyeState t d false false)
    (map Z.of_nat (seq 2 10))
    (FatigueDetection.startSession 1 1 (FatigueDetection.create 30)).

(** The mouth held wide open since t = 10000 ms, no yawn counted yet. *)
Definition mouthOpening : FatigueDetection.FatigueDetector :=
  FatigueDetection.processMouthState 10000 FatigueDetection.fatigueDetector true 0.9%R.

(** The number of raised fingers in a state vector. *)
Definition popcount (s : FingerCounting.FingerStates) : Z :=
  (Z.b2z (FingerCounting.thumb s) + Z.b2z (FingerCounting.index s)
   + Z.b2z (FingerCounting.middle s) + Z.b2z (FingerCounting.ring s)
   + Z.b2z (FingerCounting.pinky s))%Z.

(** The gestures [recognize] has a branch for. *)
Definition recognizable : list GestureCommands.Gesture :=
  [GestureCommands.fist; GestureCommands.thumbsUp; GestureCommands.thumbsDown;
   GestureCommands.pointUp; GestureCommands.peaceSign; GestureCommands.threeFingers;
   GestureCommands.fourFingers; GestureCommands.openPalm; GestureCommands.rockSign;
   GestureCommands.callMe; GestureCommands.oneFingers; GestureCommands.twoFingers].

(** What the hold recognizer keeps: without a running hold timer there
    is no held gesture and no accumulated hold time. *)
Definition holdInv (r : GestureCommands.GestureRecognizer) : Prop :=
  GestureCommands.gestureStartTime r = None ->
  GestureCommands.lastGesture r = None /\ GestureCommands.gestureHoldTime r = 0%Z.

(** The recognizer two polls into holding an open palm since t = 1000. *)
Definition holdingPalm : GestureCommands.GestureRecognizer :=
  {| GestureCommands.lastGesture := Some GestureCommands.openPalm;
     GestureCommands.gestureStartTime := Some 1000%Z;
     GestureCommands.gestureHoldTime := 100%Z;
     GestureCommands.MIN_HOLD_TIME := 300%Z;
     GestureCommands.lastGestureTime := 0%Z |}.

(** What the mouth detector keeps of its history. *)
Definition mouthInv (m : MouthGestures.MouthGestureDetector) : Prop :=
  Forall (fun v => 0 <= v)%R (MouthGestures.opennessHistory m) /\
  (length (MouthGestures.opennessHistory m) <= 5)%nat.

(** One call of [processMouthState]: its time and its two arguments. *)
Record MouthFrame : Type := mkMouthFrame
  { frame_at : Z; frame_open : bool; frame_ratio : R }.

(** A stream of mouth frames, oldest first. *)
Definition feedMouth (d : FatigueDetection.FatigueDetector) (frames : list MouthFrame)
  : FatigueDetection.FatigueDetector :=
  fold_left
    (fun e f => FatigueDetection.processMouthState (frame_at f) e (frame_open f)
                  (frame_ratio f))
    frames d.

(** Thirty head samples at 0.5, which settle the baseline at 0.5 on the
    next call, then two samples at 1: the head has dropped, but the
    average of the last ten samples is not yet 0.12 above the baseline. *)
Definition settled : FatigueDetection.FatigueDetector :=
  fold_left FatigueDetection.processHeadPosition (repeat 0.5%R 30 ++ [1%R; 1%R])
    FatigueDetection.fatigueDetector.

(** What the proofs use of [settled]. *)
Definition dozing (s : FatigueDetection.FatigueDetector) : Prop :=
  FatigueDetection.headYHistory s = repeat 0.5%R 30 ++ [1%R; 1%R] /\
  FatigueDetection.headYBaseline s = Some 0.5%R /\
  FatigueDetection.headDroopEvents s = 0%Z /\
  FatigueDetection.yawnCount s = 0%Z /\
  FatigueDetection.lastYawnTime s = 0%Z /\
  FatigueDetection.mouthWasOpen s = false /\
  FatigueDetection.blinkTimestamps s = [] /\
  FatigueDetection.blinkDurations s = [] /\
  FatigueDetection.leftEyeHistory s = [] /\
  FatigueDetection.sessionStartTime s = None.

(** On top of that, the mouth wide open since 10000 ms and one yawn
    counted at 12000 ms. *)
Definition tired : FatigueDetection.FatigueDetector :=
  FatigueDetection.processMouthState 12000
    (FatigueDetection.processMouthState 10000 settled true 0.9%R) true 0.9%R.

End Invariants.

(** ** Geometry and EAR *)

Section EAR.

Import Fixtures.
Import BlinkDetection.
Open Scope R_scope.

Lemma euclideanDistance_nonneg (a b : Landmark) : 0 <= euclideanDistance a b.
Proof. unfold euclideanDistance. apply sqrt_pos. Qed.

Lemma at_map {A B : Type} (f : A -> B) (l : list A) (i : nat) :
  (map f l).[i] = option_map f l.[i].
Proof. unfold JS.at_. apply nth_error_map. Qed.

Lemma face_at (f : nat -> Landmark) (i : nat) :
  (i < 468)%nat -> (face f).[i] = Some (f i).
Proof.
  intros Hi. unfold face. rewrite at_map.
  unfold JS.at_. rewrite nth_error_seq.
  apply Nat.ltb_lt in Hi. rewrite Hi. reflexivity.
Qed.

Lemma euclideanDistance_scale (k : R) (a b : Landmark) :
  euclideanDistance (scale k a) (scale k b)
  = Rabs k * euclideanDistance a b.
Proof.
  unfold euclideanDistance, scale. simpl.
  rewrite <- sqrt_Rsqr_abs, <- sqrt_mult_alt by apply Rle_0_sqr.
  f_equal. unfold Rsqr. ring.
Qed.

(** What [calculateEAR] returns once its six landmarks are present. *)
Lemma calculateEAR_present (landmarks : list Landmark) (eye : EyePoints)
  (q1 q2 q3 q4 q5 q6 : Landmark) :
  landmarks.[p1 eye] = Some q1 -> landmarks.[p2 eye] = Some q2 ->
  landmarks.[p3 eye] = Some q3 -> landmarks.[p4 eye] = Some q4 ->
  landmarks.[p5 eye] = Some q5 -> landmarks.[p6 eye] = Some q6 ->
  calculateEAR landmarks eye =
  Some (if Req_dec_T (euclideanDistance q1 q4) 0 then 0
        else (euclideanDistance q2 q6 + euclideanDistance q3 q5)
             / (2 * euclideanDistance q1 q4)).
Proof.
  intros H1 H2 H3 H4 H5 H6. unfold calculateEAR.
  rewrite H1, H2, H3, H4, H5, H6. simpl.
  destruct (Req_dec_T (euclideanDistance q1 q4) 0); reflexivity.
Qed.

Lemma calculateEAR_nonneg (landmarks : list Landmark) (eye : EyePoints) (v : R) :
  calculateEAR landmarks eye = Some v -> 0 <= v.
Proof.
  unfold calculateEAR, JS.bind.
  destruct (landmarks.[p1 eye]) as [q1|]; [|discriminate].
  destruct (landmarks.[p2 eye]) as [q2|]; [|discriminate].
  destruct (landmarks.[p3 eye]) as [q3|]; [|discriminate].
  destruct (landmarks.[p4 eye]) as [q4|]; [|discriminate].
  destruct (landmarks.[p5 eye]) as [q5|]; [|discriminate].
  destruct (landmarks.[p6 eye]) as [q6|]; [|discriminate].
  destruct (Req_dec_T (euclideanDistance q1 q4) 0) as [E|N]; intros [= <-].
  - lra.
  - pose proof (euclideanDistance_nonneg q1 q4).
    pose proof (euclideanDistance_nonneg q2 q6).
    pose proof (euclideanDistance_nonneg q3 q5).
    apply Rmult_le_pos; [lra|]. left. apply Rinv_0_lt_compat. lra.
Qed.

(** The EAR of the eye fixture is the lid distance. *)
Lemma eyesAt_EAR (e : R) :
  0 <= e ->
  calculateEAR (face (eyesAt e)) LEFT_EYE_EAR_POINTS = Some e /\
  calculateEAR (face (eyesAt e)) RIGHT_EYE_EAR_POINTS = Some e.
Proof.
  intros He.
  assert (D1 : euclideanDistance (point 0 0) (point 1 0) = 1).
  { unfold euclideanDistance, point. simpl.
    replace ((0 - 1) * ((0 - 1) * 1) + (0 - 0) * ((0 - 0) * 1)) with 1 by ring.
    apply sqrt_1. }
  assert (De : euclideanDistance (point 0 e) (point 0 0) = e).
  { unfold euclideanDistance, point. simpl.
    replace ((0 - 0) * ((0 - 0) * 1) + (e - 0) * ((e - 0) * 1)) with (Rsqr e)
      by (unfold Rsqr; ring).
    apply sqrt_Rsqr. exact He. }
  split.
  - erewrite calculateEAR_present; try (apply face_at; simpl; lia).
    cbv [eyesAt existsb Nat.eqb orb p1 p2 p3 p4 p5 p6
         LEFT_EYE_EAR_POINTS RIGHT_EYE_EAR_POINTS].
    rewrite D1, De. destruct (Req_dec_T 1 0); [lra|]. f_equal. field.
  - erewrite calculateEAR_present; try (apply face_at; simpl; lia).
    cbv [eyesAt existsb Nat.eqb orb p1 p2 p3 p4 p5 p6
         LEFT_EYE_EAR_POINTS RIGHT_EYE_EAR_POINTS].
    rewrite D1, De. destruct (Req_dec_T 1 0); [lra|]. f_equal. field.
Qed.

Lemma eyesLR_EAR (el er : R) :
  0 <= el -> 0 <= er ->
  calculateEAR (face (eyesLR el er)) LEFT_EYE_EAR_POINTS = Some el /\
  calculateEAR (face (eyesLR el er)) RIGHT_EYE_EAR_POINTS = Some er.
Proof.
  intros Hl Hr.
  assert (D1 : euclideanDistance (point 0 0) (point 1 0) = 1).
  { unfold euclideanDistance, point. simpl.
    replace ((0 - 1) * ((0 - 1) * 1) + (0 - 0) * ((0 - 0) * 1)) with 1 by ring.
    apply sqrt_1. }
  assert (De : forall e, 0 <= e -> euclideanDistance (point 0 e) (point 0 0) = e).
  { intros e He. unfold euclideanDistance, point. simpl.
    replace ((0 - 0) * ((0 - 0) * 1) + (e - 0) * ((e - 0) * 1)) with (Rsqr e)
      by (unfold Rsqr; ring).
    apply sqrt_Rsqr. exact He. }
  split.
  - erewrite calculateEAR_present; try (apply face_at; simpl; lia).
    cbv [eyesLR existsb Nat.eqb orb p1 p2 p3 p4 p5 p6
         LEFT_EYE_EAR_POINTS RIGHT_EYE_EAR_POINTS].
    rewrite D1, (De el Hl). destruct (Req_dec_T 1 0); [lra|]. f_equal. field.
  - erewrite calculateEAR_present; try (apply face_at; simpl; lia).
    cbv [eyesLR existsb Nat.eqb orb p1 p2 p3 p4 p5 p6
         LEFT_EYE_EAR_POINTS RIGHT_EYE_EAR_POINTS].
    rewrite D1, (De er Hr). destruct (Req_dec_T 1 0); [lra|]. f_equal. field.
Qed.

Lemma distance_vertical (px a b : R) :
  a <= b -> euclideanDistance (point px a) (point px b) = b - a.
Proof.
  intros H. unfold euclideanDistance, point. simpl.
  replace ((px - px) * ((px - px) * 1) + (a - b) * ((a - b) * 1)) with (Rsqr (b - a))
    by (unfold Rsqr; ring).
  apply sqrt_Rsqr. lra.
Qed.

Lemma distance_horizontal (py a b : R) :
  a <= b -> euclideanDistance (point a py) (point b py) = b - a.
Proof.
  intros H. unfold euclideanDistance, point. simpl.
  replace ((a - b) * ((a - b) * 1) + (py - py) * ((py - py) * 1)) with (Rsqr (b - a))
    by (unfold Rsqr; ring).
  apply sqrt_Rsqr. lra.
Qed.

End EAR.

Section EAR_claims.

Import Fixtures.
Import BlinkDetection.
Open Scope R_scope.

(** C5.  On a landmark set that holds the six indices of an eye,
    [calculateEAR] returns a value (it raises nothing), the value is
    non-negative, and it is exactly 0 when the eye corners [p1] and [p4]
    are at distance 0. *)
Theorem calculateEAR_defined_nonneg (landmarks : list Landmark) (eye : EyePoints)
  (q1 q2 q3 q4 q5 q6 : Landmark) :
  landmarks.[p1 eye] = Some q1 -> landmarks.[p2 eye] = Some q2 ->
  landmarks.[p3 eye] = Some q3 -> landmarks.[p4 eye] = Some q4 ->
  landmarks.[p5 eye] = Some q5 -> landmarks.[p6 eye] = Some q6 ->
  exists v : R,
    calculateEAR landmarks eye = Some v /\
    0 <= v /\
    (euclideanDistance q1 q4 = 0 -> v = 0).
Proof.
  intros H1 H2 H3 H4 H5 H6.
  pose proof (calculateEAR_present landmarks eye _ _ _ _ _ _ H1 H2 H3 H4 H5 H6) as E.
  eexists. split; [exact E|]. split.
  - eapply calculateEAR_nonneg. exact E.
  - intros Z0. destruct (Req_dec_T (euclideanDistance q1 q4) 0); [reflexivity|contradiction].
Qed.

(** The theorem at a face whose landmarks all coincide: the degenerate
    eye of zero width. *)
Lemma calculateEAR_defined_nonneg_witness :
  exists v : R,
    calculateEAR (face (fun _ => point 0 0)) LEFT_EYE_EAR_POINTS = Some v /\
    0 <= v /\
    (euclideanDistance (point 0 0) (point 0 0) = 0 -> v = 0).
Proof.
  apply (calculateEAR_defined_nonneg
           (face (fun _ => point 0 0)) LEFT_EYE_EAR_POINTS
           (point 0 0) (point 0 0) (point 0 0)
           (point 0 0) (point 0 0) (point 0 0));
    reflexivity.
Defined.

(** C6.  Multiplying every coordinate of every landmark by one non-zero
    factor leaves the EAR of each eye unchanged (over the reals). *)
Theorem calculateEAR_scale_invariant (landmarks : list Landmark) (eye : EyePoints) (k : R) :
  k <> 0 ->
  calculateEAR (map (scale k) landmarks) eye = calculateEAR landmarks eye.
Proof.
  intros Hk. unfold calculateEAR. rewrite !at_map.
  destruct (landmarks.[p1 eye]) as [q1|]; [|reflexivity].
  destruct (landmarks.[p2 eye]) as [q2|]; [|reflexivity].
  destruct (landmarks.[p3 eye]) as [q3|]; [|reflexivity].
  destruct (landmarks.[p4 eye]) as [q4|]; [|reflexivity].
  destruct (landmarks.[p5 eye]) as [q5|]; [|reflexivity].
  destruct (landmarks.[p6 eye]) as [q6|]; [|reflexivity].
  simpl. rewrite !euclideanDistance_scale.
  assert (Ha : Rabs k <> 0) by (apply Rabs_no_R0; exact Hk).
  destruct (Req_dec_T (Rabs k * euclideanDistance q1 q4) 0) as [E|N];
    destruct (Req_dec_T (euclideanDistance q1 q4) 0) as [E'|N'].
  - reflexivity.
  - exfalso. apply Rmult_integral in E. tauto.
  - exfalso. apply N. rewrite E'. ring.
  - f_equal. field. split; assumption.
Qed.

(** The theorem at the open-eye fixture, doubled in size; both sides are
    the EAR 0.3. *)
Lemma calculateEAR_scale_invariant_witness :
  2 <> 0 /\
  calculateEAR (map (scale 2) (face (eyesAt 0.3)))
    LEFT_EYE_EAR_POINTS
  = calculateEAR (face (eyesAt 0.3)) LEFT_EYE_EAR_POINTS.
Proof.
  assert (H : 2 <> 0) by lra.
  split; [exact H|].
  apply (calculateEAR_scale_invariant
           (face (eyesAt 0.3)) LEFT_EYE_EAR_POINTS 2 H).
Defined.

End EAR_claims.

(** ** Blink detector *)

Section Blink.

Import Fixtures.
Import BlinkDetection.
Open Scope R_scope.

(** [detect] in terms of the average EAR of the frame. *)
Lemma detect_avg (this : BlinkDetector) (frame : list Landmark) (a : R) :
  getEyeAspectRatio_avg frame = Some a ->
  exists res,
    detect this frame =
    Some (if Rlt_dec a (EAR_THRESHOLD this)
          then {| EAR_THRESHOLD := EAR_THRESHOLD this;
                  frameCounter := (frameCounter this + 1)%Z;
                  blinkCount := blinkCount this |}
          else {| EAR_THRESHOLD := EAR_THRESHOLD this;
                  frameCounter := 0%Z;
                  blinkCount :=
                    if (CONSEC_FRAMES <=? frameCounter this)%Z
                    then (blinkCount this + 1)%Z else blinkCount this |},
          res).
Proof.
  unfold getEyeAspectRatio_avg, detect, JS.bind.
  destruct (calculateEAR frame LEFT_EYE_EAR_POINTS) as [l|]; [|discriminate].
  destruct (calculateEAR frame RIGHT_EYE_EAR_POINTS) as [r|]; [|discriminate].
  intros [= <-].
  destruct (Rlt_dec ((l + r) / 2) (EAR_THRESHOLD this)); eexists; reflexivity.
Qed.

(** A run of low frames only advances the consecutive-frame counter. *)
Lemma detectAll_low (frames : list (list Landmark)) :
  Forall lowFrame frames ->
  forall this : BlinkDetector,
    EAR_THRESHOLD this = 0.21 ->
    detectAll this frames =
    Some {| EAR_THRESHOLD := 0.21;
            frameCounter := (frameCounter this + Z.of_nat (length frames))%Z;
            blinkCount := blinkCount this |}.
Proof.
  induction 1 as [|frame frames [a [Ha Hlow]] _ IH]; intros this Ht.
  - simpl. rewrite Z.add_0_r. destruct this; simpl in *; subst; reflexivity.
  - destruct (detect_avg this frame a Ha) as [res E].
    cbn [detectAll]. rewrite E, Ht.
    destruct (Rlt_dec a 0.21); [|contradiction].
    rewrite IH by reflexivity. cbn [frameCounter blinkCount length].
    do 2 f_equal. lia.
Qed.

Lemma detectAll_app (frames : list (list Landmark)) (last : list Landmark) :
  forall this this1 : BlinkDetector,
    detectAll this frames = Some this1 ->
    detectAll this (frames ++ [last]) = detectAll this1 [last].
Proof.
  induction frames as [|f frames IH]; intros this this1.
  - simpl. intros [= ->]. reflexivity.
  - cbn [detectAll app]. destruct (detect this f) as [[this' res]|]; [|discriminate].
    apply IH.
Qed.

(** C1.  From a detector with threshold 0.21 and an idle consecutive-frame
    counter (a fresh one in particular), N frames of average EAR below
    the threshold followed by one frame at or above it raise [blinkCount]
    by 1 when N >= 2 (CONSEC_FRAMES) and by 0 when N < 2, and leave the
    consecutive-frame counter at 0. *)
Theorem blink_counted_after_two_low_frames
  (this : BlinkDetector) (frames : list (list Landmark)) (last : list Landmark) :
  EAR_THRESHOLD this = 0.21 ->
  frameCounter this = 0%Z ->
  Forall lowFrame frames ->
  highFrame last ->
  exists this' : BlinkDetector,
    detectAll this (frames ++ [last]) = Some this' /\
    blinkCount this' =
      (blinkCount this + if (2 <=? length frames)%nat then 1 else 0)%Z /\
    frameCounter this' = 0%Z.
Proof.
  intros Ht Hc Hlow [a [Ha Hhigh]].
  rewrite (detectAll_app frames last this _ (detectAll_low frames Hlow this Ht)).
  match goal with |- context [detectAll ?d [last]] => set (mid := d) end.
  destruct (detect_avg mid last a Ha) as [res E].
  cbn [detectAll]. rewrite E. subst mid. cbn [EAR_THRESHOLD frameCounter blinkCount].
  destruct (Rlt_dec a 0.21); [lra|].
  eexists. split; [reflexivity|]. cbn [frameCounter blinkCount]. split; [|reflexivity].
  rewrite Hc. unfold CONSEC_FRAMES.
  destruct (2 <=? length frames)%nat eqn:E2.
  - apply Nat.leb_le in E2.
    destruct (2 <=? 0 + Z.of_nat (length frames))%Z eqn:E3; [lia|].
    apply Z.leb_gt in E3. lia.
  - apply Nat.leb_gt in E2.
    destruct (2 <=? 0 + Z.of_nat (length frames))%Z eqn:E3; [|lia].
    apply Z.leb_le in E3. lia.
Qed.

Lemma eyesAt_low (e : R) : 0 <= e < 0.21 -> lowFrame (face (eyesAt e)).
Proof.
  intros [H0 H1]. exists e. split; [|exact H1].
  unfold getEyeAspectRatio_avg. destruct (eyesAt_EAR e H0) as [-> ->].
  simpl. f_equal. field.
Qed.

Lemma eyesAt_high (e : R) : 0.21 <= e -> highFrame (face (eyesAt e)).
Proof.
  intros H1. exists e. split; [|exact H1].
  assert (H0 : 0 <= e) by lra.
  unfold getEyeAspectRatio_avg. destruct (eyesAt_EAR e H0) as [-> ->].
  simpl. f_equal. field.
Qed.

(** The two sequences of the specification on a fresh detector: the
    average EARs 0.1, 0.1, 0.25 count one blink, and 0.1, 0.25 count
    none. *)
Lemma blink_counted_after_two_low_frames_witness :
  (exists this' : BlinkDetector,
     detectAll fresh
       ([face (eyesAt 0.1); face (eyesAt 0.1)]
        ++ [face (eyesAt 0.25)]) = Some this' /\
     blinkCount this' = 1%Z /\ frameCounter this' = 0%Z) /\
  (exists this' : BlinkDetector,
     detectAll fresh
       ([face (eyesAt 0.1)]
        ++ [face (eyesAt 0.25)]) = Some this' /\
     blinkCount this' = 0%Z /\ frameCounter this' = 0%Z).
Proof.
  assert (L : lowFrame (face (eyesAt 0.1))) by (apply eyesAt_low; lra).
  assert (H : highFrame (face (eyesAt 0.25))) by (apply eyesAt_high; lra).
  split.
  - apply (blink_counted_after_two_low_frames fresh
             [face (eyesAt 0.1); face (eyesAt 0.1)]
             (face (eyesAt 0.25)));
      [reflexivity | reflexivity | repeat constructor; exact L | exact H].
  - apply (blink_counted_after_two_low_frames fresh
             [face (eyesAt 0.1)]
             (face (eyesAt 0.25)));
      [reflexivity | reflexivity | repeat constructor; exact L | exact H].
Defined.

End Blink.

(** ** Sleep detector *)

Section Sleep.

Import Fixtures.
Import SleepDetection.
Open Scope R_scope.

Lemma round_IZR (n : Z) : JS.round (IZR n) = n.
Proof.
  unfold JS.round. symmetry. apply Int_part_spec. lra.
Qed.

Lemma round_le (v : R) (n : Z) : v <= IZR n -> (JS.round v <= n)%Z.
Proof.
  intros Hv. unfold JS.round.
  destruct (base_Int_part (v + / 2)) as [Hlo _].
  apply Z.lt_succ_r. apply lt_IZR. rewrite succ_IZR. lra.
Qed.

Lemma closedFace_eyes : BlinkDetection.areEyesClosed closedFace EAR_THRESHOLD = Some true.
Proof.
  unfold BlinkDetection.areEyesClosed, closedFace.
  destruct (eyesAt_EAR 0 (Rle_refl 0)) as [-> ->]. simpl.
  unfold EAR_THRESHOLD. destruct (Rlt_dec ((0 + 0) / 2) 0.21); [reflexivity|lra].
Qed.

Lemma closedFace_pose :
  exists pose, calculateHeadPose closedFace = Some pose /\ pitch pose = 0.
Proof.
  unfold calculateHeadPose, closedFace, NOSE_TIP, FOREHEAD, CHIN,
    LEFT_EYE_OUTER, RIGHT_EYE_OUTER.
  rewrite !face_at by lia. cbn [JS.bind].
  eexists. split; [reflexivity|]. cbn [pitch].
  cbv [eyesAt existsb Nat.eqb orb point BlinkDetection.y].
  unfold JS.atan2. destruct (Rlt_dec 0 1); [|lra].
  replace ((0 - 0) / JS.or_default (Rabs (0 - 0)) 1 / 1) with 0.
  - apply atan_0.
  - unfold Rdiv. ring.
Qed.

(** What [detect] leaves behind, in terms of its two inputs. *)
Lemma detect_inv (now : Z) (this : SleepDetector)
  (landmarks : list BlinkDetection.Landmark)
  (this' : SleepDetector) (res : SleepDetectionResult) :
  detect now this landmarks = Some (this', res) ->
  exists eyesClosed pose,
    BlinkDetection.areEyesClosed landmarks EAR_THRESHOLD = Some eyesClosed /\
    calculateHeadPose landmarks = Some pose /\
    eyeClosedFrames this' =
      (if eyesClosed then (eyeClosedFrames this + 1)%Z
       else Z.max 0 (eyeClosedFrames this - 2)) /\
    headDownFrames this' =
      (if Rgt_dec (pitch pose) (PITCH_THRESHOLD this) then (headDownFrames this + 1)%Z
       else Z.max 0 (headDownFrames this - 2)) /\
    EYE_CLOSED_THRESHOLD this' = EYE_CLOSED_THRESHOLD this /\
    HEAD_DOWN_THRESHOLD this' = HEAD_DOWN_THRESHOLD this /\
    sleepScore res = JS.round (Rmin 100 (eyeScore this' + headScore this')).
Proof.
  unfold detect, JS.bind.
  destruct (BlinkDetection.areEyesClosed landmarks EAR_THRESHOLD) as [c|]; [|discriminate].
  destruct (calculateHeadPose landmarks) as [pose|]; [|discriminate].
  match goal with
  | |- context [let '(a, b) := ?e in _] => destruct e as [start total]
  end.
  intros [= <- <-]. exists c, pose. cbn.
  destruct (Rgt_dec (pitch pose) (PITCH_THRESHOLD this)); repeat split; reflexivity.
Qed.

(** [detect] raises nothing when the eyes and the head pose can be read. *)
Lemma detect_defined (now : Z) (this : SleepDetector)
  (landmarks : list BlinkDetection.Landmark) (c : bool) (pose : HeadPose) :
  BlinkDetection.areEyesClosed landmarks EAR_THRESHOLD = Some c ->
  calculateHeadPose landmarks = Some pose ->
  exists this' res, detect now this landmarks = Some (this', res).
Proof.
  intros Hc Hp. unfold detect. rewrite Hc, Hp. cbn [JS.bind].
  match goal with
  | |- context [let '(a, b) := ?e in _] => destruct e as [start total]
  end.
  eexists. eexists. reflexivity.
Qed.

Lemma detect_closedFace (now : Z) (this : SleepDetector) :
  0 <= PITCH_THRESHOLD this ->
  exists this' res,
    detect now this closedFace = Some (this', res) /\
    eyeClosedFrames this' = (eyeClosedFrames this + 1)%Z /\
    headDownFrames this' = Z.max 0 (headDownFrames this - 2) /\
    EYE_CLOSED_THRESHOLD this' = EYE_CLOSED_THRESHOLD this /\
    HEAD_DOWN_THRESHOLD this' = HEAD_DOWN_THRESHOLD this /\
    sleepScore res = JS.round (Rmin 100 (eyeScore this' + headScore this')).
Proof.
  intros Hp. destruct closedFace_pose as [pose [Hpose Hpitch]].
  destruct (detect_defined now this closedFace true pose closedFace_eyes Hpose)
    as [this' [res E]].
  exists this', res. split; [exact E|].
  destruct (detect_inv now this closedFace this' res E)
    as [c [pose' [Hc [Hpose' [He [Hh [Ht1 [Ht2 Hs]]]]]]]].
  rewrite closedFace_eyes in Hc. injection Hc as <-.
  rewrite Hpose in Hpose'. injection Hpose' as <-.
  rewrite Hpitch in Hh.
  destruct (Rgt_dec 0 (PITCH_THRESHOLD this)); [lra|].
  repeat split; assumption.
Qed.

(** C2, as stated, fails: after 90 consecutive closed-eye frames with the
    head level the head contribution is 0, the eye contribution is 100,
    above the claimed bound of 60, and the returned score is 100. *)
Lemma sleep_eye_score_exceeds_60 :
  exists this' res,
    detect 0 longClosed closedFace = Some (this', res) /\
    headScore this' = 0 /\
    eyeScore this' = 100 /\
    sleepScore res = 100%Z /\
    ~ eyeScore this' <= 60.
Proof.
  destruct (detect_closedFace 0 longClosed) as [this' [res [E [He [Hh [T1 [T2 Hs]]]]]]].
  { simpl. lra. }
  exists this', res. split; [exact E|].
  assert (A : headScore this' = 0).
  { unfold headScore. rewrite Hh, T2.
    change (Z.max 0 (headDownFrames longClosed - 2)) with 0%Z.
    change (HEAD_DOWN_THRESHOLD longClosed) with 30.
    unfold Rmin. destruct (Rle_dec 40 (0 / 30 * 40)); lra. }
  assert (B : eyeScore this' = 100).
  { unfold eyeScore. rewrite He, T1.
    change (eyeClosedFrames longClosed + 1)%Z with 90%Z.
    change (EYE_CLOSED_THRESHOLD longClosed) with 45.
    unfold Rmin. destruct (Rle_dec 100 (90 / 45 * 60)); lra. }
  repeat split; try assumption.
  - rewrite Hs, A, B. replace (Rmin 100 (100 + 0)) with (IZR 100).
    + apply round_IZR.
    + unfold Rmin. destruct (Rle_dec 100 (100 + 0)); lra.
  - rewrite B. lra.
Qed.

(** C2, amended.  For a detector whose two frame thresholds are positive
    (45 and 30 by default), whenever [detect] returns, the score is the
    rounded, 100-capped sum of a head contribution of at most 40 and an
    eye contribution of at most 100; the eye contribution is at most 60
    exactly while the closed-eye counter has not passed its threshold,
    and it is 100 exactly once the counter is at least 5/3 of the
    threshold; the score is at most 100. *)
Theorem sleep_score_bounds (now : Z) (this : SleepDetector)
  (landmarks : list BlinkDetection.Landmark)
  (this' : SleepDetector) (res : SleepDetectionResult) :
  0 < EYE_CLOSED_THRESHOLD this ->
  0 < HEAD_DOWN_THRESHOLD this ->
  detect now this landmarks = Some (this', res) ->
  sleepScore res = JS.round (Rmin 100 (eyeScore this' + headScore this')) /\
  headScore this' <= 40 /\
  eyeScore this' <= 100 /\
  (eyeScore this' <= 60 <->
   IZR (eyeClosedFrames this') <= EYE_CLOSED_THRESHOLD this) /\
  (eyeScore this' = 100 <->
   5 * EYE_CLOSED_THRESHOLD this <= 3 * IZR (eyeClosedFrames this')) /\
  (sleepScore res <= 100)%Z.
Proof.
  intros Te _ E.
  destruct (detect_inv now this landmarks this' res E)
    as [c [pose [_ [_ [_ [_ [Te' [_ Hs]]]]]]]].
  split; [exact Hs|].
  split; [apply Rmin_l|].
  split; [apply Rmin_l|].
  assert (Hr : IZR (eyeClosedFrames this') / EYE_CLOSED_THRESHOLD this
               * EYE_CLOSED_THRESHOLD this = IZR (eyeClosedFrames this'))
    by (field; lra).
  unfold eyeScore. rewrite Te'.
  set (r := IZR (eyeClosedFrames this') / EYE_CLOSED_THRESHOLD this) in *.
  set (f := IZR (eyeClosedFrames this')) in *.
  set (T := EYE_CLOSED_THRESHOLD this) in *.
  split; [|split].
  - unfold Rmin. destruct (Rle_dec 100 (r * 60)); split; intros H; nra.
  - unfold Rmin. destruct (Rle_dec 100 (r * 60)); split; intros H; nra.
  - rewrite Hs. apply round_le. apply Rmin_l.
Qed.

(** The theorem at the ninetieth closed-eye frame, default thresholds:
    the counter has passed 5/3 of 45, the eye contribution is 100. *)
Lemma sleep_score_bounds_witness :
  exists this' res,
    detect 0 longClosed closedFace = Some (this', res) /\
    sleepScore res = JS.round (Rmin 100 (eyeScore this' + headScore this')) /\
    headScore this' <= 40 /\
    eyeScore this' <= 100 /\
    (eyeScore this' <= 60 <->
     IZR (eyeClosedFrames this') <= EYE_CLOSED_THRESHOLD longClosed) /\
    (eyeScore this' = 100 <->
     5 * EYE_CLOSED_THRESHOLD longClosed <= 3 * IZR (eyeClosedFrames this')) /\
    (sleepScore res <= 100)%Z.
Proof.
  destruct closedFace_pose as [pose [Hpose _]].
  destruct (detect_defined 0 longClosed closedFace true pose closedFace_eyes Hpose)
    as [this' [res E]].
  exists this', res. split; [exact E|].
  assert (Te : 0 < EYE_CLOSED_THRESHOLD longClosed) by (simpl; lra).
  assert (Th : 0 < HEAD_DOWN_THRESHOLD longClosed) by (simpl; lra).
  exact (sleep_score_bounds 0 longClosed closedFace this' res Te Th E).
Defined.

End Sleep.

(** ** Tunable parameters *)

Section Setters.

Open Scope R_scope.

(** C3 fails on the code.  [BlinkDetector.setThreshold],
    [SleepDetector.setThresholds] and [GestureRecognizer.setHoldTime]
    store whatever they are given: a negative EAR threshold, a zero
    frame threshold (the divisor of the eye score) and a negative hold
    time are kept as they are.  Only [HeadTracker.setSmoothing] clamps
    its argument into [0, 1]. *)
Theorem setters_store_out_of_range_values :
  BlinkDetection.EAR_THRESHOLD
    (BlinkDetection.setThreshold BlinkDetection.fresh (-1)) = -1 /\
  SleepDetection.EYE_CLOSED_THRESHOLD
    (SleepDetection.setThresholds SleepDetection.fresh
       {| SleepDetection.eyeClosedThreshold := Some 0;
          SleepDetection.headDownThreshold := None;
          SleepDetection.pitchThreshold := None |}) = 0 /\
  GestureCommands.MIN_HOLD_TIME
    (GestureCommands.setHoldTime GestureCommands.fresh (-5)) = (-5)%Z /\
  (forall (t : HeadTracking.HeadTracker) (factor : R),
     0 <= HeadTracking.smoothingFactor (HeadTracking.setSmoothing t factor) <= 1).
Proof.
  repeat split; try reflexivity.
  - simpl. apply Rmax_l.
  - simpl. apply Rmax_lub; [lra|apply Rmin_l].
Qed.

End Setters.

(** ** Cumulative counters *)

Section CounterClaims.

Import Counters.
Open Scope Z_scope.

Lemma afterYawn_yawnCount : yawnCount afterYawn = 1.
Proof.
  unfold yawnCount, afterYawn, FatigueDetection.processMouthState. cbn.
  destruct (Rgt_dec 0.9 0.6) as [_|N]; [reflexivity|exfalso; apply N; lra].
Qed.

(** C4, as stated, fails: [recordBreak] is not a reset operation and it
    lowers the yawn count, here from 1 to 0. *)
Lemma recordBreak_lowers_yawnCount :
  exists o' : Owners,
    run (Fatigue (FatigueDetection.RecordBreak 13000)) afterYawn = Some o' /\
    isReset (Fatigue (FatigueDetection.RecordBreak 13000)) = false /\
    yawnCount afterYawn = 1 /\
    yawnCount o' = 0 /\
    ~ yawnCount afterYawn <= yawnCount o'.
Proof.
  eexists. split; [reflexivity|]. split; [reflexivity|].
  pose proof afterYawn_yawnCount as Y.
  assert (Y' : yawnCount
                 {| blink := blink afterYawn;
                    fatigue := FatigueDetection.call (FatigueDetection.RecordBreak 13000)
                                 (fatigue afterYawn);
                    stats := stats afterYawn |} = 0).
  { unfold yawnCount in *. cbn [fatigue FatigueDetection.call FatigueDetection.recordBreak
      FatigueDetection.yawnCount]. cbn [fatigue] in Y. rewrite Y. reflexivity. }
  repeat split; try assumption. rewrite Y, Y'. lia.
Qed.

(** C4, amended.  An operation that is not an explicit reset
    ([resetBlinkCount], [reset], [startSession]) and not
    [FatigueDetector.recordBreak] never lowers the blink, yawn,
    head-droop or gesture count; this covers every per-frame call.
    [recordBreak] takes 2 off the yawn count and 1 off the head-droop
    count, stopping at 0, and leaves the other two counters alone. *)
Theorem counters_non_decreasing (op : Operation) (o o' : Owners) :
  run op o = Some o' ->
  isReset op = false ->
  if isRecordBreak op then
    yawnCount o' = Z.max 0 (yawnCount o - 2) /\
    headDroopEvents o' = Z.max 0 (headDroopEvents o - 1) /\
    blinkCount o' = blinkCount o /\
    gestureCount o' = gestureCount o
  else
    blinkCount o <= blinkCount o' /\
    yawnCount o <= yawnCount o' /\
    headDroopEvents o <= headDroopEvents o' /\
    gestureCount o <= gestureCount o'.
Proof.
  unfold blinkCount, yawnCount, headDroopEvents, gestureCount.
  destruct op as [landmarks| |threshold|m|a]; cbn [run isReset isRecordBreak].
  - unfold BlinkDetection.detect, JS.bind.
    destruct (BlinkDetection.calculateEAR landmarks BlinkDetection.LEFT_EYE_EAR_POINTS)
      as [l|]; [|discriminate].
    destruct (BlinkDetection.calculateEAR landmarks BlinkDetection.RIGHT_EYE_EAR_POINTS)
      as [r|]; [|discriminate].
    destruct (Rlt_dec ((l + r) / 2) (BlinkDetection.EAR_THRESHOLD (blink o)));
      intros [= <-] _; cbn; repeat split; try lia.
    destruct (BlinkDetection.CONSEC_FRAMES <=? BlinkDetection.frameCounter (blink o)); lia.
  - discriminate.
  - intros [= <-] _. cbn. repeat split; lia.
  - intros [= <-] Hr.
    destruct m as [minutes|now1 now2| |now| |now l r|now open ratio|headY];
      cbn in Hr; try discriminate; cbn [fatigue blink stats FatigueDetection.call].
    + cbn. repeat split; lia.
    + cbn. repeat split; lia.
    + cbn. repeat split; lia.
    + unfold FatigueDetection.processEyeState.
      repeat match goal with
             | |- context [let '(a, b) := ?e in _] => destruct e
             end.
      cbn. repeat split; lia.
    + unfold FatigueDetection.processMouthState. cbn.
      repeat split; try lia.
      match goal with |- context [if ?c then _ else _] => destruct c end; lia.
    + unfold FatigueDetection.processHeadPosition. cbn.
      repeat split; try lia.
      match goal with |- context [if ?c then _ + 1 else _] => destruct c end; lia.
  - intros [= <-] _. destruct a as [| |now|now|now]; cbn; repeat split; try lia.
    unfold AccessMateStore.endSession.
    destruct (FatigueDetection.truthy (AccessMateStore.sessionStartTime (stats o)));
      cbn; lia.
Qed.

(** The theorem at a fired gesture on the initial owners: the gesture
    count goes from 0 to 1 and nothing else moves. *)
Lemma counters_non_decreasing_witness :
  blinkCount initial <= blinkCount
    {| blink := blink initial; fatigue := fatigue initial;
       stats := AccessMateStore.incrementGestureCount (stats initial) |} /\
  yawnCount initial <= yawnCount
    {| blink := blink initial; fatigue := fatigue initial;
       stats := AccessMateStore.incrementGestureCount (stats initial) |} /\
  headDroopEvents initial <= headDroopEvents
    {| blink := blink initial; fatigue := fatigue initial;
       stats := AccessMateStore.incrementGestureCount (stats initial) |} /\
  gestureCount initial <= gestureCount
    {| blink := blink initial; fatigue := fatigue initial;
       stats := AccessMateStore.incrementGestureCount (stats initial) |}.
Proof.
  apply (counters_non_decreasing (Store AccessMateStore.IncrementGestureCount)
           initial
           {| blink := blink initial; fatigue := fatigue initial;
              stats := AccessMateStore.incrementGestureCount (stats initial) |});
    reflexivity.
Defined.

End CounterClaims.

(** ** Wink detection *)

Section Wink.

Import Fixtures.
Import FaceGestures.
Open Scope R_scope.

(** C7.  Whatever the detector's histories and thresholds, a frame on
    which the smoothed left and right EAR come out equal reports no wink
    on either side. *)
Theorem no_wink_on_equal_smoothed_EAR (this : EyeGestureDetector)
  (landmarks : list BlinkDetection.Landmark)
  (this' : EyeGestureDetector) (state : EyeState) :
  detect this landmarks = Some (this', state) ->
  leftEAR state = rightEAR state ->
  isWinkingLeft state = false /\ isWinkingRight state = false.
Proof.
  unfold detect, JS.bind.
  destruct (calculateEAR landmarks LEFT_EYE) as [l|]; [|discriminate].
  destruct (calculateEAR landmarks RIGHT_EYE) as [r|]; [|discriminate].
  match goal with
  | |- context [let '(a, b) := ?e in _] => destruct e as [left2 right2]
  end.
  intros [= _ <-]. cbn [leftEAR rightEAR isWinkingLeft isWinkingRight].
  intros ->. rewrite Rminus_diag, Rabs_R0.
  destruct (gt (JS.sum right2 / INR (length right2)) (OPEN_THRESHOLD this));
    split; reflexivity.
Qed.

(** The first frame of a fresh detector, both eyes at EAR 0.3. *)
Lemma no_wink_on_equal_smoothed_EAR_witness :
  exists this' state,
    detect fresh (face (eyesAt 0.3)) = Some (this', state) /\
    leftEAR state = rightEAR state /\
    isWinkingLeft state = false /\ isWinkingRight state = false.
Proof.
  assert (H0 : 0 <= 0.3) by lra.
  destruct (eyesAt_EAR 0.3 H0) as [EL ER].
  assert (E : exists this' state,
             detect fresh (face (eyesAt 0.3)) = Some (this', state) /\
             leftEAR state = rightEAR state).
  { unfold detect, calculateEAR, LEFT_EYE, RIGHT_EYE. rewrite EL, ER.
    eexists. eexists. split; reflexivity. }
  destruct E as [this' [state [E Heq]]].
  exists this', state. split; [exact E|]. split; [exact Heq|].
  exact (no_wink_on_equal_smoothed_EAR fresh (face (eyesAt 0.3)) this' state E Heq).
Defined.

End Wink.

(** ** Head tracker *)

Section Calibration.

Import Fixtures.
Import HeadTracking.
Open Scope R_scope.

Lemma at_present {A : Type} (l : list A) (i : nat) :
  (i < length l)%nat -> exists v, l.[i] = Some v.
Proof.
  intros H. unfold JS.at_. destruct (nth_error l i) eqn:E; [eauto|].
  apply nth_error_None in E. lia.
Qed.

Lemma clamp_zero : Rmax (-1) (Rmin 1 0) = 0.
Proof.
  unfold Rmin. destruct (Rle_dec 1 0); [lra|].
  unfold Rmax. destruct (Rle_dec (-1) 0); lra.
Qed.

(** C9.  On a landmark set that reaches the highest face index the
    tracker reads (263), [calibrate] followed by [track] on the same
    landmarks returns a head position whose [x] and [y] are exactly 0,
    hence within every tolerance of 0. *)
Theorem calibrate_then_track_centered (this : HeadTracker)
  (landmarks : list BlinkDetection.Landmark) :
  (RIGHT_EYE_OUTER < length landmarks)%nat ->
  exists (this1 this2 : HeadTracker) (pos : HeadPosition),
    calibrate this landmarks = Some this1 /\
    track this1 landmarks = (this2, Some pos) /\
    x pos = 0 /\ y pos = 0.
Proof.
  unfold RIGHT_EYE_OUTER. intros Hlen.
  destruct (at_present landmarks NOSE_TIP) as [nose Hn]; [unfold NOSE_TIP; lia|].
  destruct (at_present landmarks FOREHEAD_CENTER) as [fh Hf]; [unfold FOREHEAD_CENTER; lia|].
  destruct (at_present landmarks CHIN) as [chin Hc]; [unfold CHIN; lia|].
  destruct (at_present landmarks LEFT_EYE_OUTER) as [le Hl]; [unfold LEFT_EYE_OUTER; lia|].
  destruct (at_present landmarks RIGHT_EYE_OUTER) as [re Hr]; [unfold RIGHT_EYE_OUTER; lia|].
  unfold calibrate, track. rewrite Hn, Hf, Hc, Hl, Hr. cbn [JS.bind].
  eexists. eexists. eexists. split; [reflexivity|]. split; [reflexivity|].
  cbn [x y calibration centerX centerY rangeX rangeY smoothedX smoothedY smoothingFactor].
  replace ((BlinkDetection.x nose - BlinkDetection.x nose) / 0.25) with 0
    by (unfold Rdiv; ring).
  replace ((BlinkDetection.y nose - BlinkDetection.y nose) / 0.15) with 0
    by (unfold Rdiv; ring).
  rewrite clamp_zero. split; ring.
Qed.

(** The theorem at a fresh tracker and the 468-landmark eye fixture. *)
Lemma calibrate_then_track_centered_witness :
  exists (this1 this2 : HeadTracker) (pos : HeadPosition),
    calibrate fresh (face (eyesAt 0.3)) = Some this1 /\
    track this1 (face (eyesAt 0.3)) = (this2, Some pos) /\
    x pos = 0 /\ y pos = 0.
Proof.
  apply (calibrate_then_track_centered fresh (face (eyesAt 0.3))).
  apply Nat.ltb_lt. reflexivity.
Defined.

End Calibration.

(** ** Finger and gesture classification *)

Section Classification.

Import Fixtures.
Import FingerCounting.
Import GestureCommands.
Open Scope Z_scope.

(** A list of 21 elements, element by element. *)
Ltac twenty_one landmarks H :=
  do 21 (destruct landmarks as [|? landmarks]; [discriminate H|]);
  destruct landmarks; [clear H|discriminate H].

Ltac split_tests :=
  repeat match goal with
         | |- context [lt ?a ?b] => destruct (lt a b)
         end.

(** The two classifiers side by side on a hand of 21 landmarks. *)
Lemma classifiers_on_21 (landmarks : list HandLandmark) (isRightHand : bool) :
  length landmarks = 21%nat ->
  exists (r : GestureResult) (c : FingerCountResult) (g : Gesture),
    recognize landmarks isRightHand = Some r /\
    GestureCommands.gesture r = Some g /\
    countFingers landmarks isRightHand = Some c /\
    fingerCount r = count c /\
    0 <= count c <= 5 /\
    (FingerCounting.fingerStates c = mkFingerStates true true true false false ->
     FingerCounting.gesture c = None /\ g = threeFingers).
Proof.
  intros H. twenty_one landmarks H.
  unfold recognize, countFingers.
  cbn [JS.at_ nth_error JS.bind THUMB INDEX MIDDLE RING PINKY
       FINGER_TIP_IDS FINGER_PIP_IDS].
  destruct isRightHand; split_tests; cbn;
    (eexists; eexists; eexists;
     repeat split; try reflexivity; try lia; try discriminate).
Qed.

(** C10.  On every hand of 21 landmarks and either handedness,
    [recognize] returns a gesture that is not null, with a finger count
    between 0 and 5; [countFingers] on the same input has no fallback,
    and when the thumb, index and middle finger are raised and the ring
    and little finger are not it reports no gesture, where [recognize]
    falls back on the count and reports [threeFingers]. *)
Theorem recognize_total (landmarks : list HandLandmark) (isRightHand : bool) :
  length landmarks = 21%nat ->
  exists (r : GestureResult) (c : FingerCountResult) (g : Gesture),
    recognize landmarks isRightHand = Some r /\
    GestureCommands.gesture r = Some g /\
    countFingers landmarks isRightHand = Some c /\
    fingerCount r = count c /\
    0 <= count c <= 5 /\
    (FingerCounting.fingerStates c = mkFingerStates true true true false false ->
     FingerCounting.gesture c = None /\ g = threeFingers).
Proof. exact (classifiers_on_21 landmarks isRightHand). Qed.

(** The theorem at the right hand with thumb, index and middle finger up. *)
Lemma recognize_total_witness :
  exists (r : GestureResult) (c : FingerCountResult) (g : Gesture),
    recognize (handOf threeUp) true = Some r /\
    GestureCommands.gesture r = Some g /\
    countFingers (handOf threeUp) true = Some c /\
    fingerCount r = count c /\
    0 <= count c <= 5 /\
    (FingerCounting.fingerStates c = mkFingerStates true true true false false ->
     FingerCounting.gesture c = None /\ g = threeFingers).
Proof.
  apply (recognize_total (handOf threeUp) true). reflexivity.
Defined.

(** The fixture evaluated: three fingers counted, no gesture from
    [countFingers], [threeFingers] from [recognize]. *)
Example threeUp_classified :
  option_map (fun c => (count c, FingerCounting.fingerStates c, FingerCounting.gesture c))
    (countFingers (handOf threeUp) true)
  = Some (3, mkFingerStates true true true false false, None) /\
  option_map GestureCommands.gesture (recognize (handOf threeUp) true)
  = Some (Some threeFingers).
Proof. split; vm_compute; reflexivity. Qed.

End Classification.

Section OpenHand.

Import Fixtures.
Import String.

(** The canonical open hand: five fingers, "Open Hand" / [openPalm]. *)
Example openHand_classified :
  option_map (fun c => (FingerCounting.count c, FingerCounting.gesture c))
    (FingerCounting.countFingers (handOf openHand) true)
  = Some (5%Z, Some "Open Hand"%string) /\
  option_map GestureCommands.gesture
    (GestureCommands.recognize (handOf openHand) true)
  = Some (Some GestureCommands.openPalm).
Proof. split; vm_compute; reflexivity. Qed.

End OpenHand.

(** ** Gesture hold recognizer *)

Section Hold.

Import Fixtures.
Import GestureCommands.
Open Scope Z_scope.











End Hold.

(** ** Head tracker: cursor mapping *)

Section Cursor.

Import Fixtures.
Import HeadTracking.
Open Scope R_scope.

Lemma clamp01_bounds (v : R) : 0 <= Rmax 0 (Rmin 1 v) <= 1.
Proof.
  split; [apply Rmax_l|]. apply Rmax_lub; [lra|apply Rmin_l].
Qed.

Lemma clamp11_bounds (v : R) : -1 <= Rmax (-1) (Rmin 1 v) <= 1.
Proof.
  split; [apply Rmax_l|]. apply Rmax_lub; [lra|apply Rmin_l].
Qed.

Lemma clamp01_half : Rmax 0 (Rmin 1 ((0 * 0 + 1) / 2)) = / 2 /\
                     forall s, Rmax 0 (Rmin 1 ((0 * s + 1) / 2)) = / 2.
Proof.
  assert (H : forall s, Rmax 0 (Rmin 1 ((0 * s + 1) / 2)) = / 2).
  { intros s. replace ((0 * s + 1) / 2) with (/ 2) by field.
    unfold Rmin. destruct (Rle_dec 1 (/ 2)); [lra|].
    unfold Rmax. destruct (Rle_dec 0 (/ 2)); lra. }
  split; [apply H|exact H].
Qed.

(** X1.  On a screen of non-negative size the mapped point lies on the
    screen, whatever the head position, speed and dead zone; and a
    coordinate inside the dead zone maps to the middle of its axis. *)
Theorem headPositionToScreen_on_screen (headPos : HeadPosition)
  (screenWidth screenHeight speed deadZone : R) :
  0 <= screenWidth -> 0 <= screenHeight ->
  let p := headPositionToScreen headPos screenWidth screenHeight speed deadZone in
  0 <= screenX p <= screenWidth /\
  0 <= screenY p <= screenHeight /\
  (Rabs (x headPos) < deadZone -> screenX p = screenWidth / 2) /\
  (Rabs (y headPos) < deadZone -> screenY p = screenHeight / 2).
Proof.
  intros Hw Hh. unfold headPositionToScreen. cbn [screenX screenY].
  repeat split.
  - apply Rmult_le_pos; [apply clamp01_bounds|exact Hw].
  - match goal with |- Rmax 0 (Rmin 1 ?v) * _ <= _ =>
      pose proof (clamp01_bounds v) as B end. nra.
  - apply Rmult_le_pos; [apply clamp01_bounds|exact Hh].
  - match goal with |- Rmax 0 (Rmin 1 ?v) * _ <= _ =>
      pose proof (clamp01_bounds v) as B end. nra.
  - intros Hd. destruct (Rlt_dec (Rabs (x headPos)) deadZone); [|contradiction].
    rewrite (proj2 clamp01_half). field.
  - intros Hd. destruct (Rlt_dec (Rabs (y headPos)) deadZone); [|contradiction].
    rewrite (proj2 clamp01_half). field.
Qed.

(** A head turned fully right and level, on a 1920 x 1080 screen. *)
Lemma headPositionToScreen_on_screen_witness :
  let p := headPositionToScreen (mkHeadPosition 1 0 0 0 0) 1920 1080
             DEFAULT_SPEED DEFAULT_DEAD_ZONE in
  0 <= screenX p <= 1920 /\
  0 <= screenY p <= 1080 /\
  (Rabs 1 < DEFAULT_DEAD_ZONE -> screenX p = 1920 / 2) /\
  (Rabs 0 < DEFAULT_DEAD_ZONE -> screenY p = 1080 / 2).
Proof.
  assert (Hw : 0 <= 1920) by lra.
  assert (Hh : 0 <= 1080) by lra.
  exact (headPositionToScreen_on_screen (mkHeadPosition 1 0 0 0 0) 1920 1080
           DEFAULT_SPEED DEFAULT_DEAD_ZONE Hw Hh).
Defined.

(** X2.  Whatever factor is passed to [setSmoothing], a following [track]
    keeps smoothed coordinates that were within [-1, 1] within [-1, 1],
    provided the calibration ranges are not zero; this holds on the
    raising path too. *)
Theorem track_keeps_smoothed_in_range (this : HeadTracker) (factor : R)
  (landmarks : list BlinkDetection.Landmark) :
  rangeX (calibration this) <> 0 -> rangeY (calibration this) <> 0 ->
  -1 <= smoothedX this <= 1 -> -1 <= smoothedY this <= 1 ->
  let this' := fst (track (setSmoothing this factor) landmarks) in
  -1 <= smoothedX this' <= 1 /\ -1 <= smoothedY this' <= 1 /\
  0 <= smoothingFactor this' <= 1.
Proof.
  intros _ _ Hx Hy. unfold track.
  pose proof (clamp01_bounds factor) as Hf.
  destruct (landmarks.[NOSE_TIP]) as [nose|]; cbn.
  - match goal with |- context [Rmax (-1) (Rmin 1 ?v) * (1 - _)] =>
      pose proof (clamp11_bounds v) as Bx end.
    match goal with |- context [smoothedY this * _ + Rmax (-1) (Rmin 1 ?v) * _] =>
      pose proof (clamp11_bounds v) as By end.
    repeat split; try apply Hf; nra.
  - repeat split; try apply Hf; lra.
Qed.

(** A fresh tracker, smoothing 0.5, one frame of the eye fixture. *)
Lemma track_keeps_smoothed_in_range_witness :
  let this' := fst (track (setSmoothing fresh 0.5) (face (eyesAt 0.3))) in
  -1 <= smoothedX this' <= 1 /\ -1 <= smoothedY this' <= 1 /\
  0 <= smoothingFactor this' <= 1.
Proof.
  apply (track_keeps_smoothed_in_range fresh 0.5 (face (eyesAt 0.3)));
    simpl; lra.
Defined.

(** [calibrate] then [track] on the same landmarks. *)
Lemma calibrate_track_origin (this : HeadTracker)
  (landmarks : list BlinkDetection.Landmark) :
  (RIGHT_EYE_OUTER < length landmarks)%nat ->
  exists (this1 this2 : HeadTracker) (pos : HeadPosition),
    calibrate this landmarks = Some this1 /\
    track this1 landmarks = (this2, Some pos) /\
    x pos = 0 /\ y pos = 0.
Proof.
  unfold RIGHT_EYE_OUTER. intros Hlen.
  destruct (at_present landmarks NOSE_TIP) as [nose Hn]; [unfold NOSE_TIP; lia|].
  destruct (at_present landmarks FOREHEAD_CENTER) as [fh Hf]; [unfold FOREHEAD_CENTER; lia|].
  destruct (at_present landmarks CHIN) as [chin Hc]; [unfold CHIN; lia|].
  destruct (at_present landmarks LEFT_EYE_OUTER) as [le Hl]; [unfold LEFT_EYE_OUTER; lia|].
  destruct (at_present landmarks RIGHT_EYE_OUTER) as [re Hr]; [unfold RIGHT_EYE_OUTER; lia|].
  unfold calibrate, track. rewrite Hn, Hf, Hc, Hl, Hr. cbn [JS.bind].
  eexists. eexists. eexists. split; [reflexivity|]. split; [reflexivity|].
  cbn [x y calibration centerX centerY rangeX rangeY smoothedX smoothedY smoothingFactor].
  replace ((BlinkDetection.x nose - BlinkDetection.x nose) / 0.25) with 0
    by (unfold Rdiv; ring).
  replace ((BlinkDetection.y nose - BlinkDetection.y nose) / 0.15) with 0
    by (unfold Rdiv; ring).
  rewrite clamp_zero. split; ring.
Qed.

(** X3.  Right after a calibration the cursor sits in the middle of the
    screen: [calibrate], [track] on the same landmarks and
    [headPositionToScreen] give (width / 2, height / 2) for every speed
    and dead zone. *)
Theorem calibrated_head_maps_to_screen_centre (this : HeadTracker)
  (landmarks : list BlinkDetection.Landmark)
  (screenWidth screenHeight speed deadZone : R) :
  (RIGHT_EYE_OUTER < length landmarks)%nat ->
  exists (this1 this2 : HeadTracker) (pos : HeadPosition),
    calibrate this landmarks = Some this1 /\
    track this1 landmarks = (this2, Some pos) /\
    headPositionToScreen pos screenWidth screenHeight speed deadZone
    = {| screenX := screenWidth / 2; screenY := screenHeight / 2 |}.
Proof.
  intros Hlen.
  destruct (calibrate_track_origin this landmarks Hlen)
    as [this1 [this2 [pos [Hc [Ht [Hx Hy]]]]]].
  exists this1, this2, pos. split; [exact Hc|]. split; [exact Ht|].
  unfold headPositionToScreen. rewrite Hx, Hy.
  destruct (Rlt_dec (Rabs 0) deadZone);
    rewrite (proj2 clamp01_half); f_equal; field.
Qed.

Lemma calibrated_head_maps_to_screen_centre_witness :
  exists (this1 this2 : HeadTracker) (pos : HeadPosition),
    calibrate fresh (face (eyesAt 0.3)) = Some this1 /\
    track this1 (face (eyesAt 0.3)) = (this2, Some pos) /\
    headPositionToScreen pos 1920 1080 DEFAULT_SPEED DEFAULT_DEAD_ZONE
    = {| screenX := 1920 / 2; screenY := 1080 / 2 |}.
Proof.
  apply (calibrated_head_maps_to_screen_centre fresh (face (eyesAt 0.3))
           1920 1080 DEFAULT_SPEED DEFAULT_DEAD_ZONE).
  apply Nat.ltb_lt. reflexivity.
Defined.

End Cursor.

(** ** Blink detector: a threshold that switches counting off *)

Section BlinkThreshold.

Import Fixtures.
Import BlinkDetection.
Open Scope R_scope.

Lemma getEyeAspectRatio_avg_nonneg (frame : list Landmark) (a : R) :
  getEyeAspectRatio_avg frame = Some a -> 0 <= a.
Proof.
  unfold getEyeAspectRatio_avg, JS.bind.
  destruct (calculateEAR frame LEFT_EYE_EAR_POINTS) as [l|] eqn:El; [|discriminate].
  destruct (calculateEAR frame RIGHT_EYE_EAR_POINTS) as [r|] eqn:Er; [|discriminate].
  intros [= <-].
  pose proof (calculateEAR_nonneg _ _ _ El). pose proof (calculateEAR_nonneg _ _ _ Er).
  lra.
Qed.

Lemma detect_some_avg (this : BlinkDetector) (frame : list Landmark)
  (this' : BlinkDetector) (res : BlinkDetectionResult) :
  detect this frame = Some (this', res) ->
  exists a, getEyeAspectRatio_avg frame = Some a.
Proof.
  unfold detect, getEyeAspectRatio_avg, JS.bind.
  destruct (calculateEAR frame LEFT_EYE_EAR_POINTS) as [l|]; [|discriminate].
  destruct (calculateEAR frame RIGHT_EYE_EAR_POINTS) as [r|]; [|discriminate].
  eauto.
Qed.

Lemma detectAll_nonpositive_threshold (frames : list (list Landmark)) :
  forall this this' : BlinkDetector,
    EAR_THRESHOLD this <= 0 ->
    (frameCounter this < CONSEC_FRAMES)%Z ->
    detectAll this frames = Some this' ->
    blinkCount this' = blinkCount this /\ EAR_THRESHOLD this' = EAR_THRESHOLD this.
Proof.
  induction frames as [|f frames IH]; intros this this' Ht Hc.
  - simpl. intros [= <-]. split; reflexivity.
  - cbn [detectAll]. destruct (detect this f) as [[this1 res]|] eqn:E; [|discriminate].
    destruct (detect_some_avg this f this1 res E) as [a Ha].
    destruct (detect_avg this f a Ha) as [res' E'].
    rewrite E in E'. injection E' as E1 _.
    pose proof (getEyeAspectRatio_avg_nonneg f a Ha) as Hpos.
    destruct (Rlt_dec a (EAR_THRESHOLD this)); [lra|].
    apply Z.leb_gt in Hc. rewrite Hc in E1. subst this1.
    intros Hrun. apply IH in Hrun; cbn in *; [exact Hrun|exact Ht|unfold CONSEC_FRAMES; lia].
Qed.

(** X4.  After [setThreshold] with a threshold that is not positive no
    frame is a blinking frame, because an EAR is never negative: from a
    detector that is not in the middle of a blink, no stream of frames
    ever changes [blinkCount]. *)
Theorem nonpositive_threshold_stops_counting (this : BlinkDetector) (threshold : R)
  (frames : list (list Landmark)) (this' : BlinkDetector) :
  threshold <= 0 ->
  (frameCounter this < CONSEC_FRAMES)%Z ->
  detectAll (setThreshold this threshold) frames = Some this' ->
  blinkCount this' = blinkCount this.
Proof.
  intros Ht Hc Hrun.
  apply (detectAll_nonpositive_threshold frames (setThreshold this threshold) this')
    in Hrun; [apply Hrun|exact Ht|exact Hc].
Qed.

(** Two closed-eye frames and an open one after [setThreshold(-1)]: the
    blink that a fresh detector would count is not counted. *)
Lemma nonpositive_threshold_stops_counting_witness :
  exists this' : BlinkDetector,
    detectAll (setThreshold fresh (-1))
      [face (eyesAt 0.1); face (eyesAt 0.1); face (eyesAt 0.25)] = Some this' /\
    blinkCount this' = blinkCount fresh.
Proof.
  assert (E : exists this', detectAll (setThreshold fresh (-1))
      [face (eyesAt 0.1); face (eyesAt 0.1); face (eyesAt 0.25)] = Some this').
  { assert (L : lowFrame (face (eyesAt 0.1))) by (apply eyesAt_low; lra).
    assert (H : highFrame (face (eyesAt 0.25))) by (apply eyesAt_high; lra).
    destruct L as [a [Ha _]]. destruct H as [b [Hb _]].
    cbn [detectAll].
    destruct (detect_avg (setThreshold fresh (-1)) _ a Ha) as [r1 ->].
    match goal with |- context [detect ?d (face (eyesAt 0.1))] =>
      destruct (detect_avg d _ a Ha) as [r2 ->] end.
    match goal with |- context [detect ?d (face (eyesAt 0.25))] =>
      destruct (detect_avg d _ b Hb) as [r3 ->] end.
    eauto. }
  destruct E as [this' E]. exists this'. split; [exact E|].
  apply (nonpositive_threshold_stops_counting fresh (-1)
           [face (eyesAt 0.1); face (eyesAt 0.1); face (eyesAt 0.25)] this');
    [lra|reflexivity|exact E].
Defined.

End BlinkThreshold.

(** ** Sleep detector: duration and decision *)

Section SleepExtras.

Import Fixtures.
Import Invariants.
Import SleepDetection.
Open Scope R_scope.

Lemma detect_decision (now : Z) (this : SleepDetector)
  (landmarks : list BlinkDetection.Landmark)
  (this' : SleepDetector) (res : SleepDetectionResult) :
  detect now this landmarks = Some (this', res) ->
  exists c : bool,
    BlinkDetection.areEyesClosed landmarks EAR_THRESHOLD = Some c /\
    isSleeping res =
      (geb (IZR (eyeClosedFrames this')) (EYE_CLOSED_THRESHOLD this)
       || (c && geb (IZR (headDownFrames this')) (HEAD_DOWN_THRESHOLD this))
       || (c && geb (IZR (headDownFrames this')) (HEAD_DOWN_THRESHOLD this / 2)))%bool /\
    sleepStartTime this' =
      (if isSleeping res
       then match sleepStartTime this with None => Some now | Some t => Some t end
       else None) /\
    totalSleepDuration this' =
      (if isSleeping res then totalSleepDuration this
       else match sleepStartTime this with
            | Some t => totalSleepDuration this + (now - t)
            | None => totalSleepDuration this
            end)%Z.
Proof.
  unfold detect, JS.bind, geb.
  destruct (BlinkDetection.areEyesClosed landmarks EAR_THRESHOLD) as [c|]; [|discriminate].
  destruct (calculateHeadPose landmarks) as [pose|]; [|discriminate].
  match goal with
  | |- context [let '(a, b) := (if ?s then _ else _) in _] => destruct s eqn:S
  end; destruct (sleepStartTime this) as [t|];
    intros [= <- <-]; exists c; cbn; rewrite S; repeat split; reflexivity.
Qed.

(** X5.  Sleep time is charged exactly while the detector reports sleep:
    read [dt] milliseconds after a [detect] call, the current sleep
    duration is what it was at the call plus [dt] if that frame was
    judged asleep, and unchanged if it was not.  In particular a call
    never changes the duration read at the same instant. *)
Theorem sleep_duration_grows_only_asleep (now dt : Z) (this : SleepDetector)
  (landmarks : list BlinkDetection.Landmark)
  (this' : SleepDetector) (res : SleepDetectionResult) :
  detect now this landmarks = Some (this', res) ->
  getCurrentSleepDuration (now + dt) this' =
  (getCurrentSleepDuration now this + if isSleeping res then dt else 0)%Z.
Proof.
  intros E.
  destruct (detect_decision now this landmarks this' res E) as [c [_ [_ [Hs Ht]]]].
  unfold getCurrentSleepDuration. rewrite Hs, Ht.
  destruct (isSleeping res); destruct (sleepStartTime this); lia.
Qed.

Lemma sleep_duration_grows_only_asleep_witness :
  exists this' res,
    detect 5000 longClosed closedFace = Some (this', res) /\
    getCurrentSleepDuration (5000 + 1000) this' =
    (getCurrentSleepDuration 5000 longClosed + if isSleeping res then 1000 else 0)%Z.
Proof.
  destruct closedFace_pose as [pose [Hpose _]].
  destruct (detect_defined 5000 longClosed closedFace true pose closedFace_eyes Hpose)
    as [this' [res E]].
  exists this', res. split; [exact E|].
  exact (sleep_duration_grows_only_asleep 5000 1000 longClosed closedFace this' res E).
Defined.

(** X6.  With a non-negative head-down threshold the three-way test of
    [detect] comes down to two: the frame is judged asleep exactly when
    the closed-eye counter has reached its threshold, or the eyes are
    closed on this frame and the head-down counter has reached half of
    its threshold.  An open-eye frame is therefore judged asleep only
    through the closed-eye counter. *)
Theorem sleeping_decision (now : Z) (this : SleepDetector)
  (landmarks : list BlinkDetection.Landmark)
  (this' : SleepDetector) (res : SleepDetectionResult) (eyesClosed : bool) :
  detect now this landmarks = Some (this', res) ->
  BlinkDetection.areEyesClosed landmarks EAR_THRESHOLD = Some eyesClosed ->
  0 <= HEAD_DOWN_THRESHOLD this ->
  (isSleeping res = true <->
   EYE_CLOSED_THRESHOLD this <= IZR (eyeClosedFrames this') \/
   (eyesClosed = true /\
    HEAD_DOWN_THRESHOLD this / 2 <= IZR (headDownFrames this'))).
Proof.
  intros E Hc Hpos.
  destruct (detect_decision now this landmarks this' res E) as [c [Hc' [Hs _]]].
  rewrite Hc in Hc'. injection Hc' as <-. rewrite Hs. unfold geb.
  destruct (Rge_dec (IZR (eyeClosedFrames this')) (EYE_CLOSED_THRESHOLD this));
    destruct (Rge_dec (IZR (headDownFrames this')) (HEAD_DOWN_THRESHOLD this));
    destruct (Rge_dec (IZR (headDownFrames this')) (HEAD_DOWN_THRESHOLD this / 2));
    destruct eyesClosed; cbn; split; intros H;
    try reflexivity; try discriminate;
    try (left; lra); try (right; split; [reflexivity|lra]);
    try (destruct H as [H|[H1 H2]]; try discriminate; lra).
Qed.

Lemma sleeping_decision_witness :
  exists this' res,
    detect 0 fresh closedFace = Some (this', res) /\
    (isSleeping res = true <->
     EYE_CLOSED_THRESHOLD fresh <= IZR (eyeClosedFrames this') \/
     (true = true /\ HEAD_DOWN_THRESHOLD fresh / 2 <= IZR (headDownFrames this'))).
Proof.
  destruct closedFace_pose as [pose [Hpose _]].
  destruct (detect_defined 0 fresh closedFace true pose closedFace_eyes Hpose)
    as [this' [res E]].
  exists this', res. split; [exact E|].
  apply (sleeping_decision 0 fresh closedFace this' res true E closedFace_eyes).
  simpl. lra.
Defined.

Lemma round_nonneg (v : R) : 0 <= v -> (0 <= JS.round v)%Z.
Proof.
  intros Hv. unfold JS.round.
  destruct (base_Int_part (v + / 2)) as [_ Hhi].
  assert (H : IZR (-1) < IZR (Int_part (v + / 2))) by lra.
  apply lt_IZR in H. lia.
Qed.

(** X7.  The two frame counters never go negative, and with positive
    frame thresholds the returned sleep score is an integer between 0
    and 100. *)
Theorem sleep_score_in_range (now : Z) (this : SleepDetector)
  (landmarks : list BlinkDetection.Landmark)
  (this' : SleepDetector) (res : SleepDetectionResult) :
  detect now this landmarks = Some (this', res) ->
  (0 <= eyeClosedFrames this)%Z -> (0 <= headDownFrames this)%Z ->
  0 < EYE_CLOSED_THRESHOLD this -> 0 < HEAD_DOWN_THRESHOLD this ->
  (0 <= eyeClosedFrames this')%Z /\ (0 <= headDownFrames this')%Z /\
  (0 <= sleepScore res <= 100)%Z.
Proof.
  intros E He Hh Te Th.
  destruct (detect_inv now this landmarks this' res E)
    as [c [pose [_ [_ [He' [Hh' [Te' [Th' Hs]]]]]]]].
  assert (A : (0 <= eyeClosedFrames this')%Z).
  { rewrite He'. destruct c; lia. }
  assert (B : (0 <= headDownFrames this')%Z).
  { rewrite Hh'. destruct (Rgt_dec (pitch pose) (PITCH_THRESHOLD this)); lia. }
  split; [exact A|]. split; [exact B|].
  rewrite Hs. split; [|apply round_le; apply Rmin_l].
  apply round_nonneg.
  assert (0 <= eyeScore this').
  { unfold eyeScore. rewrite Te'. apply Rmin_glb; [lra|].
    apply Rmult_le_pos; [|lra]. apply Rmult_le_pos; [apply IZR_le; exact A|].
    left. apply Rinv_0_lt_compat. exact Te. }
  assert (0 <= headScore this').
  { unfold headScore. rewrite Th'. apply Rmin_glb; [lra|].
    apply Rmult_le_pos; [|lra]. apply Rmult_le_pos; [apply IZR_le; exact B|].
    left. apply Rinv_0_lt_compat. exact Th. }
  apply Rmin_glb; lra.
Qed.

Lemma sleep_score_in_range_witness :
  exists this' res,
    detect 0 fresh closedFace = Some (this', res) /\
    (0 <= eyeClosedFrames this')%Z /\ (0 <= headDownFrames this')%Z /\
    (0 <= sleepScore res <= 100)%Z.
Proof.
  destruct closedFace_pose as [pose [Hpose _]].
  destruct (detect_defined 0 fresh closedFace true pose closedFace_eyes Hpose)
    as [this' [res E]].
  exists this', res. split; [exact E|].
  apply (sleep_score_in_range 0 fresh closedFace this' res E); simpl; try lia; lra.
Defined.

End SleepExtras.

(** ** Fatigue detector *)

Section Fatigue.

Import Invariants.
Import FatigueDetection.
Open Scope Z_scope.

Lemma length_push {A : Type} (l : list A) (v : A) :
  length (JS.push l v) = S (length l).
Proof. unfold JS.push. rewrite length_app. simpl. lia. Qed.

Lemma length_shift {A : Type} (l : list A) : length (JS.shift l) = pred (length l).
Proof. destruct l; reflexivity. Qed.

Lemma Forall_shift {A : Type} (P : A -> Prop) (l : list A) :
  Forall P l -> Forall P (JS.shift l).
Proof. intros H. destruct H; [constructor|assumption]. Qed.

Lemma evictOld_keeps (P : Z -> Prop) (cutoff : Z) (ts : list Z) :
  forall ds : list Z,
    length ts = length ds -> Forall P ds ->
    length (fst (evictOld cutoff ts ds)) = length (snd (evictOld cutoff ts ds)) /\
    Forall P (snd (evictOld cutoff ts ds)).
Proof.
  induction ts as [|t ts IH]; intros ds Hlen HP.
  - simpl. split; assumption.
  - cbn [evictOld]. destruct (t <? cutoff).
    + apply IH; [|apply Forall_shift; exact HP].
      rewrite length_shift. simpl in Hlen. lia.
    + simpl. split; assumption.
Qed.

(** The entry pushed last survives the eviction. *)
Lemma evictOld_last (cutoff now dur : Z) (ts : list Z) :
  forall ds : list Z,
    length ts = length ds -> cutoff <= now ->
    exists ts' ds',
      evictOld cutoff (JS.push ts now) (JS.push ds dur)
      = (JS.push ts' now, JS.push ds' dur) /\
      length ts' = length ds'.
Proof.
  induction ts as [|t ts IH]; intros ds Hlen Hc.
  - destruct ds; [|discriminate]. exists [], []. cbn.
    destruct (now <? cutoff) eqn:E; [apply Z.ltb_lt in E; lia|]. split; reflexivity.
  - destruct ds as [|d ds]; [discriminate|]. injection Hlen as Hlen.
    unfold JS.push. cbn [app evictOld]. destruct (t <? cutoff).
    + cbn [JS.shift tl]. apply (IH ds Hlen Hc).
    + exists (t :: ts), (d :: ds). split; [reflexivity|simpl; lia].
Qed.

(** X8.  Every state-changing method of the fatigue detector keeps its
    invariant: left and right eye histories of equal length and at most
    30 entries, blink timestamps and durations of equal length, at most
    60 head samples, every stored blink duration between 50 and 500 ms,
    and non-negative yawn and head-droop counts. *)
Theorem fatigue_invariant_kept (m : Method) (d : FatigueDetector) :
  fatigueInv d -> fatigueInv (call m d).
Proof.
  unfold fatigueInv.
  intros (Hlr & Hl & Htd & Hh & Hd & Hy & Hdr).
  destruct m as [minutes|now1 now2| |now| |now l r|now open ratio|headY];
    cbn [call].
  - cbn. repeat split; assumption.
  - cbn. repeat split; try lia; constructor.
  - cbn. repeat split; assumption.
  - cbn. repeat split; try assumption; lia.
  - cbn. repeat split; try lia; constructor.
  - unfold processEyeState, eyeHistoryMaxLength.
    assert (Hhist : forall (P : list bool * list bool -> Prop),
      (forall a b, length a = length b -> (length a <= 30)%nat -> P (a, b)) ->
      P (if (30 <? length (JS.push (leftEyeHistory d) l))%nat
         then (JS.shift (JS.push (leftEyeHistory d) l),
               JS.shift (JS.push (rightEyeHistory d) r))
         else (JS.push (leftEyeHistory d) l, JS.push (rightEyeHistory d) r))).
    { intros P HP.
      destruct (30 <? length (JS.push (leftEyeHistory d) l))%nat eqn:E; apply HP;
        rewrite ?length_shift, ?length_push; try lia.
      apply Nat.ltb_ge in E. rewrite length_push in E. lia. }
    apply Hhist. intros left2 right2 H1 H2. clear Hhist.
    destruct (negb (negb l && negb r) && wasBlinking d &&
              truthy (if negb l && negb r && negb (wasBlinking d)
                      then Some now else lastBlinkStart d));
      [|cbn; repeat split; assumption].
    match goal with
    | |- context [(50 <=? ?dur) && (?dur <=? 500)] =>
        destruct ((50 <=? dur) && (dur <=? 500)) eqn:Erange;
        [|cbn; repeat split; assumption];
        apply andb_prop in Erange; destruct Erange as [Elo Ehi];
        apply Z.leb_le in Elo; apply Z.leb_le in Ehi;
        pose proof (evictOld_keeps (fun v => 50 <= v <= 500) (now - 120000)
                      (JS.push (blinkTimestamps d) now)
                      (JS.push (blinkDurations d) dur)) as K
    end.
    destruct (evictOld _ _ _) as [ts ds]. cbn [fst snd] in K.
    destruct K as [K1 K2].
    { rewrite !length_push. lia. }
    { unfold JS.push. apply Forall_app. split; [assumption|]. repeat constructor; lia. }
    cbn. repeat split; assumption.
  - unfold processMouthState. cbn. repeat split; try assumption.
    match goal with |- context [if ?c then _ + 1 else _] => destruct c end; lia.
  - unfold processHeadPosition.
    cbn [leftEyeHistory rightEyeHistory blinkTimestamps blinkDurations
         headYHistory yawnCount headDroopEvents].
    repeat split; try assumption.
    + destruct (60 <? length (JS.push (headYHistory d) headY))%nat eqn:E;
        rewrite ?length_shift, ?length_push.
      * simpl. lia.
      * apply Nat.ltb_ge in E. rewrite length_push in E. lia.
    + match goal with |- context [if ?c then _ + 1 else _] => destruct c end; lia.
Qed.

Lemma create_inv (minutes : Z) : fatigueInv (create minutes).
Proof. unfold fatigueInv. cbn. repeat split; try lia; constructor. Qed.

(** A new detector and one frame with both eyes closed. *)
Lemma fatigue_invariant_kept_witness :
  fatigueInv (create 30) /\
  fatigueInv (call (ProcessEyeState 5 false false) (create 30)).
Proof.
  split; [apply create_inv|].
  apply (fatigue_invariant_kept (ProcessEyeState 5 false false) (create 30)).
  apply create_inv.
Defined.

(** The frame on which the eyes close starts the blink timer. *)
Lemma processEyeState_close (t0 : Z) (d : FatigueDetector) :
  wasBlinking d = false ->
  let d1 := processEyeState t0 d false false in
  wasBlinking d1 = true /\ lastBlinkStart d1 = Some t0 /\
  blinkTimestamps d1 = blinkTimestamps d /\ blinkDurations d1 = blinkDurations d.
Proof.
  intros Hw. unfold processEyeState. rewrite Hw.
  destruct (eyeHistoryMaxLength <? length (JS.push (leftEyeHistory d) false))%nat;
    cbn; repeat split; reflexivity.
Qed.

(** The frame on which an eye reopens ends the blink. *)
Lemma processEyeState_open (t0 t1 : Z) (l r : bool) (d : FatigueDetector) :
  wasBlinking d = true -> lastBlinkStart d = Some t0 -> t0 <> 0 ->
  (l || r)%bool = true ->
  length (blinkTimestamps d) = length (blinkDurations d) ->
  let d2 := processEyeState t1 d l r in
  lastBlinkStart d2 = None /\
  if (50 <=? t1 - t0) && (t1 - t0 <=? 500)
  then exists ts ds,
         blinkTimestamps d2 = ts ++ [t1] /\ blinkDurations d2 = ds ++ [t1 - t0] /\
         length ts = length ds
  else blinkTimestamps d2 = blinkTimestamps d /\ blinkDurations d2 = blinkDurations d.
Proof.
  intros Hw Hs Ht Hopen Hlen. unfold processEyeState. rewrite Hw, Hs.
  assert (Hb : (negb l && negb r)%bool = false) by (destruct l, r; try reflexivity; discriminate).
  rewrite Hb. cbn [negb andb truthy].
  apply Z.eqb_neq in Ht. rewrite Ht. cbn [negb].
  destruct (eyeHistoryMaxLength <? length (JS.push (leftEyeHistory d) l))%nat;
    destruct ((50 <=? t1 - t0) && (t1 - t0 <=? 500)).
  - destruct (evictOld_last (t1 - 120000) t1 (t1 - t0) (blinkTimestamps d)
                (blinkDurations d) Hlen) as [ts [ds [E Hl]]]; [lia|].
    rewrite E. cbn. split; [reflexivity|]. exists ts, ds. repeat split; assumption.
  - cbn. repeat split; reflexivity.
  - destruct (evictOld_last (t1 - 120000) t1 (t1 - t0) (blinkTimestamps d)
                (blinkDurations d) Hlen) as [ts [ds [E Hl]]]; [lia|].
    rewrite E. cbn. split; [reflexivity|]. exists ts, ds. repeat split; assumption.
  - cbn. repeat split; reflexivity.
Qed.

(** A further frame with both eyes closed leaves the running blink as
    it is: the timer keeps the time of the first closed frame. *)
Lemma processEyeState_still_closed (t t0 : Z) (d : FatigueDetector) :
  wasBlinking d = true -> lastBlinkStart d = Some t0 ->
  let d1 := processEyeState t d false false in
  wasBlinking d1 = true /\ lastBlinkStart d1 = Some t0 /\
  blinkTimestamps d1 = blinkTimestamps d /\ blinkDurations d1 = blinkDurations d.
Proof.
  intros Hw Hs. unfold processEyeState. rewrite Hw, Hs.
  destruct (eyeHistoryMaxLength <? length (JS.push (leftEyeHistory d) false))%nat;
    cbn; repeat split; reflexivity.
Qed.

Lemma closed_run (t0 : Z) (times : list Z) :
  forall d : FatigueDetector,
    wasBlinking d = true -> lastBlinkStart d = Some t0 ->
    let d1 := fold_left (fun e t => processEyeState t e false false) times d in
    wasBlinking d1 = true /\ lastBlinkStart d1 = Some t0 /\
    blinkTimestamps d1 = blinkTimestamps d /\ blinkDurations d1 = blinkDurations d.
Proof.
  induction times as [|t times IH]; intros d Hw Hs.
  - cbn. repeat split; assumption.
  - cbn [fold_left].
    destruct (processEyeState_still_closed t t0 d Hw Hs) as [Hw1 [Hs1 [Ht1 Hd1]]].
    destruct (IH (processEyeState t d false false) Hw1 Hs1) as [Hw2 [Hs2 [Ht2 Hd2]]].
    cbv zeta. rewrite <- Ht1, <- Hd1. repeat split; assumption.
Qed.

(** X9.  A blink is recorded exactly when it lasts between 50 and 500
    ms, measured from the first closed frame.  From a detector that is
    not in a blink and whose blink arrays have equal lengths, eyes that
    close at [t0] (not 0), stay closed over any number of further frames
    at any times, and reopen at [t1] leave the blink arrays untouched
    while they are closed; on reopening, [t1] and [t1 - t0] become the
    newest timestamp and duration when 50 <= t1 - t0 <= 500, the eviction
    of old blinks never removing them, and both arrays stay as they were
    otherwise; the blink timer is cleared either way. *)
Theorem blink_recorded_iff_valid_duration (d : FatigueDetector) (t0 t1 : Z)
  (closedAt : list Z) (l r : bool) :
  wasBlinking d = false ->
  length (blinkTimestamps d) = length (blinkDurations d) ->
  t0 <> 0 ->
  (l || r)%bool = true ->
  let d1 := fold_left (fun e t => processEyeState t e false false) closedAt
              (processEyeState t0 d false false) in
  let d2 := processEyeState t1 d1 l r in
  blinkTimestamps d1 = blinkTimestamps d /\
  blinkDurations d1 = blinkDurations d /\
  lastBlinkStart d2 = None /\
  if (50 <=? t1 - t0) && (t1 - t0 <=? 500)
  then exists ts ds,
         blinkTimestamps d2 = ts ++ [t1] /\ blinkDurations d2 = ds ++ [t1 - t0] /\
         length ts = length ds
  else blinkTimestamps d2 = blinkTimestamps d /\ blinkDurations d2 = blinkDurations d.
Proof.
  intros Hw Hlen Ht Hopen.
  destruct (processEyeState_close t0 d Hw) as [Hw1 [Hs1 [Hts Hds]]].
  destruct (closed_run t0 closedAt (processEyeState t0 d false false) Hw1 Hs1)
    as [Hw2 [Hs2 [Hts2 Hds2]]].
  cbv zeta. rewrite Hts in Hts2. rewrite Hds in Hds2.
  split; [exact Hts2|]. split; [exact Hds2|].
  pose proof (processEyeState_open t0 t1 l r _ Hw2 Hs2 Ht Hopen) as H.
  cbv zeta in H. rewrite Hts2, Hds2 in H. exact (H Hlen).
Qed.

(** A blink of 133 ms seen on four closed frames, at 1000, 1033, 1066
    and 1100 ms, the eyes open again at 1133 ms. *)
Lemma blink_recorded_iff_valid_duration_witness :
  let d1 := fold_left (fun e t => processEyeState t e false false) [1033; 1066; 1100]
              (processEyeState 1000 (create 30) false false) in
  let d2 := processEyeState 1133 d1 true true in
  blinkTimestamps d1 = blinkTimestamps (create 30) /\
  blinkDurations d1 = blinkDurations (create 30) /\
  lastBlinkStart d2 = None /\
  exists ts ds,
    blinkTimestamps d2 = ts ++ [1133] /\ blinkDurations d2 = ds ++ [1133 - 1000] /\
    length ts = length ds.
Proof.
  apply (blink_recorded_iff_valid_duration (create 30) 1000 1133 [1033; 1066; 1100]
           true true);
    [reflexivity|reflexivity|discriminate|reflexivity].
Defined.

Ltac split_ifs :=
  repeat match goal with
         | |- context [if ?c then _ else _] => destruct c
         end.

(** The score as a function of the two event counters, everything else
    being equal. *)
Lemma score_le (now : Z) (d d' : FatigueDetector) :
  blinkTimestamps d = blinkTimestamps d' ->
  blinkDurations d = blinkDurations d' ->
  leftEyeHistory d = leftEyeHistory d' ->
  rightEyeHistory d = rightEyeHistory d' ->
  sessionStartTime d = sessionStartTime d' ->
  yawnCount d <= yawnCount d' ->
  headDroopEvents d <= headDroopEvents d' ->
  calculateFatigueScore now d <= calculateFatigueScore now d'.
Proof.
  intros Hts Hds Hl Hr Hs Hy Hh.
  assert (E1 : getBlinkRate now d = getBlinkRate now d')
    by (unfold getBlinkRate; rewrite Hts; reflexivity).
  assert (E2 : getAverageBlinkDuration d = getAverageBlinkDuration d')
    by (unfold getAverageBlinkDuration; rewrite Hds; reflexivity).
  assert (E3 : countSlowEyeMovements d = countSlowEyeMovements d')
    by (unfold countSlowEyeMovements; rewrite Hl, Hr; reflexivity).
  unfold calculateFatigueScore, getMetrics.
  cbn [m_blinkRate m_avgBlinkDuration m_yawnCount m_headDroopEvents
       m_slowEyeMovements m_sessionDuration].
  rewrite E1, E2, E3, Hs. cbv zeta.
  generalize (getBlinkRate now d') (getAverageBlinkDuration d')
             (countSlowEyeMovements d').
  generalize (if truthy (sessionStartTime d')
              then now - match sessionStartTime d' with Some t => t | None => 0 end
              else 0).
  intros session rate avg slow. split_ifs; lia.
Qed.

(** A call on a history of fewer than 60 samples, field by field. *)
Lemma processHeadPosition_fields (d : FatigueDetector) (headY : R) :
  (length (headYHistory d) < 60)%nat ->
  headYHistory (processHeadPosition d headY) = headYHistory d ++ [headY] /\
  headYBaseline (processHeadPosition d headY) =
    match headYBaseline d with
    | None =>
        if (30 <=? length (headYHistory d))%nat
        then Some (JS.sum (headYHistory d) / INR (length (headYHistory d)))%R
        else None
    | Some b => Some b
    end /\
  headDroopEvents (processHeadPosition d headY) =
    headDroopEvents d +
    match headYBaseline (processHeadPosition d headY) with
    | Some b =>
        if Rgt_dec (headY - b) HEAD_DROOP_THRESHOLD then
          if Rgt_dec (JS.sum (JS.slice_last 10 (headYHistory d ++ [headY])) / 10 - b)
                     (HEAD_DROOP_THRESHOLD * 0.8)
          then 1 else 0
        else 0
    | None => 0
    end.
Proof.
  intros Hlen. unfold processHeadPosition.
  cbn [headYHistory headYBaseline headDroopEvents].
  assert (E : (60 <? length (JS.push (headYHistory d) headY))%nat = false).
  { apply Nat.ltb_ge. rewrite length_push. lia. }
  rewrite E. unfold JS.push. split; [reflexivity|]. split; [reflexivity|].
  destruct (match headYBaseline d with
            | Some b => Some b
            | None => _
            end) as [b|]; [|lia].
  destruct (Rgt_dec (headY - b) HEAD_DROOP_THRESHOLD); [|lia].
  destruct (Rgt_dec _ _); lia.
Qed.

Lemma warm_run (samples : list R) :
  forall d : FatigueDetector,
    headYBaseline d = None ->
    (length (headYHistory d) + length samples <= 30)%nat ->
    headYHistory (fold_left processHeadPosition samples d) = headYHistory d ++ samples /\
    headYBaseline (fold_left processHeadPosition samples d) = None /\
    headDroopEvents (fold_left processHeadPosition samples d) = headDroopEvents d.
Proof.
  induction samples as [|y samples IH]; intros d Hb Hlen.
  - cbn. rewrite app_nil_r. repeat split; [exact Hb].
  - cbn [fold_left]. cbn [length] in Hlen.
    destruct (processHeadPosition_fields d y) as [Hh [Hb' Hd]]; [lia|].
    rewrite Hb in Hb'.
    assert (E : (30 <=? length (headYHistory d))%nat = false) by (apply Nat.leb_gt; lia).
    rewrite E in Hb'. rewrite Hb' in Hd.
    destruct (IH (processHeadPosition d y) Hb') as [H1 [H2 H3]].
    { rewrite Hh, length_app. cbn [length]. lia. }
    rewrite H1, H3, Hh, Hd, <- app_assoc. repeat split; [exact H2|lia].
Qed.

Lemma half_average : (JS.sum (repeat 0.5 30) / INR 30 = 0.5)%R.
Proof.
  unfold JS.sum. cbn [repeat fold_left INR]. field.
Qed.

Lemma settled_head :
  headYHistory settled = repeat 0.5%R 30 ++ [1%R; 1%R] /\
  headYBaseline settled = Some 0.5%R /\
  headDroopEvents settled = 0.
Proof.
  unfold settled. rewrite fold_left_app.
  destruct (warm_run (repeat 0.5%R 30) fatigueDetector) as [H1 [H2 H3]];
    [reflexivity|cbn; lia|].
  set (d30 := fold_left processHeadPosition (repeat 0.5%R 30) fatigueDetector) in *.
  cbn [headYHistory fatigueDetector create app] in H1.
  cbn [headDroopEvents fatigueDetector create] in H3.
  cbn [fold_left].
  destruct (processHeadPosition_fields d30 1%R) as [A1 [A2 A3]];
    [rewrite H1, repeat_length; lia|].
  rewrite H2, H1 in A2. rewrite repeat_length in A2. cbn [Nat.leb] in A2.
  rewrite half_average in A2.
  rewrite A2, H1, H3 in A3. rewrite H1 in A1.
  set (d31 := processHeadPosition d30 1%R) in *.
  destruct (processHeadPosition_fields d31 1%R) as [B1 [B2 B3]];
    [rewrite A1, length_app, repeat_length; cbn; lia|].
  rewrite A2 in B2. rewrite B2, A1, A3 in B3. rewrite A1, <- app_assoc in B1.
  cbn [app] in B1.
  split; [exact B1|]. split; [exact B2|].
  rewrite B3.
  unfold HEAD_DROOP_THRESHOLD.
  cbn [JS.slice_last length repeat app Nat.sub skipn JS.sum fold_left].
  repeat match goal with
         | |- context [Rgt_dec ?a ?b] => destruct (Rgt_dec a b); try lra
         end; reflexivity.
Qed.

(** Head samples leave the mouth, blink and session fields alone. *)
Lemma head_run_keeps (samples : list R) :
  forall d : FatigueDetector,
    yawnCount (fold_left processHeadPosition samples d) = yawnCount d /\
    lastYawnTime (fold_left processHeadPosition samples d) = lastYawnTime d /\
    mouthWasOpen (fold_left processHeadPosition samples d) = mouthWasOpen d /\
    blinkTimestamps (fold_left processHeadPosition samples d) = blinkTimestamps d /\
    blinkDurations (fold_left processHeadPosition samples d) = blinkDurations d /\
    leftEyeHistory (fold_left processHeadPosition samples d) = leftEyeHistory d /\
    sessionStartTime (fold_left processHeadPosition samples d) = sessionStartTime d.
Proof.
  induction samples as [|y samples IH]; intros d; cbn [fold_left].
  - repeat split; reflexivity.
  - destruct (IH (processHeadPosition d y)) as (K1 & K2 & K3 & K4 & K5 & K6 & K7).
    rewrite K1, K2, K3, K4, K5, K6, K7. repeat split; reflexivity.
Qed.

Lemma settled_dozing : dozing settled.
Proof.
  destruct settled_head as (Hh & Hb & Hd).
  pose proof (head_run_keeps (repeat 0.5%R 30 ++ [1%R; 1%R]) fatigueDetector) as K.
  change (fold_left processHeadPosition (repeat 0.5%R 30 ++ [1%R; 1%R]) fatigueDetector)
    with settled in K.
  destruct K as (K1 & K2 & K3 & K4 & K5 & K6 & K7).
  unfold dozing.
  rewrite Hh, Hb, Hd, K1, K2, K3, K4, K5, K6, K7.
  repeat split; reflexivity.
Qed.

Lemma tired_fields :
  yawnCount tired = 1 /\ lastYawnTime tired = 12000 /\
  mouthWasOpen tired = true /\ mouthOpenStart tired = 10000 /\
  headYHistory tired = repeat 0.5%R 30 ++ [1%R; 1%R] /\
  headYBaseline tired = Some 0.5%R /\
  headDroopEvents tired = 0 /\
  blinkTimestamps tired = [] /\ blinkDurations tired = [] /\
  leftEyeHistory tired = [] /\ sessionStartTime tired = None.
Proof.
  unfold tired. generalize settled_dozing. generalize settled.
  intros s (Hh & Hb & Hd & Hy & Hl & Hw & E1 & E2 & E3 & E4).
  unfold processMouthState.
  cbn [yawnCount lastYawnTime mouthWasOpen mouthOpenStart headDroopEvents
       headYHistory headYBaseline blinkTimestamps blinkDurations leftEyeHistory
       sessionStartTime andb negb].
  rewrite Hh, Hb, Hd, Hy, Hl, Hw, E1, E2, E3, E4.
  destruct (Rgt_dec 0.9 0.6) as [_|N]; [|exfalso; apply N; lra].
  cbn. repeat split; reflexivity.
Qed.

(** One more yawn, counted at 18000 ms. *)
Lemma tired_yawns_again :
  yawnCount (processMouthState 18000 tired true 0.9%R) = 2.
Proof.
  generalize tired_fields. generalize tired.
  intros t (Hy & Hl & Hw & Hs & _).
  unfold processMouthState. cbn [yawnCount]. rewrite Hy, Hl, Hw, Hs.
  destruct (Rgt_dec 0.9 0.6) as [_|N]; [|exfalso; apply N; lra].
  reflexivity.
Qed.

(** One more sample at 1 lifts the ten-sample average to 0.65: a droop. *)
Lemma tired_droops :
  headDroopEvents (processHeadPosition tired 1%R) = 1.
Proof.
  generalize tired_fields. generalize tired.
  intros t (_ & _ & _ & _ & Hh & Hb & Hd & _).
  destruct (processHeadPosition_fields t 1%R) as [A1 [A2 A3]].
  { rewrite Hh, length_app, repeat_length. cbn. lia. }
  rewrite Hb in A2. rewrite A2, Hh, Hd in A3. rewrite A3.
  unfold HEAD_DROOP_THRESHOLD. rewrite <- app_assoc.
  cbn [JS.slice_last length repeat app Nat.sub skipn JS.sum fold_left].
  repeat match goal with
         | |- context [Rgt_dec ?a ?b] => destruct (Rgt_dec a b); try lra
         end; reflexivity.
Qed.

(** The score of a detector with no blink, eye or session data. *)
Lemma score_of_counts (now : Z) (d : FatigueDetector) :
  blinkTimestamps d = [] -> blinkDurations d = [] ->
  leftEyeHistory d = [] -> sessionStartTime d = None ->
  calculateFatigueScore now d
  = Z.min (30 + Z.min (yawnCount d * 10) 30 + Z.min (headDroopEvents d * 15) 30) 100.
Proof.
  intros H1 H2 H3 H4.
  unfold calculateFatigueScore, getMetrics, getBlinkRate, getAverageBlinkDuration,
    countSlowEyeMovements.
  cbn [m_blinkRate m_avgBlinkDuration m_yawnCount m_headDroopEvents
       m_slowEyeMovements m_sessionDuration].
  rewrite H1, H2, H3, H4. reflexivity.
Qed.

Lemma tired_scores :
  calculateFatigueScore 20000 tired = 40 /\
  calculateFatigueScore 20000 (processMouthState 18000 tired true 0.9%R) = 50 /\
  calculateFatigueScore 20000 (processHeadPosition tired 1%R) = 55 /\
  calculateFatigueScore 20000 (recordBreak 18000 tired) = 30.
Proof.
  generalize tired_droops. generalize tired_yawns_again.
  generalize tired_fields. generalize tired.
  intros t (Hy & _ & _ & _ & _ & _ & Hd & E1 & E2 & E3 & E4) Hy2 Hd2.
  repeat split; rewrite score_of_counts; try assumption.
  - rewrite Hy, Hd. reflexivity.
  - rewrite Hy2.
    change (headDroopEvents (processMouthState 18000 t true 0.9%R))
      with (headDroopEvents t).
    rewrite Hd. reflexivity.
  - rewrite Hd2.
    change (yawnCount (processHeadPosition t 1%R)) with (yawnCount t).
    rewrite Hy. reflexivity.
  - cbn [recordBreak yawnCount headDroopEvents]. rewrite Hy, Hd. reflexivity.
Qed.

(** A mouth frame leaves the blink, eye, head and session fields alone. *)
Lemma processMouthState_keeps (t : Z) (d : FatigueDetector) (isMouthOpen : bool)
  (mouthOpenRatio : R) :
  blinkTimestamps d = blinkTimestamps (processMouthState t d isMouthOpen mouthOpenRatio) /\
  blinkDurations d = blinkDurations (processMouthState t d isMouthOpen mouthOpenRatio) /\
  leftEyeHistory d = leftEyeHistory (processMouthState t d isMouthOpen mouthOpenRatio) /\
  rightEyeHistory d = rightEyeHistory (processMouthState t d isMouthOpen mouthOpenRatio) /\
  sessionStartTime d = sessionStartTime (processMouthState t d isMouthOpen mouthOpenRatio) /\
  headDroopEvents d = headDroopEvents (processMouthState t d isMouthOpen mouthOpenRatio).
Proof. repeat split; reflexivity. Qed.

(** X10.  Monotonicity of the fatigue score: of two detectors that agree
    on the blink arrays, the eye histories and the session start, the
    one with at least as many yawns and head droops never has the lower
    score. *)
Theorem fatigue_score_monotone (now : Z) (d d' : FatigueDetector) :
  blinkTimestamps d = blinkTimestamps d' ->
  blinkDurations d = blinkDurations d' ->
  leftEyeHistory d = leftEyeHistory d' ->
  rightEyeHistory d = rightEyeHistory d' ->
  sessionStartTime d = sessionStartTime d' ->
  yawnCount d <= yawnCount d' ->
  headDroopEvents d <= headDroopEvents d' ->
  calculateFatigueScore now d <= calculateFatigueScore now d'.
Proof. exact (score_le now d d'). Qed.

(** One yawn against two, all else equal: the scores are 40 and 50. *)
Lemma fatigue_score_monotone_witness :
  yawnCount tired = 1 /\
  yawnCount (processMouthState 18000 tired true 0.9%R) = 2 /\
  calculateFatigueScore 20000 tired = 40 /\
  calculateFatigueScore 20000 (processMouthState 18000 tired true 0.9%R) = 50 /\
  calculateFatigueScore 20000 tired
  <= calculateFatigueScore 20000 (processMouthState 18000 tired true 0.9%R).
Proof.
  pose proof (proj1 tired_fields) as Hy. pose proof tired_yawns_again as Hy2.
  destruct tired_scores as [S1 [S2 _]].
  split; [exact Hy|]. split; [exact Hy2|]. split; [exact S1|]. split; [exact S2|].
  destruct (processMouthState_keeps 18000 tired true 0.9%R)
    as (K1 & K2 & K3 & K4 & K5 & K6).
  apply (fatigue_score_monotone 20000 tired (processMouthState 18000 tired true 0.9%R));
    [exact K1|exact K2|exact K3|exact K4|exact K5| |].
  - rewrite Hy, Hy2. discriminate.
  - rewrite <- K6. apply Z.le_refl.
Defined.

(** X11.  Processing a mouth frame or a head sample never lowers the
    fatigue score read at any given time, and, the two event counters
    being non-negative, recording a break never raises it. *)
Theorem fatigue_score_under_calls (now t : Z) (d : FatigueDetector)
  (isMouthOpen : bool) (mouthOpenRatio headY : R) :
  0 <= yawnCount d -> 0 <= headDroopEvents d ->
  calculateFatigueScore now d
    <= calculateFatigueScore now (processMouthState t d isMouthOpen mouthOpenRatio) /\
  calculateFatigueScore now d
    <= calculateFatigueScore now (processHeadPosition d headY) /\
  calculateFatigueScore now (recordBreak t d) <= calculateFatigueScore now d.
Proof.
  intros Hy Hh. repeat split; apply score_le; try reflexivity.
  - unfold processMouthState. cbn [yawnCount].
    match goal with |- context [if ?c then _ + 1 else _] => destruct c end; lia.
  - unfold processHeadPosition. cbn [headDroopEvents].
    match goal with |- context [if ?c then _ + 1 else _] => destruct c end; lia.
  - cbn. lia.
  - cbn. lia.
Qed.

(** On the tired fixture each call moves the score: the mouth frame
    counts a second yawn (40 to 50), the head sample counts a droop (40
    to 55) and the break credits the yawn (40 down to 30). *)
Lemma fatigue_score_under_calls_witness :
  (calculateFatigueScore 20000 tired = 40 /\
   calculateFatigueScore 20000 (processMouthState 18000 tired true 0.9%R) = 50 /\
   calculateFatigueScore 20000 (processHeadPosition tired 1%R) = 55 /\
   calculateFatigueScore 20000 (recordBreak 18000 tired) = 30) /\
  calculateFatigueScore 20000 tired
    <= calculateFatigueScore 20000 (processMouthState 18000 tired true 0.9%R) /\
  calculateFatigueScore 20000 tired
    <= calculateFatigueScore 20000 (processHeadPosition tired 1%R) /\
  calculateFatigueScore 20000 (recordBreak 18000 tired)
    <= calculateFatigueScore 20000 tired.
Proof.
  destruct tired_fields as (Hy & _ & _ & _ & _ & _ & Hd & _).
  split; [exact tired_scores|].
  apply (fatigue_score_under_calls 20000 18000 tired true 0.9%R 1%R).
  - rewrite Hy. discriminate.
  - rewrite Hd. discriminate.
Defined.

(** X12.  With non-negative yawn and head-droop counts the fatigue score
    lies between 0 and 100, however large the counts are. *)
Theorem fatigue_score_in_range (now : Z) (d : FatigueDetector) :
  0 <= yawnCount d -> 0 <= headDroopEvents d ->
  0 <= calculateFatigueScore now d <= 100.
Proof.
  intros Hy Hh.
  unfold calculateFatigueScore, getMetrics.
  cbn [m_blinkRate m_avgBlinkDuration m_yawnCount m_headDroopEvents
       m_slowEyeMovements m_sessionDuration].
  cbv zeta.
  generalize (getBlinkRate now d) (getAverageBlinkDuration d) (countSlowEyeMovements d).
  generalize (if truthy (sessionStartTime d)
              then now - match sessionStartTime d with Some t => t | None => 0 end
              else 0).
  intros session rate avg slow. split_ifs; lia.
Qed.

Lemma fatigue_score_in_range_witness :
  0 <= calculateFatigueScore 10800001 drowsy <= 100.
Proof.
  apply (fatigue_score_in_range 10800001 drowsy); discriminate.
Defined.

(** X13.  A score of 60 or more makes the state severe and a break due
    whatever the break timer says, and the reminder built from that
    state is visible and suggests 300 seconds. *)
Theorem severe_state_asks_for_break (now : Z) (d : FatigueDetector) :
  60 <= calculateFatigueScore now d ->
  let state := getFatigueState now d in
  level state = severe /\
  shouldTakeBreak state = true /\
  BreakReminder.isVisible (BreakReminder.getBreakReminderData state) = true /\
  BreakReminder.suggestedBreakDuration (BreakReminder.getBreakReminderData state) = 300.
Proof.
  intros H. unfold getFatigueState. cbv zeta.
  assert (L : (if calculateFatigueScore now d <? 20 then fresh
               else if calculateFatigueScore now d <? 40 then mild
               else if calculateFatigueScore now d <? 60 then moderate
               else severe) = severe).
  { destruct (calculateFatigueScore now d <? 20) eqn:E1; [apply Z.ltb_lt in E1; lia|].
    destruct (calculateFatigueScore now d <? 40) eqn:E2; [apply Z.ltb_lt in E2; lia|].
    destruct (calculateFatigueScore now d <? 60) eqn:E3; [apply Z.ltb_lt in E3; lia|].
    reflexivity. }
  unfold BreakReminder.getBreakReminderData.
  cbn [level shouldTakeBreak]. rewrite L.
  cbn [BreakReminder.isVisible BreakReminder.suggestedBreakDuration].
  apply Z.leb_le in H. rewrite H, Bool.orb_true_r. repeat split; reflexivity.
Qed.

(** Ten closed-eye frames and three hours of session: score 65. *)
Lemma severe_state_asks_for_break_witness :
  let state := getFatigueState 10800001 drowsy in
  level state = severe /\
  shouldTakeBreak state = true /\
  BreakReminder.isVisible (BreakReminder.getBreakReminderData state) = true /\
  BreakReminder.suggestedBreakDuration (BreakReminder.getBreakReminderData state) = 300.
Proof.
  apply (severe_state_asks_for_break 10800001 drowsy).
  vm_compute. discriminate.
Defined.

Example drowsy_score : calculateFatigueScore 10800001 drowsy = 65.
Proof. vm_compute. reflexivity. Qed.

(** X14.  [recordBreak] re-arms the break timer: read at [t'] after a
    break recorded at [t] (not 0), the time until the next break is the
    break interval less the time elapsed, never below 0, and a break is
    due exactly when the interval has elapsed or the score has reached
    60. *)
Theorem break_due_after_interval (t t' : Z) (d : FatigueDetector) :
  t <> 0 ->
  let state := getFatigueState t' (recordBreak t d) in
  timeUntilBreak state = Z.max 0 (breakInterval d - (t' - t)) /\
  (shouldTakeBreak state = true <->
   breakInterval d <= t' - t \/ 60 <= score state).
Proof.
  intros Ht. unfold getFatigueState. cbv zeta.
  cbn [timeUntilBreak shouldTakeBreak score].
  cbn [recordBreak lastBreakTime breakInterval truthy].
  apply Z.eqb_neq in Ht. rewrite Ht. cbn [negb].
  split; [reflexivity|].
  rewrite Bool.orb_true_iff, Z.eqb_eq, Z.leb_le. split; intros [H|H]; auto; left; lia.
Qed.

(** A break at t = 1000 ms with the default interval of 30 minutes. *)
Lemma break_due_after_interval_witness :
  let state := getFatigueState 61000 (recordBreak 1000 fatigueDetector) in
  timeUntilBreak state = Z.max 0 (breakInterval fatigueDetector - (61000 - 1000)) /\
  (shouldTakeBreak state = true <->
   breakInterval fatigueDetector <= 61000 - 1000 \/ 60 <= score state).
Proof.
  apply (break_due_after_interval 1000 61000 fatigueDetector). discriminate.
Defined.

(** Inside the 5 seconds that follow the last counted yawn a call
    counts nothing and leaves the time of that yawn in place. *)
Lemma processMouthState_cooling (t t1 : Z) (d : FatigueDetector)
  (isMouthOpen : bool) (ratio : R) :
  lastYawnTime d = t1 -> t - t1 <= 5000 ->
  yawnCount (processMouthState t d isMouthOpen ratio) = yawnCount d /\
  lastYawnTime (processMouthState t d isMouthOpen ratio) = t1.
Proof.
  intros Hl Hnear. unfold processMouthState. cbn [yawnCount lastYawnTime]. rewrite Hl.
  assert (E : (5000 <? t - t1) = false) by (apply Z.ltb_ge; lia).
  rewrite E, Bool.andb_false_r. split; reflexivity.
Qed.

Lemma feedMouth_cooling (t1 : Z) (frames : list MouthFrame) :
  Forall (fun f => frame_at f - t1 <= 5000) frames ->
  forall d : FatigueDetector,
    lastYawnTime d = t1 ->
    yawnCount (feedMouth d frames) = yawnCount d /\
    lastYawnTime (feedMouth d frames) = t1.
Proof.
  induction 1 as [|f frames Hf _ IH]; intros d Hl.
  - cbn. split; [reflexivity|exact Hl].
  - unfold feedMouth. cbn [fold_left]. fold (feedMouth
      (processMouthState (frame_at f) d (frame_open f) (frame_ratio f)) frames).
    destruct (processMouthState_cooling (frame_at f) t1 d (frame_open f) (frame_ratio f)
                Hl Hf) as [Hy Hl'].
    destruct (IH _ Hl') as [Hy2 Hl2]. rewrite Hy2, Hy. split; [reflexivity|exact Hl2].
Qed.

(** X15.  Counted yawns are more than 5 seconds apart: when a call at
    [t1] counts a yawn, no later call made up to 5000 ms after [t1]
    counts another, however many calls there are and whatever the mouth
    does in them, closing and reopening included. *)
Theorem yawns_more_than_5s_apart (t1 : Z) (d : FatigueDetector)
  (open1 : bool) (ratio1 : R) (later : list MouthFrame) :
  yawnCount (processMouthState t1 d open1 ratio1) = yawnCount d + 1 ->
  Forall (fun f => frame_at f - t1 <= 5000) later ->
  yawnCount (feedMouth (processMouthState t1 d open1 ratio1) later)
  = yawnCount (processMouthState t1 d open1 ratio1) /\
  lastYawnTime (feedMouth (processMouthState t1 d open1 ratio1) later) = t1.
Proof.
  intros Hcount Hnear.
  assert (Hlast : lastYawnTime (processMouthState t1 d open1 ratio1) = t1).
  { revert Hcount. unfold processMouthState. cbn [yawnCount lastYawnTime].
    match goal with |- context [if ?c then _ + 1 else _] => destruct c end;
      [reflexivity|lia]. }
  exact (feedMouth_cooling t1 later Hnear _ Hlast).
Qed.

Lemma mouthOpening_then_yawn :
  yawnCount (processMouthState 12000 mouthOpening true 0.9%R)
  = yawnCount mouthOpening + 1.
Proof.
  unfold mouthOpening, processMouthState. cbn.
  destruct (Rgt_dec 0.9 0.6) as [_|N]; [reflexivity|exfalso; apply N; lra].
Qed.

(** A yawn counted at 12000 ms; the mouth closes at 13000 ms, is wide
    open again from 14000 ms and still so at 16500 ms, 2500 ms into the
    new opening but only 4500 ms after the counted yawn. *)
Lemma yawns_more_than_5s_apart_witness :
  yawnCount (feedMouth (processMouthState 12000 mouthOpening true 0.9%R)
               [mkMouthFrame 13000 false 0%R; mkMouthFrame 14000 true 0.9%R;
                mkMouthFrame 16500 true 0.9%R])
  = yawnCount (processMouthState 12000 mouthOpening true 0.9%R) /\
  lastYawnTime (feedMouth (processMouthState 12000 mouthOpening true 0.9%R)
                  [mkMouthFrame 13000 false 0%R; mkMouthFrame 14000 true 0.9%R;
                   mkMouthFrame 16500 true 0.9%R]) = 12000.
Proof.
  apply (yawns_more_than_5s_apart 12000 mouthOpening true 0.9%R
           [mkMouthFrame 13000 false 0%R; mkMouthFrame 14000 true 0.9%R;
            mkMouthFrame 16500 true 0.9%R]).
  - exact mouthOpening_then_yawn.
  - repeat constructor; discriminate.
Defined.

Lemma processHeadPosition_warmup (d : FatigueDetector) (headY : R) :
  headYBaseline d = None ->
  (length (headYHistory d) < 30)%nat ->
  headDroopEvents (processHeadPosition d headY) = headDroopEvents d /\
  headYBaseline (processHeadPosition d headY) = None /\
  length (headYHistory (processHeadPosition d headY)) = S (length (headYHistory d)).
Proof.
  intros Hb Hlen. unfold processHeadPosition.
  cbn [headDroopEvents headYBaseline headYHistory]. rewrite Hb.
  assert (E : (30 <=? length (headYHistory d))%nat = false) by (apply Nat.leb_gt; exact Hlen).
  rewrite E.
  assert (E' : (60 <? length (JS.push (headYHistory d) headY))%nat = false).
  { apply Nat.ltb_ge. rewrite length_push. lia. }
  rewrite E'. rewrite length_push. repeat split; reflexivity.
Qed.

(** X16.  No head droop is counted before a baseline exists: while the
    baseline is unset, the first samples, up to a history of 30, leave
    the droop count and the missing baseline as they are, however low
    the head is. *)
Theorem no_droop_before_baseline (samples : list R) :
  forall d : FatigueDetector,
    headYBaseline d = None ->
    (length (headYHistory d) + length samples <= 30)%nat ->
    headDroopEvents (fold_left processHeadPosition samples d) = headDroopEvents d /\
    headYBaseline (fold_left processHeadPosition samples d) = None.
Proof.
  induction samples as [|y samples IH]; intros d Hb Hlen.
  - simpl. split; [reflexivity|exact Hb].
  - cbn [fold_left]. cbn [length] in Hlen.
    destruct (processHeadPosition_warmup d y Hb) as [Hd [Hb' Hl]]; [lia|].
    destruct (IH (processHeadPosition d y) Hb') as [H1 H2]; [lia|].
    split; [rewrite H1; exact Hd|exact H2].
Qed.

(** Three samples far below any plausible baseline on a new detector. *)
Lemma no_droop_before_baseline_witness :
  headDroopEvents (fold_left processHeadPosition [0.9; 0.9; 0.9]%R (create 30))
  = headDroopEvents (create 30) /\
  headYBaseline (fold_left processHeadPosition [0.9; 0.9; 0.9]%R (create 30)) = None.
Proof.
  apply (no_droop_before_baseline [0.9; 0.9; 0.9]%R (create 30)).
  - reflexivity.
  - simpl. lia.
Defined.

Lemma fold_add_bounds (l : list Z) :
  Forall (fun v => 50 <= v <= 500) l ->
  forall a : Z,
    a + 50 * Z.of_nat (length l) <= fold_left Z.add l a
    <= a + 500 * Z.of_nat (length l).
Proof.
  induction 1 as [|v l Hv _ IH]; intros a.
  - simpl. lia.
  - cbn [fold_left length]. specialize (IH (a + v)). lia.
Qed.

(** X17.  As long as every stored blink duration is a valid one (which
    the detector maintains), the average blink duration lies between 50
    and 500 ms; with no blink stored it is the normal duration, 200. *)
Theorem average_blink_duration_in_range (d : FatigueDetector) :
  Forall (fun v => 50 <= v <= 500) (blinkDurations d) ->
  (50 <= getAverageBlinkDuration d <= 500)%Q /\
  (blinkDurations d = [] -> getAverageBlinkDuration d = inject_Z 200).
Proof.
  intros H. unfold getAverageBlinkDuration. split.
  - destruct (blinkDurations d) as [|v l] eqn:E.
    + cbn. split; discriminate.
    + pose proof (fold_add_bounds (v :: l) H 0) as B.
      change (length (v :: l) =? 0)%nat with false. cbv iota.
      set (n := Z.of_nat (length (v :: l))) in *.
      assert (Hn : 0 < n) by (unfold n; cbn [length]; lia).
      assert (Hq : (0 < inject_Z n)%Q)
        by (change 0%Q with (inject_Z 0); rewrite <- Zlt_Qlt; exact Hn).
      split.
      * apply Qle_shift_div_l; [exact Hq|].
        change 50%Q with (inject_Z 50). rewrite <- inject_Z_mult, <- Zle_Qle. lia.
      * apply Qle_shift_div_r; [exact Hq|].
        change 500%Q with (inject_Z 500). rewrite <- inject_Z_mult, <- Zle_Qle. lia.
  - intros ->. reflexivity.
Qed.

(** The detector after one blink of 150 ms. *)
Lemma average_blink_duration_in_range_witness :
  (50 <= getAverageBlinkDuration
           (processEyeState 1150 (processEyeState 1000 (create 30) false false)
              true true) <= 500)%Q /\
  (blinkDurations
     (processEyeState 1150 (processEyeState 1000 (create 30) false false) true true)
   = [] ->
   getAverageBlinkDuration
     (processEyeState 1150 (processEyeState 1000 (create 30) false false) true true)
   = inject_Z 200).
Proof.
  apply (average_blink_duration_in_range
           (processEyeState 1150 (processEyeState 1000 (create 30) false false)
              true true)).
  vm_compute. repeat constructor; discriminate.
Defined.

End Fatigue.

(** ** Finger counting and gesture classification: agreement of outputs *)

Section FingerAgreement.

Import Fixtures.
Import Invariants.
Import String.
Import FingerCounting.

Ltac present_lookups :=
  repeat match goal with
         | |- context [JS.bind (JS.at_ ?l ?i) _] =>
             destruct (JS.at_ l i) as [?|]; cbn [JS.bind]; [|discriminate]
         end.

(** X18.  The outputs of [countFingers] agree with one another: the
    count is the length of the list of raised finger names and the
    number of raised flags, the gesture is "Fist" exactly when the count
    is 0 and "Open Hand" exactly when it is 5. *)
Theorem countFingers_outputs_agree (landmarks : list HandLandmark)
  (isRightHand : bool) (c : FingerCountResult) :
  countFingers landmarks isRightHand = Some c ->
  count c = Z.of_nat (List.length (fingers c)) /\
  count c = popcount (fingerStates c) /\
  (count c = 0%Z <-> gesture c = Some "Fist"%string) /\
  (count c = 5%Z <-> gesture c = Some "Open Hand"%string).
Proof.
  unfold countFingers.
  cbn [THUMB INDEX MIDDLE RING PINKY FINGER_TIP_IDS FINGER_PIP_IDS].
  present_lookups.
  match goal with |- context [if isRightHand then ?a else ?b] =>
    generalize (if isRightHand then a else b) end.
  intros thumb.
  repeat match goal with |- context [lt ?a ?b] => generalize (lt a b); intro end.
  destruct thumb; repeat match goal with b : bool |- _ => destruct b end;
    intros [= <-]; cbn;
    (repeat split; try reflexivity; intros; discriminate).
Qed.

Lemma countFingers_outputs_agree_witness :
  exists c : FingerCountResult,
    countFingers (handOf threeUp) true = Some c /\
    count c = Z.of_nat (List.length (fingers c)) /\
    count c = popcount (fingerStates c) /\
    (count c = 0%Z <-> gesture c = Some "Fist"%string) /\
    (count c = 5%Z <-> gesture c = Some "Open Hand"%string).
Proof.
  eexists. split; [reflexivity|].
  apply (countFingers_outputs_agree (handOf threeUp) true). reflexivity.
Defined.

End FingerAgreement.

Section GestureReach.

Import Fixtures.
Import Invariants.
Import FingerCounting.
Import GestureCommands.
Open Scope Z_scope.

Lemma at_below {A : Type} (l : list A) (i j : nat) (v : A) :
  l.[i] = Some v -> (j <= i)%nat -> exists w, l.[j] = Some w.
Proof.
  intros H Hle. apply at_present.
  assert (i < length l)%nat; [|lia].
  apply nth_error_Some. unfold JS.at_ in H. rewrite H. discriminate.
Qed.

(** X19.  Whenever [recognize] returns, its gesture is one of twelve:
    it is never null and never [pointLeft], [pointRight], [okSign], [ok]
    or [fiveFingers] (five raised fingers are always [openPalm]); it is
    [fist] exactly when no finger is counted and [openPalm] exactly when
    five are. *)
Theorem recognize_reachable_gestures (landmarks : list HandLandmark)
  (isRightHand : bool) (r : GestureResult) :
  recognize landmarks isRightHand = Some r ->
  exists g : Gesture,
    GestureCommands.gesture r = Some g /\
    In g recognizable /\
    (g = fist <-> fingerCount r = 0) /\
    (g = openPalm <-> fingerCount r = 5).
Proof.
  unfold recognize, countFingers.
  cbn [THUMB INDEX MIDDLE RING PINKY FINGER_TIP_IDS FINGER_PIP_IDS].
  destruct (landmarks.[4]) as [tip|] eqn:E4; cbn [JS.bind]; [|discriminate].
  destruct (at_below landmarks 4 0 tip E4) as [wrist E0]; [lia|]. rewrite E0.
  repeat match goal with
         | |- context [JS.bind (JS.at_ ?l ?i) _] =>
             destruct (JS.at_ l i) as [?|]; cbn [JS.bind]; [|discriminate]
         end.
  match goal with |- context [if isRightHand then ?a else ?b] =>
    generalize (if isRightHand then a else b) end.
  intros thumb.
  generalize (lt (y tip) (y wrist)). intros up.
  repeat match goal with |- context [lt ?a ?b] => generalize (lt a b); intro end.
  destruct thumb, up; repeat match goal with b : bool |- _ => destruct b end;
    cbn; intros [= <-]; cbn; eexists; (split; [reflexivity|]);
    (split; [unfold recognizable; cbn; tauto|]);
    split; split; intros; try reflexivity; try discriminate.
Qed.

Lemma recognize_reachable_gestures_witness :
  exists (r : GestureResult) (g : Gesture),
    recognize (handOf openHand) true = Some r /\
    GestureCommands.gesture r = Some g /\
    In g recognizable /\
    (g = fist <-> fingerCount r = 0) /\
    (g = openPalm <-> fingerCount r = 5).
Proof.
  eexists.
  destruct (recognize_reachable_gestures (handOf openHand) true _ eq_refl)
    as [g H].
  exists g. split; [reflexivity|exact H].
Defined.

End GestureReach.

(** ** Gesture hold recognizer: what a fire means *)

Section HoldExtras.

Import Fixtures.
Import Invariants.
Import GestureCommands.
Open Scope Z_scope.

Lemma same_true (g h : GestureType) : same g h = true -> g = h.
Proof.
  destruct g as [g|], h as [h|]; simpl; try discriminate; try reflexivity.
  destruct (Gesture_eq_dec g h); [intros _; subst; reflexivity|discriminate].
Qed.

(** X20.  With a positive hold time, and no stale hold left without a
    running timer, a call that fires [g] does so only if [g] is the
    gesture shown now, it was already the held gesture, its timer has
    run for at least the hold time and the cooldown is over; the fire
    clears the held state and stamps the cooldown; and every call keeps
    "no timer, no held gesture, no hold time". *)
Theorem fired_gesture_was_held (now : Z) (this this' : GestureRecognizer)
  (landmarks : list FingerCounting.HandLandmark) (isRightHand : bool)
  (out : GestureType) :
  0 < MIN_HOLD_TIME this ->
  holdInv this ->
  detectHeldGesture now this landmarks isRightHand = Some (this', out) ->
  holdInv this' /\
  forall g : Gesture,
    out = Some g ->
    lastGesture this = Some g /\
    (exists r, recognize landmarks isRightHand = Some r /\
               GestureCommands.gesture r = Some g) /\
    (exists start, gestureStartTime this = Some start /\
                   MIN_HOLD_TIME this <= now - start) /\
    GESTURE_COOLDOWN <= now - lastGestureTime this /\
    this' = {| lastGesture := None; gestureStartTime := None; gestureHoldTime := 0;
               MIN_HOLD_TIME := MIN_HOLD_TIME this; lastGestureTime := now |}.
Proof.
  intros Hmin Hinv. unfold detectHeldGesture.
  destruct (recognize landmarks isRightHand) as [r|] eqn:Er; cbn [JS.bind]; [|discriminate].
  destruct (now - lastGestureTime this <? GESTURE_COOLDOWN) eqn:Ecool.
  { intros [= <- <-]. split; [exact Hinv|]. intros g. discriminate. }
  apply Z.ltb_ge in Ecool.
  destruct (same (GestureCommands.gesture r) (lastGesture this)) eqn:Esame.
  - apply same_true in Esame.
    destruct (gestureStartTime this) as [start|] eqn:Es.
    + cbn [MIN_HOLD_TIME gestureHoldTime lastGesture].
      destruct (MIN_HOLD_TIME this <=? now - start) eqn:Eh; cbn [andb].
      * destruct (same (GestureCommands.gesture r) None) eqn:En; cbn [negb].
        -- intros [= <- <-]. split; [intros H; discriminate H|]. intros g. discriminate.
        -- intros [= <- <-]. split; [intros _; split; reflexivity|].
           intros g Hg. apply Z.leb_le in Eh. rewrite <- Esame in Hg.
           split; [rewrite <- Esame; exact Hg|].
           split; [exists r; split; [reflexivity|exact Hg]|].
           split; [exists start; split; [reflexivity|exact Eh]|].
           split; [exact Ecool|reflexivity].
      * intros [= <- <-]. split; [intros H; discriminate H|]. intros g. discriminate.
    + pose proof (Hinv Es) as [Hl Hh]. rewrite Hh.
      destruct (MIN_HOLD_TIME this <=? 0) eqn:Eh; [apply Z.leb_le in Eh; lia|].
      cbn [andb]. intros [= <- <-]. split; [exact Hinv|]. intros g. discriminate.
  - cbn [MIN_HOLD_TIME gestureHoldTime].
    destruct (MIN_HOLD_TIME this <=? 0) eqn:Eh; [apply Z.leb_le in Eh; lia|].
    cbn [andb]. intros [= <- <-]. split; [intros H; discriminate H|].
    intros g. discriminate.
Qed.

(** The open palm held since 1000 ms, polled at 1300 ms: it fires. *)
Lemma fired_gesture_was_held_witness :
  holdInv {| lastGesture := None; gestureStartTime := None; gestureHoldTime := 0;
             MIN_HOLD_TIME := 300; lastGestureTime := 1300 |} /\
  forall g : Gesture,
    Some openPalm = Some g ->
    lastGesture holdingPalm = Some g /\
    (exists r, recognize (handOf openHand) true = Some r /\
               GestureCommands.gesture r = Some g) /\
    (exists start, gestureStartTime holdingPalm = Some start /\
                   MIN_HOLD_TIME holdingPalm <= 1300 - start) /\
    GESTURE_COOLDOWN <= 1300 - lastGestureTime holdingPalm /\
    {| lastGesture := None; gestureStartTime := None; gestureHoldTime := 0;
       MIN_HOLD_TIME := 300; lastGestureTime := 1300 |}
    = {| lastGesture := None; gestureStartTime := None; gestureHoldTime := 0;
         MIN_HOLD_TIME := MIN_HOLD_TIME holdingPalm; lastGestureTime := 1300 |}.
Proof.
  apply (fired_gesture_was_held 1300 holdingPalm _ (handOf openHand) true (Some openPalm)).
  - reflexivity.
  - intros H. discriminate H.
  - reflexivity.
Defined.

(** X21.  With a positive hold time and a non-negative accumulated hold
    the reported hold progress lies between 0 and 1, and it is 0 after
    [reset]. *)
Theorem hold_progress_in_unit_interval (this : GestureRecognizer) :
  0 < MIN_HOLD_TIME this ->
  0 <= gestureHoldTime this ->
  (0 <= getHoldProgress this <= 1)%Q /\
  getHoldProgress (reset this) = 0%Q.
Proof.
  intros Hmin Hhold. split; [|reflexivity].
  unfold getHoldProgress. destruct (gestureStartTime this); [|split; discriminate].
  assert (Hq : (0 <= inject_Z (gestureHoldTime this) / inject_Z (MIN_HOLD_TIME this))%Q).
  { apply Qle_shift_div_l.
    - change 0%Q with (inject_Z 0). rewrite <- Zlt_Qlt. exact Hmin.
    - rewrite Qmult_0_l. change 0%Q with (inject_Z 0). rewrite <- Zle_Qle. exact Hhold. }
  unfold JS.minQ.
  destruct (Qle_bool 1 (inject_Z (gestureHoldTime this) / inject_Z (MIN_HOLD_TIME this)))
    eqn:E.
  - split; discriminate.
  - split; [exact Hq|].
    destruct (Qlt_le_dec (inject_Z (gestureHoldTime this) / inject_Z (MIN_HOLD_TIME this)) 1)
      as [L|L].
    + apply Qlt_le_weak. exact L.
    + apply Qle_bool_iff in L. rewrite L in E. discriminate.
Qed.

Lemma hold_progress_in_unit_interval_witness :
  (0 <= getHoldProgress holdingPalm <= 1)%Q /\
  getHoldProgress (reset holdingPalm) = 0%Q.
Proof.
  apply (hold_progress_in_unit_interval holdingPalm); [reflexivity|discriminate].
Defined.

End HoldExtras.

(** ** Eye gesture detector: winks *)

Section WinkExtras.

Import Fixtures.
Import Invariants.
Import FaceGestures.
Open Scope R_scope.

Lemma eye_detect_inv (this this' : EyeGestureDetector)
  (landmarks : list BlinkDetection.Landmark) (state : EyeState) :
  detect this landmarks = Some (this', state) ->
  leftWinkStartTime this' = leftWinkStartTime this /\
  rightWinkStartTime this' = rightWinkStartTime this /\
  WINK_THRESHOLD this' = WINK_THRESHOLD this /\
  OPEN_THRESHOLD this' = OPEN_THRESHOLD this /\
  leftOpen state = gt (leftEAR state) (OPEN_THRESHOLD this) /\
  rightOpen state = gt (rightEAR state) (OPEN_THRESHOLD this) /\
  isWinkingLeft state =
    (negb (leftOpen state) && rightOpen state
     && gt (Rabs (leftEAR state - rightEAR state)) WINK_DIFF_THRESHOLD)%bool /\
  isWinkingRight state =
    (negb (rightOpen state) && leftOpen state
     && gt (Rabs (leftEAR state - rightEAR state)) WINK_DIFF_THRESHOLD)%bool /\
  isBothClosed state =
    (lt (leftEAR state) (WINK_THRESHOLD this)
     && lt (rightEAR state) (WINK_THRESHOLD this))%bool /\
  exists l r,
    (leftEARHistory this', rightEARHistory this') =
    (if (HISTORY_SIZE <? length (JS.push (leftEARHistory this) l))%nat
     then (JS.shift (JS.push (leftEARHistory this) l),
           JS.shift (JS.push (rightEARHistory this) r))
     else (JS.push (leftEARHistory this) l, JS.push (rightEARHistory this) r)).
Proof.
  unfold detect, JS.bind.
  destruct (calculateEAR landmarks LEFT_EYE) as [l|]; [|discriminate].
  destruct (calculateEAR landmarks RIGHT_EYE) as [r|]; [|discriminate].
  cbv zeta.
  match goal with
  | |- context [let '(a, b) := ?e in _] => destruct e as [left2 right2] eqn:E
  end.
  intros [= <- <-].
  cbn [leftEARHistory rightEARHistory WINK_THRESHOLD OPEN_THRESHOLD
       leftWinkStartTime rightWinkStartTime leftOpen rightOpen leftEAR rightEAR
       isWinkingLeft isWinkingRight isBothClosed].
  repeat split. exists l, r. symmetry. exact E.
Qed.

Lemma eye_detect_defined (this : EyeGestureDetector)
  (landmarks : list BlinkDetection.Landmark) (l r : R) :
  calculateEAR landmarks LEFT_EYE = Some l ->
  calculateEAR landmarks RIGHT_EYE = Some r ->
  exists this' state, detect this landmarks = Some (this', state).
Proof.
  intros Hl Hr. unfold detect. rewrite Hl, Hr. cbn [JS.bind]. cbv zeta.
  match goal with
  | |- context [let '(a, b) := ?e in _] => destruct e as [left2 right2]
  end.
  eexists. eexists. reflexivity.
Qed.

Lemma eyesAt_detect_defined (this : EyeGestureDetector) (e : R) :
  0 <= e -> exists this' state, detect this (face (eyesAt e)) = Some (this', state).
Proof.
  intros He. destruct (eyesAt_EAR e He) as [EL ER].
  exact (eye_detect_defined this (face (eyesAt e)) e e EL ER).
Qed.

Lemma gt_true (a b : R) : a > b -> gt a b = true.
Proof. intros H. unfold gt. destruct (Rgt_dec a b); [reflexivity|contradiction]. Qed.

Lemma gt_false (a b : R) : ~ a > b -> gt a b = false.
Proof. intros H. unfold gt. destruct (Rgt_dec a b); [contradiction|reflexivity]. Qed.

Lemma lt_true (a b : R) : a < b -> lt a b = true.
Proof. intros H. unfold lt. destruct (Rlt_dec a b); [reflexivity|contradiction]. Qed.

Lemma lt_false (a b : R) : ~ a < b -> lt a b = false.
Proof. intros H. unfold lt. destruct (Rlt_dec a b); [contradiction|reflexivity]. Qed.

Ltac order_reals :=
  cbn [JS.sum fold_left app length INR]; unfold Rabs;
  repeat match goal with
         | |- context [Rcase_abs ?v] => destruct (Rcase_abs v)
         end; lra.

Ltac decide_comparisons :=
  repeat match goal with
         | |- context [gt ?a ?b] =>
             first [rewrite (gt_true a b) by order_reals
                   |rewrite (gt_false a b) by order_reals]
         | |- context [lt ?a ?b] =>
             first [rewrite (lt_true a b) by order_reals
                   |rewrite (lt_false a b) by order_reals]
         end.

(** [detect] while the histories hold fewer than 5 samples: nothing is
    shifted out. *)
Lemma eye_detect_short (this : EyeGestureDetector)
  (landmarks : list BlinkDetection.Landmark) (l r : R) :
  calculateEAR landmarks LEFT_EYE = Some l ->
  calculateEAR landmarks RIGHT_EYE = Some r ->
  (length (leftEARHistory this) < 5)%nat ->
  exists this' state,
    detect this landmarks = Some (this', state) /\
    leftEARHistory this' = leftEARHistory this ++ [l] /\
    rightEARHistory this' = rightEARHistory this ++ [r] /\
    leftEAR state
      = JS.sum (leftEARHistory this ++ [l]) / INR (length (leftEARHistory this ++ [l])) /\
    rightEAR state
      = JS.sum (rightEARHistory this ++ [r]) / INR (length (rightEARHistory this ++ [r])).
Proof.
  intros Hl Hr Hlen. unfold detect. rewrite Hl, Hr. cbn [JS.bind]. cbv zeta.
  assert (C : (HISTORY_SIZE <? length (JS.push (leftEARHistory this) l))%nat = false).
  { apply Nat.ltb_ge. unfold HISTORY_SIZE, JS.push. rewrite length_app. cbn [length]. lia. }
  rewrite C. unfold JS.push. eexists. eexists. split; [reflexivity|].
  cbn [leftEARHistory rightEARHistory leftEAR rightEAR]. repeat split; reflexivity.
Qed.

(** The flags of a [detect] call from the two smoothed EARs. *)
Lemma eye_flags (this this' : EyeGestureDetector)
  (landmarks : list BlinkDetection.Landmark) (state : EyeState) (l r : R) :
  detect this landmarks = Some (this', state) ->
  leftEAR state = l -> rightEAR state = r ->
  isWinkingLeft state =
    (negb (gt l (OPEN_THRESHOLD this)) && gt r (OPEN_THRESHOLD this)
     && gt (Rabs (l - r)) WINK_DIFF_THRESHOLD)%bool /\
  isWinkingRight state =
    (negb (gt r (OPEN_THRESHOLD this)) && gt l (OPEN_THRESHOLD this)
     && gt (Rabs (l - r)) WINK_DIFF_THRESHOLD)%bool /\
  isBothClosed state =
    (lt l (WINK_THRESHOLD this) && lt r (WINK_THRESHOLD this))%bool.
Proof.
  intros E Hl Hr.
  destruct (eye_detect_inv this this' landmarks state E)
    as (_ & _ & _ & _ & Hlo & Hro & Hwl & Hwr & Hbc & _).
  rewrite Hwl, Hwr, Hbc, Hlo, Hro, Hl, Hr. repeat split; reflexivity.
Qed.

(** The fresh detector sees a left wink when the left lids are 0.1 apart
    and the right ones 0.3. *)
Lemma left_wink_seen :
  exists this' state,
    detect fresh (face (eyesLR 0.1 0.3)) = Some (this', state) /\
    isWinkingLeft state = true /\ isWinkingRight state = false /\
    leftEARHistory this' = [0.1] /\ rightEARHistory this' = [0.3].
Proof.
  destruct (eyesLR_EAR 0.1 0.3) as [EL ER]; [lra|lra|].
  destruct (eye_detect_short fresh (face (eyesLR 0.1 0.3)) 0.1 0.3 EL ER)
    as (this' & state & E & H1 & H2 & H3 & H4); [cbn; lia|].
  cbn [fresh leftEARHistory rightEARHistory app] in H1, H2, H3, H4.
  destruct (eye_flags fresh this' (face (eyesLR 0.1 0.3)) state _ _ E H3 H4)
    as (Wl & Wr & _).
  exists this', state. split; [exact E|].
  rewrite Wl, Wr. cbn [fresh OPEN_THRESHOLD]. unfold WINK_DIFF_THRESHOLD.
  decide_comparisons. repeat split; assumption.
Qed.

(** With both pairs of lids 0.1 apart it sees both eyes closed. *)
Lemma both_closed_seen :
  exists this' state,
    detect fresh (face (eyesAt 0.1)) = Some (this', state) /\
    WINK_THRESHOLD fresh <= OPEN_THRESHOLD fresh /\
    isBothClosed state = true.
Proof.
  destruct (eyesAt_EAR 0.1) as [EL ER]; [lra|].
  destruct (eye_detect_short fresh (face (eyesAt 0.1)) 0.1 0.1 EL ER)
    as (this' & state & E & H1 & H2 & H3 & H4); [cbn; lia|].
  cbn [fresh leftEARHistory rightEARHistory app] in H3, H4.
  destruct (eye_flags fresh this' (face (eyesAt 0.1)) state _ _ E H3 H4)
    as (_ & _ & C).
  exists this', state. split; [exact E|].
  split; [cbn [fresh WINK_THRESHOLD OPEN_THRESHOLD]; lra|].
  rewrite C. cbn [fresh WINK_THRESHOLD]. decide_comparisons. reflexivity.
Qed.

(** X22.  [detect] never reports a wink on both sides at once; a wink on
    one side means that eye is not open and the other is; and when the
    wink threshold does not exceed the open threshold (0.18 and 0.22 by
    default), a frame with both eyes closed reports no wink and no open
    eye. *)
Theorem winks_are_one_sided (this this' : EyeGestureDetector)
  (landmarks : list BlinkDetection.Landmark) (state : EyeState) :
  detect this landmarks = Some (this', state) ->
  (isWinkingLeft state && isWinkingRight state)%bool = false /\
  (isWinkingLeft state = true -> leftOpen state = false /\ rightOpen state = true) /\
  (isWinkingRight state = true -> rightOpen state = false /\ leftOpen state = true) /\
  (WINK_THRESHOLD this <= OPEN_THRESHOLD this ->
   isBothClosed state = true ->
   leftOpen state = false /\ rightOpen state = false /\
   isWinkingLeft state = false /\ isWinkingRight state = false).
Proof.
  intros E.
  destruct (eye_detect_inv this this' landmarks state E)
    as (_ & _ & _ & _ & Hlo & Hro & Hwl & Hwr & Hbc & _).
  rewrite Hwl, Hwr.
  split; [destruct (leftOpen state), (rightOpen state); cbn;
          rewrite ?Bool.andb_false_r; reflexivity|].
  split; [destruct (leftOpen state), (rightOpen state); cbn; intros H;
          try discriminate; split; reflexivity|].
  split; [destruct (leftOpen state), (rightOpen state); cbn; intros H;
          try discriminate; split; reflexivity|].
  intros Hth Hc. rewrite Hbc in Hc. apply andb_prop in Hc. destruct Hc as [Hc1 Hc2].
  unfold lt in Hc1, Hc2.
  destruct (Rlt_dec (leftEAR state) (WINK_THRESHOLD this)); [|discriminate].
  destruct (Rlt_dec (rightEAR state) (WINK_THRESHOLD this)); [|discriminate].
  assert (L : leftOpen state = false).
  { rewrite Hlo. unfold gt. destruct (Rgt_dec (leftEAR state) (OPEN_THRESHOLD this));
      [lra|reflexivity]. }
  assert (R' : rightOpen state = false).
  { rewrite Hro. unfold gt. destruct (Rgt_dec (rightEAR state) (OPEN_THRESHOLD this));
      [lra|reflexivity]. }
  rewrite L, R'. repeat split; reflexivity.
Qed.

(** A left wink seen by the fresh detector (left lids at 0.1, right at
    0.3), and a frame with both eyes closed at 0.1. *)
Lemma winks_are_one_sided_witness :
  (exists this' state,
     detect fresh (face (eyesLR 0.1 0.3)) = Some (this', state) /\
     isWinkingLeft state = true /\
     (isWinkingLeft state && isWinkingRight state)%bool = false /\
     (isWinkingLeft state = true -> leftOpen state = false /\ rightOpen state = true) /\
     (isWinkingRight state = true -> rightOpen state = false /\ leftOpen state = true) /\
     (WINK_THRESHOLD fresh <= OPEN_THRESHOLD fresh ->
      isBothClosed state = true ->
      leftOpen state = false /\ rightOpen state = false /\
      isWinkingLeft state = false /\ isWinkingRight state = false)) /\
  (exists this' state,
     detect fresh (face (eyesAt 0.1)) = Some (this', state) /\
     WINK_THRESHOLD fresh <= OPEN_THRESHOLD fresh /\
     isBothClosed state = true /\
     (isWinkingLeft state && isWinkingRight state)%bool = false /\
     (isWinkingLeft state = true -> leftOpen state = false /\ rightOpen state = true) /\
     (isWinkingRight state = true -> rightOpen state = false /\ leftOpen state = true) /\
     (WINK_THRESHOLD fresh <= OPEN_THRESHOLD fresh ->
      isBothClosed state = true ->
      leftOpen state = false /\ rightOpen state = false /\
      isWinkingLeft state = false /\ isWinkingRight state = false)).
Proof.
  split.
  - destruct left_wink_seen as (this' & state & E & W & _).
    exists this', state. split; [exact E|]. split; [exact W|].
    exact (winks_are_one_sided fresh this' (face (eyesLR 0.1 0.3)) state E).
  - destruct both_closed_seen as (this' & state & E & T & C).
    exists this', state. split; [exact E|]. split; [exact T|]. split; [exact C|].
    exact (winks_are_one_sided fresh this' (face (eyesAt 0.1)) state E).
Defined.

(** X23.  The two EAR histories stay paired and bounded: if they have
    the same length, at most 5, before a [detect] call, they have the
    same length after it, at least 1 and at most 5. *)
Theorem ear_histories_bounded (this this' : EyeGestureDetector)
  (landmarks : list BlinkDetection.Landmark) (state : EyeState) :
  detect this landmarks = Some (this', state) ->
  length (leftEARHistory this) = length (rightEARHistory this) ->
  (length (leftEARHistory this) <= 5)%nat ->
  length (leftEARHistory this') = length (rightEARHistory this') /\
  (1 <= length (leftEARHistory this') <= 5)%nat.
Proof.
  intros E Hlen Hle.
  destruct (eye_detect_inv this this' landmarks state E)
    as (_ & _ & _ & _ & _ & _ & _ & _ & _ & l & r & Hh).
  unfold HISTORY_SIZE in Hh.
  destruct (5 <? length (JS.push (leftEARHistory this) l))%nat eqn:C;
    injection Hh as -> ->.
  - apply Nat.ltb_lt in C. rewrite length_push in C.
    rewrite !length_shift, !length_push. lia.
  - rewrite !length_push. apply Nat.ltb_ge in C. rewrite length_push in C. lia.
Qed.

Lemma ear_histories_bounded_witness :
  exists this' state,
    detect fresh (face (eyesAt 0.3)) = Some (this', state) /\
    length (leftEARHistory this') = length (rightEARHistory this') /\
    (1 <= length (leftEARHistory this') <= 5)%nat.
Proof.
  assert (H0 : 0 <= 0.3) by lra.
  destruct (eyesAt_detect_defined fresh 0.3 H0) as [this' [state E]].
  exists this', state. split; [exact E|].
  apply (ear_histories_bounded fresh this' (face (eyesAt 0.3)) state E).
  - reflexivity.
  - simpl. lia.
Defined.

Lemma winkTimer_fires (now : Z) (winking : bool) (startTime : option Z) :
  snd (winkTimer now winking startTime) = true ->
  winking = false /\
  fst (winkTimer now winking startTime) = None /\
  exists t0, startTime = Some t0 /\
             (MIN_WINK_DURATION <= now - t0 <= MAX_WINK_DURATION)%Z.
Proof.
  unfold winkTimer. destruct winking; [destruct startTime; discriminate|].
  destruct startTime as [t0|]; [|discriminate]. cbn [fst snd].
  intros H. apply andb_prop in H. destruct H as [H1 H2].
  apply Z.leb_le in H1. apply Z.leb_le in H2.
  repeat split. exists t0. split; [reflexivity|lia].
Qed.

(** The first frame of a left wink starts the left timer. *)
Lemma wink_started :
  exists this1,
    detectIntentionalWink 1000 fresh (face (eyesLR 0.1 0.3)) = Some (this1, None) /\
    leftWinkStartTime this1 = Some 1000%Z /\
    rightWinkStartTime this1 = None /\
    leftEARHistory this1 = [0.1] /\ rightEARHistory this1 = [0.3] /\
    OPEN_THRESHOLD this1 = 0.22.
Proof.
  destruct left_wink_seen as (this0 & state & E & Wl & Wr & H1 & H2).
  destruct (eye_detect_inv fresh this0 (face (eyesLR 0.1 0.3)) state E)
    as (T1 & T2 & _ & O & _).
  unfold detectIntentionalWink. rewrite E, Wl, T1.
  cbn [fresh leftWinkStartTime winkTimer rightWinkStartTime].
  rewrite Wr, T2. cbn [fresh rightWinkStartTime winkTimer].
  eexists. split; [reflexivity|].
  cbn [leftWinkStartTime rightWinkStartTime leftEARHistory rightEARHistory
       OPEN_THRESHOLD].
  rewrite H1, H2, O. repeat split; reflexivity.
Qed.

(** Both eyes open 200 ms later: the wink is answered. *)
Lemma wink_answered (this1 : EyeGestureDetector) :
  leftWinkStartTime this1 = Some 1000%Z /\
  rightWinkStartTime this1 = None /\
  leftEARHistory this1 = [0.1] /\ rightEARHistory this1 = [0.3] /\
  OPEN_THRESHOLD this1 = 0.22 ->
  exists this',
    detectIntentionalWink 1200 this1 (face (eyesAt 0.4)) = Some (this', Some Wink.left).
Proof.
  intros (T & _ & H1 & H2 & O).
  destruct (eyesAt_EAR 0.4) as [EL ER]; [lra|].
  destruct (eye_detect_short this1 (face (eyesAt 0.4)) 0.4 0.4 EL ER)
    as (this2 & state & E & _ & _ & H3 & H4); [rewrite H1; cbn; lia|].
  rewrite H1 in H3. rewrite H2 in H4. cbn [app] in H3, H4.
  destruct (eye_flags this1 this2 (face (eyesAt 0.4)) state _ _ E H3 H4)
    as (Wl & _ & _).
  destruct (eye_detect_inv this1 this2 (face (eyesAt 0.4)) state E) as (T1 & _).
  unfold detectIntentionalWink. rewrite E, Wl, T1, T, O.
  decide_comparisons.
  cbn. eexists. reflexivity.
Qed.

(** X24.  [detectIntentionalWink] never answers "double".  It answers
    "left" (or "right") only on a frame where that wink is no longer
    seen, the wink's timer was running and has run between 100 and 500
    ms, and it then clears that timer; a "left" answer leaves the right
    timer untouched for that call. *)
Theorem intentional_wink_answers (now : Z) (this this' : EyeGestureDetector)
  (landmarks : list BlinkDetection.Landmark) (answer : option Wink.t) :
  detectIntentionalWink now this landmarks = Some (this', answer) ->
  answer <> Some Wink.double /\
  (answer = Some Wink.left ->
   leftWinkStartTime this' = None /\
   rightWinkStartTime this' = rightWinkStartTime this /\
   exists t0, leftWinkStartTime this = Some t0 /\ (100 <= now - t0 <= 500)%Z) /\
  (answer = Some Wink.right ->
   rightWinkStartTime this' = None /\
   exists t0, rightWinkStartTime this = Some t0 /\ (100 <= now - t0 <= 500)%Z).
Proof.
  unfold detectIntentionalWink.
  destruct (detect this landmarks) as [[this1 state]|] eqn:E; [|discriminate].
  destruct (eye_detect_inv this this1 landmarks state E) as (Hl & Hr & _).
  destruct (winkTimer now (isWinkingLeft state) (leftWinkStartTime this1))
    as [leftStart leftWink] eqn:EL.
  destruct leftWink.
  - intros [= <- <-]. split; [discriminate|]. split; [|discriminate].
    intros _. pose proof (winkTimer_fires now (isWinkingLeft state)
                            (leftWinkStartTime this1)) as F.
    rewrite EL in F. cbn [fst snd] in F. destruct (F eq_refl) as [_ [F1 [t0 [F2 F3]]]].
    cbn. rewrite <- Hl. repeat split; try assumption. exists t0. split; assumption.
  - cbn [rightWinkStartTime].
    destruct (winkTimer now (isWinkingRight state) (rightWinkStartTime this1))
      as [rightStart rightWink] eqn:ER.
    destruct rightWink.
    + intros [= <- <-]. split; [discriminate|]. split; [discriminate|].
      intros _. pose proof (winkTimer_fires now (isWinkingRight state)
                              (rightWinkStartTime this1)) as F.
      rewrite ER in F. cbn [fst snd] in F. destruct (F eq_refl) as [_ [F1 [t0 [F2 F3]]]].
      cbn. rewrite <- Hr. split; [assumption|]. exists t0. split; assumption.
    + intros [= <- <-]. split; [discriminate|]. split; discriminate.
Qed.

(** A left wink timed: the wink is seen at 1000 ms, which starts the
    left timer and answers nothing; at 1200 ms both eyes are open again
    and the call answers "left", 200 ms after the start. *)
Lemma intentional_wink_answers_witness :
  exists this1 this',
    detectIntentionalWink 1000 fresh (face (eyesLR 0.1 0.3)) = Some (this1, None) /\
    leftWinkStartTime this1 = Some 1000%Z /\
    detectIntentionalWink 1200 this1 (face (eyesAt 0.4)) = Some (this', Some Wink.left) /\
    Some Wink.left <> Some Wink.double /\
    (Some Wink.left = Some Wink.left ->
     leftWinkStartTime this' = None /\
     rightWinkStartTime this' = rightWinkStartTime this1 /\
     exists t0, leftWinkStartTime this1 = Some t0 /\ (100 <= 1200 - t0 <= 500)%Z) /\
    (Some Wink.left = Some Wink.right ->
     rightWinkStartTime this' = None /\
     exists t0, rightWinkStartTime this1 = Some t0 /\ (100 <= 1200 - t0 <= 500)%Z).
Proof.
  destruct wink_started as (this1 & E1 & T & F).
  destruct (wink_answered this1 (conj T F)) as (this' & E2).
  exists this1, this'. split; [exact E1|]. split; [exact T|]. split; [exact E2|].
  exact (intentional_wink_answers 1200 this1 this' (face (eyesAt 0.4))
           (Some Wink.left) E2).
Defined.

End WinkExtras.

(** ** Mouth and eyebrow detectors *)

Section MouthBrow.

Import Fixtures.
Import Invariants.
Open Scope R_scope.

Lemma fold_Rplus_ge (l : list R) :
  Forall (fun v => 0 <= v) l -> forall a : R, a <= fold_left Rplus l a.
Proof.
  induction 1 as [|v l Hv _ IH]; intros a; [simpl; lra|].
  cbn [fold_left]. specialize (IH (a + v)). lra.
Qed.

Lemma average_nonneg (l : list R) :
  Forall (fun v => 0 <= v) l -> (1 <= length l)%nat -> 0 <= JS.sum l / INR (length l).
Proof.
  intros H Hlen. pose proof (fold_Rplus_ge l H 0) as S.
  assert (0 < INR (length l)) by (apply lt_0_INR; lia).
  apply Rmult_le_pos; [exact S|]. left. apply Rinv_0_lt_compat. assumption.
Qed.

(** [detect] on the mouth fixture while the history holds fewer than 5
    samples. *)
Lemma mouth_detect_short (this : MouthGestures.MouthGestureDetector) (top bottom : R) :
  top <= bottom ->
  (length (MouthGestures.opennessHistory this) < 5)%nat ->
  exists this' state,
    MouthGestures.detect this (face (mouthAt top bottom)) = Some (this', state) /\
    MouthGestures.opennessHistory this'
      = MouthGestures.opennessHistory this ++ [bottom - top] /\
    MouthGestures.openness state
      = JS.sum (MouthGestures.opennessHistory this ++ [bottom - top])
        / INR (length (MouthGestures.opennessHistory this ++ [bottom - top])) /\
    MouthGestures.openRatio state = Rmin 1 (MouthGestures.openness state / 0.2) /\
    MouthGestures.smileIntensity state
      = Rmax 0 (Rmin 1 (((top + bottom) / 2 - 0.5) * 100)).
Proof.
  intros Hord Hlen.
  unfold MouthGestures.detect, MouthGestures.MOUTH_upperOuter,
    MouthGestures.MOUTH_lowerOuter, MouthGestures.MOUTH_left, MouthGestures.MOUTH_right.
  rewrite !face_at by lia. cbn [JS.bind]. cbv zeta.
  cbv [mouthAt Nat.eqb].
  rewrite (distance_vertical 0.5 top bottom Hord).
  rewrite (distance_horizontal 0.5 0 1) by lra.
  destruct (Rgt_dec (1 - 0) 0) as [_|N]; [|exfalso; apply N; lra].
  replace ((bottom - top) / (1 - 0)) with (bottom - top) by field.
  assert (C : (MouthGestures.HISTORY_SIZE
               <? length (JS.push (MouthGestures.opennessHistory this) (bottom - top)%R))%nat
              = false).
  { apply Nat.ltb_ge. unfold MouthGestures.HISTORY_SIZE. rewrite length_push. lia. }
  rewrite C. unfold JS.push.
  eexists. eexists. split; [reflexivity|].
  cbn [MouthGestures.opennessHistory MouthGestures.openness MouthGestures.openRatio
       MouthGestures.smileIntensity BlinkDetection.y point].
  repeat split. f_equal. f_equal. field.
Qed.

Lemma two_mouth_frames :
  exists this1 state1 this2 state2,
    MouthGestures.detect MouthGestures.fresh (face (mouthAt 0.43 0.58))
      = Some (this1, state1) /\
    MouthGestures.openness state1 = 0.15 /\
    MouthGestures.openRatio state1 = 0.75 /\
    MouthGestures.smileIntensity state1 = 0.5 /\
    MouthGestures.detect this1 (face (mouthAt 0.3 0.72)) = Some (this2, state2) /\
    MouthGestures.openness state2 = 0.285 /\
    MouthGestures.openRatio state2 = 1 /\
    MouthGestures.smileIntensity state2 = 1.
Proof.
  destruct (mouth_detect_short MouthGestures.fresh 0.43 0.58)
    as (this1 & state1 & E1 & H1 & O1 & R1 & S1); [lra|cbn; lia|].
  cbn [MouthGestures.fresh MouthGestures.opennessHistory app] in H1, O1.
  destruct (mouth_detect_short this1 0.3 0.72)
    as (this2 & state2 & E2 & _ & O2 & R2 & S2); [lra|rewrite H1; cbn; lia|].
  rewrite H1 in O2. cbn [app] in O2.
  assert (V1 : MouthGestures.openness state1 = 0.15).
  { rewrite O1. cbn [JS.sum fold_left length INR]. lra. }
  assert (V2 : MouthGestures.openness state2 = 0.285).
  { rewrite O2. cbn [JS.sum fold_left length INR]. lra. }
  rewrite V1 in R1. rewrite V2 in R2.
  exists this1, state1, this2, state2.
  split; [exact E1|]. split; [exact V1|].
  split; [rewrite R1; unfold Rmin; destruct (Rle_dec 1 (0.15 / 0.2)); lra|].
  split; [rewrite S1; unfold Rmax, Rmin;
          destruct (Rle_dec 1 (((0.43 + 0.58) / 2 - 0.5) * 100));
          match goal with |- context [Rle_dec ?a ?b] => destruct (Rle_dec a b) end; lra|].
  split; [exact E2|]. split; [exact V2|].
  split; [rewrite R2; unfold Rmin; destruct (Rle_dec 1 (0.285 / 0.2)); lra|].
  rewrite S2; unfold Rmax, Rmin;
    destruct (Rle_dec 1 (((0.3 + 0.72) / 2 - 0.5) * 100));
    match goal with |- context [Rle_dec ?a ?b] => destruct (Rle_dec a b) end; lra.
Qed.

(** X25.  The mouth detector keeps a history of at most 5 non-negative
    samples, and on every frame it reports a non-negative openness, an
    open ratio between 0 and 1 and a smile intensity between 0 and 1. *)
Theorem mouth_outputs_in_range (this this' : MouthGestures.MouthGestureDetector)
  (landmarks : list BlinkDetection.Landmark) (state : MouthGestures.MouthState) :
  mouthInv this ->
  MouthGestures.detect this landmarks = Some (this', state) ->
  mouthInv this' /\
  0 <= MouthGestures.openness state /\
  0 <= MouthGestures.openRatio state <= 1 /\
  0 <= MouthGestures.smileIntensity state <= 1.
Proof.
  intros [Hpos Hlen]. unfold MouthGestures.detect, JS.bind.
  destruct (landmarks.[MouthGestures.MOUTH_upperOuter]) as [upperLip|]; [|discriminate].
  destruct (landmarks.[MouthGestures.MOUTH_lowerOuter]) as [lowerLip|]; [|discriminate].
  destruct (landmarks.[MouthGestures.MOUTH_left]) as [mouthLeft|]; [|discriminate].
  destruct (landmarks.[MouthGestures.MOUTH_right]) as [mouthRight|]; [|discriminate].
  cbv zeta.
  set (o := if Rgt_dec (BlinkDetection.euclideanDistance mouthLeft mouthRight) 0
            then BlinkDetection.euclideanDistance upperLip lowerLip
                 / BlinkDetection.euclideanDistance mouthLeft mouthRight
            else 0).
  assert (Ho : 0 <= o).
  { unfold o. destruct (Rgt_dec (BlinkDetection.euclideanDistance mouthLeft mouthRight) 0);
      [|lra].
    apply Rmult_le_pos; [apply euclideanDistance_nonneg|].
    left. apply Rinv_0_lt_compat. lra. }
  set (h := if (MouthGestures.HISTORY_SIZE
                <? length (JS.push (MouthGestures.opennessHistory this) o))%nat
            then JS.shift (JS.push (MouthGestures.opennessHistory this) o)
            else JS.push (MouthGestures.opennessHistory this) o).
  assert (Hh : Forall (fun v => 0 <= v) h /\ (1 <= length h <= 5)%nat).
  { assert (Hp : Forall (fun v => 0 <= v) (JS.push (MouthGestures.opennessHistory this) o)).
    { unfold JS.push. apply Forall_app. split; [exact Hpos|].
      apply Forall_cons; [exact Ho|constructor]. }
    unfold h, MouthGestures.HISTORY_SIZE.
    destruct (5 <? length (JS.push (MouthGestures.opennessHistory this) o))%nat eqn:C.
    - apply Nat.ltb_lt in C. rewrite length_push in C.
      split; [apply Forall_shift; exact Hp|]. rewrite length_shift, length_push. lia.
    - apply Nat.ltb_ge in C. rewrite length_push in C.
      split; [exact Hp|]. rewrite length_push. lia. }
  destruct Hh as [Hh1 Hh2].
  pose proof (average_nonneg h Hh1 (proj1 Hh2)) as Havg.
  intros [= <- <-].
  cbn [MouthGestures.opennessHistory MouthGestures.openness MouthGestures.openRatio
       MouthGestures.smileIntensity].
  split; [split; [exact Hh1|cbn [MouthGestures.opennessHistory]; lia]|].
  split; [exact Havg|].
  split; [split; [apply Rmin_glb; lra|apply Rmin_l]|].
  apply clamp01_bounds.
Qed.

(** Two frames on the fresh detector: a mouth 0.15 open with its corners
    0.005 above the centre of the lips, then one 0.42 open, where the
    open ratio and the smile intensity reach their cap. *)
Lemma mouth_outputs_in_range_witness :
  exists this1 state1 this2 state2,
    (MouthGestures.detect MouthGestures.fresh (face (mouthAt 0.43 0.58))
       = Some (this1, state1) /\
     MouthGestures.openness state1 = 0.15 /\
     MouthGestures.openRatio state1 = 0.75 /\
     MouthGestures.smileIntensity state1 = 0.5 /\
     MouthGestures.detect this1 (face (mouthAt 0.3 0.72)) = Some (this2, state2) /\
     MouthGestures.openness state2 = 0.285 /\
     MouthGestures.openRatio state2 = 1 /\
     MouthGestures.smileIntensity state2 = 1) /\
    (mouthInv this1 /\
     0 <= MouthGestures.openness state1 /\
     0 <= MouthGestures.openRatio state1 <= 1 /\
     0 <= MouthGestures.smileIntensity state1 <= 1) /\
    (mouthInv this2 /\
     0 <= MouthGestures.openness state2 /\
     0 <= MouthGestures.openRatio state2 <= 1 /\
     0 <= MouthGestures.smileIntensity state2 <= 1).
Proof.
  destruct two_mouth_frames as (this1 & state1 & this2 & state2 & F).
  exists this1, state1, this2, state2. split; [exact F|].
  destruct F as (E1 & _ & _ & _ & E2 & _).
  assert (I0 : mouthInv MouthGestures.fresh) by (split; [constructor|simpl; lia]).
  pose proof (mouth_outputs_in_range MouthGestures.fresh this1
                (face (mouthAt 0.43 0.58)) state1 I0 E1) as R1.
  split; [exact R1|].
  exact (mouth_outputs_in_range this1 this2 (face (mouthAt 0.3 0.72)) state2
           (proj1 R1) E2).
Defined.

Lemma not_raised (b : R) :
  (if Rgt_dec (b - b) Eyebrows.RAISE_THRESHOLD then true else false) = false.
Proof.
  unfold Eyebrows.RAISE_THRESHOLD.
  destruct (Rgt_dec (b - b) 0.015); [lra|reflexivity].
Qed.

(** X26.  After a [calibrate] call that returned, [detect] on the same
    landmarks reports no eyebrow raised and leaves the baselines as
    calibrated. *)
Theorem calibrated_brows_at_rest (this this1 : Eyebrows.EyebrowDetector)
  (landmarks : list BlinkDetection.Landmark) :
  Eyebrows.calibrate this landmarks = (this1, Some tt) ->
  exists state,
    Eyebrows.detect this1 landmarks = Some (this1, state) /\
    Eyebrows.leftRaised state = false /\
    Eyebrows.rightRaised state = false /\
    Eyebrows.bothRaised state = false.
Proof.
  unfold Eyebrows.calibrate, Eyebrows.detect.
  destruct (Eyebrows.browY landmarks Eyebrows.LEFT_EYEBROW) as [l|]; [|discriminate].
  destruct (Eyebrows.browY landmarks Eyebrows.RIGHT_EYEBROW) as [r|]; [|discriminate].
  intros [= <-]. cbn [JS.bind Eyebrows.baselineLeftY Eyebrows.baselineRightY
                      Eyebrows.baseline].
  rewrite !not_raised. eexists. split; [reflexivity|]. repeat split.
Qed.

Lemma face_brows_present (f : nat -> BlinkDetection.Landmark) :
  exists l r,
    Eyebrows.browY (face f) Eyebrows.LEFT_EYEBROW = Some l /\
    Eyebrows.browY (face f) Eyebrows.RIGHT_EYEBROW = Some r.
Proof.
  unfold Eyebrows.browY, Eyebrows.LEFT_EYEBROW, Eyebrows.RIGHT_EYEBROW.
  cbn [JS.all_at]. fold (@JS.at_ BlinkDetection.Landmark).
  change (@nth_error BlinkDetection.Landmark) with (@JS.at_ BlinkDetection.Landmark).
  rewrite !face_at by lia. cbn [JS.bind]. eexists. eexists. split; reflexivity.
Qed.

Lemma calibrated_brows_at_rest_witness :
  exists this1 state,
    Eyebrows.calibrate Eyebrows.fresh (face (eyesAt 0.3)) = (this1, Some tt) /\
    Eyebrows.detect this1 (face (eyesAt 0.3)) = Some (this1, state) /\
    Eyebrows.leftRaised state = false /\
    Eyebrows.rightRaised state = false /\
    Eyebrows.bothRaised state = false.
Proof.
  assert (C : exists this1,
             Eyebrows.calibrate Eyebrows.fresh (face (eyesAt 0.3)) = (this1, Some tt)).
  { destruct (face_brows_present (eyesAt 0.3)) as [l [r [El Er]]].
    unfold Eyebrows.calibrate. rewrite El, Er. eexists. reflexivity. }
  destruct C as [this1 C]. exists this1.
  destruct (calibrated_brows_at_rest Eyebrows.fresh this1 (face (eyesAt 0.3)) C)
    as [state H].
  exists state. split; [exact C|exact H].
Defined.

(** X27.  A detector without a left baseline calibrates itself on the
    frame it is given: that frame reports no eyebrow raised, both
    baselines are set, and a second [detect] on the same landmarks
    reports none raised either. *)
Theorem first_frame_calibrates (this this' : Eyebrows.EyebrowDetector)
  (landmarks : list BlinkDetection.Landmark) (state : Eyebrows.EyebrowState) :
  Eyebrows.baselineLeftY this = None ->
  Eyebrows.detect this landmarks = Some (this', state) ->
  Eyebrows.bothRaised state = false /\
  Eyebrows.leftRaised state = false /\
  Eyebrows.rightRaised state = false /\
  Eyebrows.baselineLeftY this' = Eyebrows.browY landmarks Eyebrows.LEFT_EYEBROW /\
  Eyebrows.baselineRightY this' = Eyebrows.browY landmarks Eyebrows.RIGHT_EYEBROW /\
  exists state',
    Eyebrows.detect this' landmarks = Some (this', state') /\
    Eyebrows.leftRaised state' = false /\ Eyebrows.rightRaised state' = false.
Proof.
  intros Hb. unfold Eyebrows.detect. rewrite Hb.
  destruct (Eyebrows.browY landmarks Eyebrows.LEFT_EYEBROW) as [l|]; [|discriminate].
  destruct (Eyebrows.browY landmarks Eyebrows.RIGHT_EYEBROW) as [r|]; [|discriminate].
  cbn [JS.bind Eyebrows.baselineLeftY Eyebrows.baselineRightY Eyebrows.baseline].
  rewrite !not_raised. intros [= <- <-].
  cbn [Eyebrows.bothRaised Eyebrows.leftRaised Eyebrows.rightRaised
       Eyebrows.baselineLeftY Eyebrows.baselineRightY Eyebrows.baseline andb].
  rewrite !not_raised.
  repeat split. eexists. split; [reflexivity|]. split; reflexivity.
Qed.

Lemma first_frame_calibrates_witness :
  exists this' state,
    Eyebrows.detect Eyebrows.fresh (face (eyesAt 0.3)) = Some (this', state) /\
    Eyebrows.bothRaised state = false /\
    Eyebrows.leftRaised state = false /\
    Eyebrows.rightRaised state = false /\
    Eyebrows.baselineLeftY this'
      = Eyebrows.browY (face (eyesAt 0.3)) Eyebrows.LEFT_EYEBROW /\
    Eyebrows.baselineRightY this'
      = Eyebrows.browY (face (eyesAt 0.3)) Eyebrows.RIGHT_EYEBROW /\
    exists state',
      Eyebrows.detect this' (face (eyesAt 0.3)) = Some (this', state') /\
      Eyebrows.leftRaised state' = false /\ Eyebrows.rightRaised state' = false.
Proof.
  assert (D : exists this' state,
             Eyebrows.detect Eyebrows.fresh (face (eyesAt 0.3)) = Some (this', state)).
  { destruct (face_brows_present (eyesAt 0.3)) as [l [r [El Er]]].
    unfold Eyebrows.detect. rewrite El, Er. cbn [JS.bind]. eexists. eexists. reflexivity. }
  destruct D as [this' [state D]]. exists this', state. split; [exact D|].
  exact (first_frame_calibrates Eyebrows.fresh this' (face (eyesAt 0.3)) state eq_refl D).
Defined.

End MouthBrow.

(** ** App store: session history and engagement score *)

Section Sessions.

Import AppStore.
Open Scope Z_scope.

Lemma minQ_bounds (x : Q) : (0 <= x)%Q -> (0 <= JS.minQ 50 x <= 50)%Q.
Proof.
  intros Hx. unfold JS.minQ. destruct (Qle_bool 50 x) eqn:E.
  - split; discriminate.
  - split; [exact Hx|].
    destruct (Qlt_le_dec x 50) as [L|L]; [apply Qlt_le_weak; exact L|].
    apply Qle_bool_iff in L. rewrite L in E. discriminate.
Qed.

Lemma blinkRatePenalty_bounds (count : Z) (sessionDuration : Q) :
  (0 <= blinkRatePenalty count sessionDuration <= 10)%Q.
Proof.
  unfold blinkRatePenalty.
  destruct (Qeq_bool sessionDuration 0); [destruct (count =? 0); split; discriminate|].
  cbv zeta. repeat match goal with |- context [if ?c then _ else _] => destruct c end;
    split; discriminate.
Qed.

Lemma engagement_range_aux (now : Z) (state : AppState) :
  40 <= calculateEngagementScore now state <= 100.
Proof.
  unfold calculateEngagementScore. cbv zeta.
  set (sd := if FatigueDetection.truthy (sessionStartTime state) then _ else _).
  pose proof (blinkRatePenalty_bounds (blinkCount state) sd) as [P0 P1].
  set (p := blinkRatePenalty (blinkCount state) sd) in *.
  assert (S : (40 <= (if 0 <? sleepDuration state
                      then 100 - JS.minQ 50 (inject_Z (sleepDuration state) / 1000)
                      else 100) - p <= 100)%Q).
  { destruct (0 <? sleepDuration state) eqn:E.
    - apply Z.ltb_lt in E.
      assert (Hs : (0 <= inject_Z (sleepDuration state) / 1000)%Q).
      { apply Qle_shift_div_l; [reflexivity|]. rewrite Qmult_0_l.
        change 0%Q with (inject_Z 0). rewrite <- Zle_Qle. lia. }
      destruct (minQ_bounds _ Hs) as [M0 M1]. split; Lqa.lra.
    - split; Lqa.lra. }
  destruct S as [S0 S1].
  match goal with |- context [round ?v] => set (sc := v) in * end.
  assert (R : 40 <= round sc <= 100).
  { unfold round. split.
    - change 40 with (Qfloor (40 # 1)). apply Qfloor_resp_le. Lqa.lra.
    - change 100 with (Qfloor (100 + (1 # 2))%Q). apply Qfloor_resp_le. Lqa.lra. }
  lia.
Qed.

(** X28.  The engagement score is an integer between 40 and 100 in every
    state and at every time: sleep costs at most 50 points and the blink
    rate at most 10. *)
Theorem engagement_score_in_range (now : Z) (state : AppState) :
  40 <= calculateEngagementScore now state <= 100.
Proof. exact (engagement_range_aux now state). Qed.

Lemma length_slice_last {A : Type} (n : nat) (l : list A) :
  length (JS.slice_last n l) = Nat.min n (length l).
Proof. unfold JS.slice_last. rewrite length_skipn. lia. Qed.

Lemma slice_last_snoc {A : Type} (n : nat) (l : list A) (v : A) :
  (1 <= n)%nat -> exists older, JS.slice_last n (l ++ [v]) = older ++ [v].
Proof.
  intros Hn. unfold JS.slice_last. rewrite length_app. cbn [length].
  rewrite skipn_app.
  replace (length l + 1 - n - length l)%nat with 0%nat by lia.
  cbn [skipn]. eexists. reflexivity.
Qed.

Lemma slice_last_suffix {A : Type} (n : nat) (l : list A) :
  l = firstn (length l - n) l ++ JS.slice_last n l.
Proof. unfold JS.slice_last. symmetry. apply firstn_skipn. Qed.

(** X29.  [addSessionEntry] appends the entry, stamped with the current
    time, and keeps the last 100 entries: the new history is the old
    one followed by the new entry with only its oldest entries dropped
    (none while at most 100 remain), the order of the others kept. *)
Theorem session_history_capped (now : Z) (s : AppState)
  (entryBlinkCount entrySleepDuration entryScore : Z) :
  let entry := {| timestamp := now; e_blinkCount := entryBlinkCount;
                  e_sleepDuration := entrySleepDuration;
                  engagementScore := entryScore |} in
  let s' := addSessionEntry now s entryBlinkCount entrySleepDuration entryScore in
  length (sessionHistory s') = Nat.min 100 (S (length (sessionHistory s))) /\
  (exists older, sessionHistory s' = older ++ [entry]) /\
  sessionHistory s ++ [entry]
  = firstn (S (length (sessionHistory s)) - 100) (sessionHistory s) ++ sessionHistory s'.
Proof.
  cbn [addSessionEntry sessionHistory].
  set (entry := {| timestamp := now; e_blinkCount := entryBlinkCount;
                   e_sleepDuration := entrySleepDuration;
                   engagementScore := entryScore |}).
  assert (L : length (sessionHistory s ++ [entry]) = S (length (sessionHistory s))).
  { rewrite length_app. cbn [length]. lia. }
  split; [|split].
  - rewrite length_slice_last, L. lia.
  - apply slice_last_snoc. lia.
  - rewrite (slice_last_suffix 100 (sessionHistory s ++ [entry])) at 1.
    rewrite L. f_equal.
    rewrite firstn_app.
    replace (S (length (sessionHistory s)) - 100 - length (sessionHistory s))%nat
      with 0%nat by lia.
    cbn [firstn]. apply app_nil_r.
Qed.

(** X30.  Ending a running session clears the session start and files
    one entry, the newest of at most 100, that carries the blink count,
    the sleep duration and an engagement score between 40 and 100. *)
Theorem endSession_files_entry (now : Z) (state : AppState) :
  FatigueDetection.truthy (sessionStartTime state) = true ->
  let state' := endSession now state in
  sessionStartTime state' = None /\
  (length (sessionHistory state') <= 100)%nat /\
  exists older entry,
    sessionHistory state' = older ++ [entry] /\
    timestamp entry = now /\
    e_blinkCount entry = blinkCount state /\
    e_sleepDuration entry = sleepDuration state /\
    40 <= engagementScore entry <= 100.
Proof.
  intros Hrun. unfold endSession. rewrite Hrun. cbn [sessionStartTime sessionHistory].
  split; [reflexivity|]. split.
  - rewrite length_slice_last. lia.
  - destruct (slice_last_snoc 100 (sessionHistory state)
                {| timestamp := now; e_blinkCount := blinkCount state;
                   e_sleepDuration := sleepDuration state;
                   engagementScore := calculateEngagementScore now state |})
      as [older E]; [lia|].
    exists older. eexists. split; [exact E|].
    cbn. repeat split; try reflexivity; apply engagement_range_aux.
Qed.

(** A session started at 1000 ms and ended a minute later. *)
Lemma endSession_files_entry_witness :
  let state' := endSession 61000 (startSession 1000 initial) in
  sessionStartTime state' = None /\
  (length (sessionHistory state') <= 100)%nat /\
  exists older entry,
    sessionHistory state' = older ++ [entry] /\
    timestamp entry = 61000 /\
    e_blinkCount entry = blinkCount (startSession 1000 initial) /\
    e_sleepDuration entry = sleepDuration (startSession 1000 initial) /\
    40 <= engagementScore entry <= 100.
Proof.
  apply (endSession_files_entry 61000 (startSession 1000 initial)). reflexivity.
Defined.

End Sessions.
